(** * Baltic_Tasks: a shallow embedding of [task1.py] and [task2.py]

    The two scripts are embedded function by function.  Python exceptions are
    values of [exn] carried by the [result] monad, text is [string], XML
    elements are the trees of [xml.etree.ElementTree], a decoded JSON
    document is a [JSON] value, and a Python [float] is an IEEE 754 binary64
    number ([spec_float] of the Standard Library with 53 bits of precision:
    signed zeros, infinities, NaN, rounding to nearest even); what a
    function prints is returned as structured data (every f-string keeps the
    values it interpolates as the arguments of a constructor).

    Limits of the model, stated once:
    - [print] always succeeds;
    - text is ASCII: [float] and [int] read the ASCII digits and blanks and
      [lower] folds the ASCII letters only, where Python also knows those of
      other scripts;
    - a sum of floats adds them one by one from the left, as the loops of
      the scripts and [sum] of CPython up to 3.11 do; newer versions of
      [sum] and the sums of pandas may round the last bits differently;
    - a frame holds binary64 values, also where pandas would keep a column
      of integers. *)

From Stdlib Require Import ZArith Bool Ascii String Floats.SpecFloat.
From stdpp Require Import base strings list gmap sorting.

Open Scope string_scope.

(** ** Python: exceptions, truthiness, strings and numbers *)
Module Py.

Inductive exn : Type :=
  | TypeError
  | ValueError
  | ZeroDivisionError
  | ParseError
  | OSError
  | ConnectionError
  | Timeout
  | HTTPError (status_code : Z)
  | JSONDecodeError
  | AttributeError
  | KeyError
  | OverflowError.

Inductive result (A : Type) : Type :=
  | Ok (a : A)
  | Raise (e : exn).
Arguments Ok {A} a.
Arguments Raise {A} e.

#[global] Instance result_ret : MRet result := @Ok.
#[global] Instance result_bind : MBind result := fun A B f m =>
  match m with
  | Ok a => f a
  | Raise e => Raise e
  end.
#[global] Instance result_fmap : FMap result := fun A B f m =>
  match m with
  | Ok a => Ok (f a)
  | Raise e => Raise e
  end.

(** [try: body except Exception as e: handler(e)] *)
Definition try_except {A} (body : result A) (handler : exn -> result A) : result A :=
  match body with
  | Ok a => Ok a
  | Raise e => handler e
  end.

(** [try: body except ValueError: handler]: [JSONDecodeError] is a subclass
    of [ValueError]; other exceptions pass through. *)
Definition try_except_ValueError {A} (body : result A) (handler : result A) : result A :=
  match body with
  | Raise ValueError | Raise JSONDecodeError => handler
  | r => r
  end.

Definition is_Ok {A} (r : result A) : bool :=
  match r with Ok _ => true | Raise _ => false end.

(** Truth value of a [str] or [None]: [None] and the empty string are false. *)
Definition truthy (o : option string) : bool :=
  match o with
  | Some s => negb (String.eqb s EmptyString)
  | None => false
  end.

(** [needle in hay] on strings. *)
Fixpoint str_in (needle hay : string) : bool :=
  String.prefix needle hay ||
  match hay with
  | EmptyString => false
  | String _ rest => str_in needle rest
  end.

(** [needle in hay] when [needle] may be [None]: Python raises [TypeError]. *)
Definition in_str (needle : option string) (hay : string) : result bool :=
  match needle with
  | Some n => Ok (str_in n hay)
  | None => Raise TypeError
  end.

(** [s.split(sep)] for a non-empty [sep]: pieces between the occurrences of
    [sep] found from left to right; [skip] counts the characters of the
    occurrence still to pass over, [cur] is the piece being read, reversed. *)
Fixpoint split_go (sep : string) (skip : nat) (cur : string) (s : string) : list string :=
  match s with
  | EmptyString => [String.rev cur]
  | String c rest =>
      match skip with
      | S k => split_go sep k cur rest
      | O =>
          if String.prefix sep s
          then String.rev cur :: split_go sep (String.length sep - 1) EmptyString rest
          else split_go sep 0 (String c cur) rest
      end
  end.

Definition py_split (sep s : string) : list string := split_go sep 0 EmptyString s.

(** [s.split(sep)[-1]] *)
Definition split_last (sep s : string) : string := List.last (py_split sep s) s.

Definition lower_ascii (c : ascii) : ascii :=
  let n := nat_of_ascii c in
  if (65 <=? n)%nat && (n <=? 90)%nat then ascii_of_nat (n + 32) else c.

Fixpoint lower (s : string) : string :=
  match s with
  | EmptyString => EmptyString
  | String c rest => String (lower_ascii c) (lower rest)
  end.

(** *** Floats *)

(** Binary64: 53 bits of precision, exponents below 1024. *)
Definition prec : Z := 53.
Definition emax : Z := 1024.

Definition float : Type := spec_float.

Module F64.

Definition zero : float := S754_zero false.
Definition nan : float := S754_nan.
Definition infinity (negative : bool) : float := S754_infinity negative.

Definition add : float -> float -> float := SFadd prec emax.
Definition sub : float -> float -> float := SFsub prec emax.
Definition div : float -> float -> float := SFdiv prec emax.
Definition abs : float -> float := SFabs.

(** [x < y] and [x == y]; both are false when either side is NaN. *)
Definition ltb : float -> float -> bool := SFltb.
Definition eqb : float -> float -> bool := SFeqb.

Definition is_nan (x : float) : bool :=
  match x with S754_nan => true | _ => false end.

Definition is_infinite (x : float) : bool :=
  match x with S754_infinity _ => true | _ => false end.

(** The float nearest to an integer. *)
Definition of_Z (z : Z) : float := binary_normalize prec emax z 0 false.

(** The float nearest to [m * 10 ^ e] for [m >= 0], with the sign given: an
    integer is rounded; a fraction is the rounded quotient of two integers.
    Too large a number is an infinity, too small a one a zero. *)
Definition of_decimal (negative : bool) (m e : Z) : float :=
  match m, e with
  | Zpos m, Zneg p => div (S754_finite negative m 0) (S754_finite false (Pos.pow 10 p) 0)
  | Zpos m, _ => binary_round prec emax negative (m * Z.to_pos (Z.pow 10 e)) 0
  | _, _ => S754_zero negative
  end.

End F64.

(** *** Reading numbers *)

Definition is_space (c : ascii) : bool :=
  let n := nat_of_ascii c in
  (n =? 32)%nat || ((9 <=? n)%nat && (n <=? 13)%nat).

Definition is_digit (c : ascii) : bool :=
  let n := nat_of_ascii c in (48 <=? n)%nat && (n <=? 57)%nat.

Definition digit_val (c : ascii) : Z := Z.of_nat (nat_of_ascii c) - 48.

Fixpoint lstrip (l : list ascii) : list ascii :=
  match l with
  | c :: rest => if is_space c then lstrip rest else l
  | [] => []
  end.

Definition strip (l : list ascii) : list ascii :=
  List.rev (lstrip (List.rev (lstrip l))).

(** The digit-group underscores of a number are taken out first; each must
    stand between two digits, or the text is no number ([None]). *)
Fixpoint underscores (after_digit : bool) (l : list ascii) : option (list ascii) :=
  match l with
  | [] => Some []
  | c :: rest =>
      if (c =? "_")%char then
        match rest with
        | d :: _ => if after_digit && is_digit d then underscores false rest else None
        | [] => None
        end
      else cons c <$> underscores (is_digit c) rest
  end.

(** Leading digits of [l]: their value on top of [acc], how many, the rest. *)
Fixpoint digits (l : list ascii) (acc : Z) (n : nat) : Z * nat * list ascii :=
  match l with
  | c :: rest =>
      if is_digit c then digits rest (10 * acc + digit_val c)%Z (S n)
      else (acc, n, l)
  | [] => (acc, n, [])
  end.

(** An optional sign: [true] for a minus. *)
Definition sign (l : list ascii) : bool * list ascii :=
  match l with
  | "-"%char :: rest => (true, rest)
  | "+"%char :: rest => (false, rest)
  | _ => (false, l)
  end.

(** The exponent part: nothing, or [e]/[E], a sign and at least one digit. *)
Definition exponent (l : list ascii) : option Z :=
  match l with
  | [] => Some 0%Z
  | c :: rest =>
      if (c =? "e")%char || (c =? "E")%char then
        let '(neg, rest) := sign rest in
        let '(v, n, rest) := digits rest 0 0 in
        match n, rest with
        | S _, [] => Some (if neg then - v else v)%Z
        | _, _ => None
        end
      else None
  end.

(** [l] spells [word], in any case. *)
Definition spelled (word : string) (l : list ascii) : bool :=
  String.eqb (lower (string_of_list_ascii l)) word.

(** [float(s)] for a string: blanks around, a sign, then [inf], [infinity]
    or [nan] in any case, or digits with at most one point and an optional
    exponent; the digits after the point extend the integer before it. *)
Definition float_of_str (s : string) : result float :=
  match underscores false (list_ascii_of_string s) with
  | None => Raise ValueError
  | Some l =>
      let '(neg, l) := sign (strip l) in
      if spelled "inf" l || spelled "infinity" l then Ok (F64.infinity neg)
      else if spelled "nan" l then Ok F64.nan
      else
        let '(i, ni, l) := digits l 0 0 in
        let '(m, nf, l) :=
          match l with
          | "."%char :: rest => digits rest i 0
          | _ => (i, O, l)
          end in
        match (ni + nf)%nat, exponent l with
        | S _, Some e => Ok (F64.of_decimal neg m (e - Z.of_nat nf))
        | _, _ => Raise ValueError
        end
  end.

(** [float(x)] where [x] is a string or [None]. *)
Definition py_float (x : option string) : result float :=
  match x with
  | Some s => float_of_str s
  | None => Raise TypeError
  end.

(** [int(s)] for a string; more than 4300 digits are refused. *)
Definition int_of_str (s : string) : result Z :=
  match underscores false (list_ascii_of_string s) with
  | None => Raise ValueError
  | Some l =>
      let '(neg, l) := sign (strip l) in
      let '(v, n, l) := digits l 0 0 in
      match n, l with
      | S _, [] =>
          if (4300 <? n)%nat then Raise ValueError
          else Ok (if neg then - v else v)%Z
      | _, _ => Raise ValueError
      end
  end.

(** [int(x)] where [x] is a string or [None]. *)
Definition py_int (x : option string) : result Z :=
  match x with
  | Some s => int_of_str s
  | None => Raise TypeError
  end.

(** Truth value of a float, and of a float or [None]: only the zeros are
    false, NaN is true. *)
Definition nonzero (x : float) : bool := negb (F64.eqb x F64.zero).

Definition truthy_float (o : option float) : bool :=
  match o with
  | Some x => nonzero x
  | None => false
  end.

(** [max(l, key=key)] on a non-empty list that starts with [best]: the
    running best is replaced only by a strictly larger key, so the first of
    several largest elements is kept. *)
Fixpoint py_max {A} (key : A -> float) (best : A) (l : list A) : A :=
  match l with
  | [] => best
  | x :: rest =>
      if F64.ltb (key best) (key x) then py_max key x rest
      else py_max key best rest
  end.

(** [l.sort(key=key)]: the order of equal keys is kept. *)
Fixpoint insert_by {A} (key : A -> Z) (x : A) (l : list A) : list A :=
  match l with
  | [] => [x]
  | y :: rest =>
      if (key x <=? key y)%Z then x :: l
      else y :: insert_by key x rest
  end.

Fixpoint py_sort {A} (key : A -> Z) (l : list A) : list A :=
  match l with
  | [] => []
  | x :: rest => insert_by key x (py_sort key rest)
  end.

End Py.

Export Py.

(** ** xml.etree.ElementTree: elements and the three searches the script uses *)
Module ET.

(** An element: its tag in Clark notation ([{uri}local]), its attributes, its
    text ([None] when the element has none) and its children in document
    order. *)
#[warnings="-register-all"]
Inductive Element : Type :=
  mkElement (tag : string) (attrib : list (string * string))
            (text : option string) (children : list Element).

Definition tag (e : Element) : string :=
  match e with mkElement t _ _ _ => t end.
Definition attrib (e : Element) : list (string * string) :=
  match e with mkElement _ a _ _ => a end.
Definition text (e : Element) : option string :=
  match e with mkElement _ _ x _ => x end.
Definition children (e : Element) : list Element :=
  match e with mkElement _ _ _ cs => cs end.

(** [e.iter()]: the element, then its descendants, in document order. *)
Fixpoint iter (e : Element) : list Element :=
  match e with
  | mkElement _ _ _ cs => e :: List.flat_map iter cs
  end.

(** [root.findall('.//t')]: the descendants of [root] (not [root] itself)
    whose tag is [t], in document order. *)
Definition findall (t : string) (root : Element) : list Element :=
  List.filter (fun e => String.eqb (tag e) t) (List.flat_map iter (children root)).

(** [e.find(t)] for a tag in Clark notation: the first child with that tag. *)
Definition find (t : string) (e : Element) : option Element :=
  List.find (fun c => String.eqb (tag c) t) (children e).

(** [e.get(key)] *)
Fixpoint assoc (key : string) (l : list (string * string)) : option string :=
  match l with
  | [] => None
  | (k, v) :: rest => if String.eqb k key then Some v else assoc key rest
  end.

Definition get (key : string) (e : Element) : option string :=
  assoc key (attrib e).

End ET.

(** ** task2.py *)
Module Task2.
Import ET.

(** [NAMESPACES]; the script only ever looks up ['cim'] and ['rdf']. *)
Definition cim : string := "http://iec.ch/TC57/CIM100#".
Definition rdf : string := "http://www.w3.org/1999/02/22-rdf-syntax-ns#".

(** [f"{{{NAMESPACES[ns]}}}{tag_name}"] *)
Definition full_tag (ns tag_name : string) : string :=
  "{" ++ ns ++ "}" ++ tag_name.

(** [get_element_text(element, tag_name)], always called with [ns='cim']. *)
Definition get_element_text (element : Element) (tag_name : string) : option string :=
  match find (full_tag cim tag_name) element with
  | Some child => text child
  | None => None
  end.

(** [get_element_resource(element, tag_name)], always called with [ns='cim']. *)
Definition get_element_resource (element : Element) (tag_name : string) : option string :=
  match find (full_tag cim tag_name) element with
  | Some child => get (full_tag rdf "resource") child
  | None => None
  end.

(** [root.findall('.//cim:T', NAMESPACES)] *)
Definition findall_cim (T : string) (root : Element) : list Element :=
  findall (full_tag cim T) root.

(** A [for] loop whose body may raise: the state is threaded through the
    iterations and the first exception ends the loop. *)
Fixpoint for_each {A S : Type} (l : list A) (body : S -> A -> result S) (s : S) : result S :=
  match l with
  | [] => Ok s
  | x :: rest => s' ← body s x; for_each rest body s'
  end.

(** [ref and needle in ref]: the membership test runs, and raises when
    [needle] is [None], only for a non-empty [ref]. *)
Definition ref_mentions (ref needle : option string) : result bool :=
  match ref with
  | Some r => if truthy ref then in_str needle r else Ok false
  | None => Ok false
  end.

(** [x == s] for [x] a string or [None] and [s] a string. *)
Definition is_str (x : option string) (s : string) : bool :=
  match x with
  | Some t => String.eqb t s
  | None => false
  end.

(** [float(x) if x else d] *)
Definition float_or {A} (x : option string) (some : float -> A) (d : A) : result A :=
  if truthy x then some <$> py_float x else Ok d.

(** *** Question 1: generator capacity and power factors *)

(** A value of the [gen_units] dictionary.  The keys ['power_factor'] and
    ['rated_s'] are absent ([None]) until a synchronous machine sets them,
    and then hold a float or Python's [None] ([Some None]). *)
Record GenUnit : Type := mk_gen_unit {
  name : option string;
  max_p : float;
  min_p : float;
  nominal_p : float;
  power_factor : option (option float);
  rated_s : option (option float)
}.

(** A [dict] in insertion order; keys are mRIDs, which may be [None]. *)
Definition dict (V : Type) : Type := list (option string * V).

Definition key_eqb (a b : option string) : bool :=
  match a, b with
  | Some x, Some y => String.eqb x y
  | None, None => true
  | _, _ => false
  end.

(** [k in d] *)
Definition dict_mem {V} (k : option string) (d : dict V) : bool :=
  existsb (fun kv => key_eqb kv.1 k) d.

(** [d[k] = v]: an existing key keeps its place. *)
Fixpoint dict_set {V} (k : option string) (v : V) (d : dict V) : dict V :=
  match d with
  | [] => [(k, v)]
  | (k', v') :: rest =>
      if key_eqb k' k then (k, v) :: rest else (k', v') :: dict_set k v rest
  end.

(** [d[k] = f(d[k])] for a key known to be present. *)
Fixpoint dict_update {V} (k : option string) (f : V -> V) (d : dict V) : dict V :=
  match d with
  | [] => []
  | (k', v') :: rest =>
      if key_eqb k' k then (k', f v') :: rest else (k', v') :: dict_update k f rest
  end.

(** The body of the loop over the generating units. *)
Definition collect_gen_unit (st : dict GenUnit * float) (gen_unit : Element)
  : result (dict GenUnit * float) :=
  let mrid := get_element_text gen_unit "IdentifiedObject.mRID" in
  let name := get_element_text gen_unit "IdentifiedObject.name" in
  let max_p := get_element_text gen_unit "GeneratingUnit.maxOperatingP" in
  let min_p := get_element_text gen_unit "GeneratingUnit.minOperatingP" in
  let nominal_p := get_element_text gen_unit "GeneratingUnit.nominalP" in
  if truthy max_p then
    mx ← py_float max_p;
    mn ← float_or min_p id F64.zero;
    nm ← float_or nominal_p id F64.zero;
    Ok (dict_set mrid (mk_gen_unit name mx mn nm None None) st.1, F64.add st.2 mx)
  else Ok st.

(** The body of the loop over the synchronous machines. *)
Definition join_sync_machine (gen_units : dict GenUnit) (sync_machine : Element)
  : result (dict GenUnit) :=
  let gen_unit_ref := get_element_resource sync_machine "RotatingMachine.GeneratingUnit" in
  let pf := get_element_text sync_machine "RotatingMachine.ratedPowerFactor" in
  let rated_s := get_element_text sync_machine "RotatingMachine.ratedS" in
  match gen_unit_ref with
  | Some ref =>
      if truthy gen_unit_ref then
        let gen_unit_id := split_last "#_" ref in
        if dict_mem (Some gen_unit_id) gen_units then
          pf' ← float_or pf Some None;
          rs' ← float_or rated_s Some None;
          Ok (dict_update (Some gen_unit_id)
                (fun u => mk_gen_unit (name u) (max_p u) (min_p u) (nominal_p u)
                                      (Some pf') (Some rs'))
                gen_units)
        else Ok gen_units
      else Ok gen_units
  | None => Ok gen_units
  end.

(** Printing one row of the table formats the name with [:<25] and, when the
    key is set, the power factor and rated power with [:.2f] and [:.1f]:
    [None] there raises [TypeError]. *)
Definition print_gen_unit (data : GenUnit) : result GenUnit :=
  match name data, power_factor data, rated_s data with
  | None, _, _ => Raise TypeError
  | _, Some None, _ => Raise TypeError
  | _, _, Some None => Raise TypeError
  | _, _, _ => Ok data
  end.

(** What question 1 prints: the total capacity and the table rows. *)
Definition analyze_question_1 (root : Element) : result (float * list GenUnit) :=
  '(gen_units, total_capacity) ←
     for_each (findall_cim "GeneratingUnit" root) collect_gen_unit ([], F64.zero);
  gen_units ← for_each (findall_cim "SynchronousMachine" root) join_sync_machine gen_units;
  rows ← mapM (fun kv => print_gen_unit kv.2) gen_units;
  Ok (total_capacity, rows).

(** *** Question 2: regulation control of NL-G1 *)

Inductive regulation : Type :=
  | Regulation_Mode (mode : string)
  | Nothing_printed
  | RegulatingControl_not_found.

(** [resource.split('#')[-1] if resource else default] *)
Definition member_or (resource : option string) (default : string) : string :=
  match resource with
  | Some r => if truthy resource then split_last "#" r else default
  | None => default
  end.

(** What question 2 prints for the first machine named NL-G1, if any: its
    mRID and, when it has a control reference, the mode of the first
    control with that mRID ([Nothing_printed] when there is none). *)
Definition analyze_question_2 (root : Element) : option (option string * regulation) :=
  match List.find (fun sm => is_str (get_element_text sm "IdentifiedObject.name") "NL-G1")
                  (findall_cim "SynchronousMachine" root) with
  | Some sync_machine =>
      let mrid := get_element_text sync_machine "IdentifiedObject.mRID" in
      let reg_control_ref :=
        get_element_resource sync_machine "RegulatingCondEq.RegulatingControl" in
      Some (mrid,
        match reg_control_ref with
        | Some ref =>
            if truthy reg_control_ref then
              let reg_control_id := split_last "#_" ref in
              match List.find
                      (fun rc => is_str (get_element_text rc "IdentifiedObject.mRID")
                                        reg_control_id)
                      (findall_cim "RegulatingControl" root) with
              | Some reg_control =>
                  Regulation_Mode
                    (member_or (get_element_resource reg_control "RegulatingControl.mode")
                               "Unknown")
              | None => Nothing_printed
              end
            else RegulatingControl_not_found
        | None => RegulatingControl_not_found
        end)
  | None => None
  end.

(** *** Question 3: transformer winding voltages *)

Definition transformer_id : string := "2184f365-8cd5-4b5d-8a28-9d68603bb6a4".

(** An entry of [windings]; the fields are the keys ['end'], ['u'], ['s']
    and ['conn']. *)
Record winding : Type := mk_winding {
  w_end : Z;
  w_u : float;
  w_s : float;
  w_conn : string
}.

Inductive side : Type := YG | AG.

(** ["YG" if w['u'] > 100 else "AG"] *)
Definition side_of (w : winding) : side :=
  if F64.ltb (F64.of_Z 100) (w_u w) then YG else AG.

(** [tf_ref and transformer_id in tf_ref] *)
Definition mentions_transformer (tf_end : Element) : bool :=
  match get_element_resource tf_end "PowerTransformerEnd.PowerTransformer" with
  | Some tf_ref => negb (String.eqb tf_ref EmptyString) && str_in transformer_id tf_ref
  | None => false
  end.

(** The dictionary built for a transformer end: [int] of the end number,
    then [float] of the rated voltage and of the rated power. *)
Definition winding_of (tf_end : Element) : result winding :=
  let end_num := get_element_text tf_end "TransformerEnd.endNumber" in
  let rated_u := get_element_text tf_end "PowerTransformerEnd.ratedU" in
  let rated_s := get_element_text tf_end "PowerTransformerEnd.ratedS" in
  let connection := get_element_resource tf_end "PowerTransformerEnd.connectionKind" in
  let connection_type := member_or connection "N/A" in
  e ← py_int end_num;
  u ← py_float rated_u;
  s ← py_float rated_s;
  Ok (mk_winding e u s connection_type).

(** The body of the loop over the transformer ends. *)
Definition collect_winding (windings : list winding) (tf_end : Element)
  : result (list winding) :=
  if mentions_transformer tf_end then
    w ← winding_of tf_end;
    Ok (windings ++ [w])%list
  else Ok windings.

(** The transformer analysis, printed when there are two windings or more:
    the voltage ratio and the power of the first winding. *)
Definition transformer_analysis (windings : list winding)
  : result (option (float * float)) :=
  match windings with
  | w0 :: w1 :: _ =>
      if nonzero (w_u w1) then Ok (Some (F64.div (w_u w0) (w_u w1), w_s w0))
      else Raise ZeroDivisionError
  | _ => Ok None
  end.

Record question_3 : Type := mk_question_3 {
  transformer_name : option string;
  winding_rows : list (side * winding);
  analysis : option (float * float)
}.

(** What question 3 prints for the first transformer with the fixed mRID. *)
Definition analyze_question_3 (root : Element) : result (option question_3) :=
  match List.find (fun t => is_str (get_element_text t "IdentifiedObject.mRID") transformer_id)
                  (findall_cim "PowerTransformer" root) with
  | Some transformer =>
      let name := get_element_text transformer "IdentifiedObject.name" in
      windings ← for_each (findall_cim "PowerTransformerEnd" root) collect_winding [];
      let windings := py_sort w_end windings in
      ratio ← transformer_analysis windings;
      Ok (Some (mk_question_3 name (List.map (fun w => (side_of w, w)) windings) ratio))
  | None => Ok None
  end.

(** *** Question 4: line limits *)

Definition line_id : string := "e8acf6b6-99cb-45ad-b8dc-16c7866a4ddc".

Inductive duration_str : Type :=
  | Permanent
  | Seconds (duration : string)
  | N_A.

(** A printed row: port, limit type, value, duration. *)
Record limit_row : Type := mk_limit_row {
  port : string;
  limit_type_name : string;
  value : string;
  duration : duration_str
}.

(** The rows printed for one current limit of a matching limit set: one row
    when the first limit type with the referenced mRID exists, none
    otherwise; a missing port, name or value cannot be formatted. *)
Definition limit_rows (root : Element) (seq : option string) (current_limit : Element)
  : result (list limit_row) :=
  let limit_value := get_element_text current_limit "CurrentLimit.normalValue" in
  let limit_type_ref :=
    get_element_resource current_limit "OperationalLimit.OperationalLimitType" in
  match limit_type_ref with
  | Some ref =>
      if truthy limit_type_ref then
        let limit_type_id := split_last "#_" ref in
        match List.find
                (fun lt => is_str (get_element_text lt "IdentifiedObject.mRID") limit_type_id)
                (findall_cim "OperationalLimitType" root) with
        | Some limit_type =>
            let lt_name := get_element_text limit_type "IdentifiedObject.name" in
            let duration :=
              get_element_text limit_type "OperationalLimitType.acceptableDuration" in
            let is_infinite :=
              get_element_text limit_type "OperationalLimitType.isInfiniteDuration" in
            let duration_str :=
              if is_str is_infinite "true" then Permanent
              else match duration with
                   | Some d => if truthy duration then Seconds d else N_A
                   | None => N_A
                   end in
            match seq, lt_name, limit_value with
            | Some p, Some n, Some v => Ok [mk_limit_row p n v duration_str]
            | _, _, _ => Raise TypeError
            end
        | None => Ok []
        end
      else Ok []
  | None => Ok []
  end.

(** The rows printed for one terminal: its limit sets, then their limits. *)
Definition terminal_rows (root : Element) (term : option string * option string)
  : result (list limit_row) :=
  for_each (findall_cim "OperationalLimitSet" root)
    (fun rows limit_set =>
       let term_ref := get_element_resource limit_set "OperationalLimitSet.Terminal" in
       b ← ref_mentions term_ref term.1;
       if b : bool then
         let limit_set_mrid := get_element_text limit_set "IdentifiedObject.mRID" in
         for_each (findall_cim "CurrentLimit" root)
           (fun rows current_limit =>
              let ls_ref :=
                get_element_resource current_limit "OperationalLimit.OperationalLimitSet" in
              b ← ref_mentions ls_ref limit_set_mrid;
              if b : bool then
                new ← limit_rows root term.2 current_limit;
                Ok (rows ++ new)%list
              else Ok rows)
           rows
       else Ok rows)
    [].

(** What question 4 prints for the first line with the fixed mRID: its name
    and the limit rows of its terminals. *)
Definition analyze_question_4 (root : Element)
  : result (option (option string * list limit_row)) :=
  match List.find (fun l => is_str (get_element_text l "IdentifiedObject.mRID") line_id)
                  (findall_cim "ACLineSegment" root) with
  | Some line =>
      let name := get_element_text line "IdentifiedObject.name" in
      let terminals :=
        List.map (fun terminal =>
                    (get_element_text terminal "IdentifiedObject.mRID",
                     get_element_text terminal "ACDCTerminal.sequenceNumber"))
          (List.filter
             (fun terminal =>
                match get_element_resource terminal "Terminal.ConductingEquipment" with
                | Some equip_ref => negb (String.eqb equip_ref EmptyString) && str_in line_id equip_ref
                | None => false
                end)
             (findall_cim "Terminal" root)) in
      rows ← for_each terminals
               (fun rows term => new ← terminal_rows root term; Ok (rows ++ new)%list) [];
      Ok (Some (name, rows))
  | None => Ok None
  end.

(** *** Question 5: slack generator *)

(** An entry of [generators]. *)
Record generator : Type := mk_generator {
  g_name : option string;
  g_control : string;
  g_max_p : float
}.

(** A printed line of the control-source listing; [slack_mark] tells the
    line that starts with the SLACK mark from the plain one. *)
Record control_row : Type := mk_control_row {
  slack_mark : bool;
  unit_name : string;
  control : string;
  max_p_text : option string
}.

(** ['onAGC' in control_str or 'slack' in control_str.lower()] *)
Definition is_slack (control_str : string) : bool :=
  str_in "onAGC" control_str || str_in "slack" (lower control_str).

(** The body of the loop over the generating units: the entry appended to
    [generators], then the printed line, whose name is formatted with
    [:<25] and so must not be [None]. *)
Definition control_source (gen_unit : Element) : result (generator * control_row) :=
  let name := get_element_text gen_unit "IdentifiedObject.name" in
  let control_source := get_element_resource gen_unit "GeneratingUnit.genControlSource" in
  let max_p := get_element_text gen_unit "GeneratingUnit.maxOperatingP" in
  let control_str := member_or control_source "Not specified" in
  p ← float_or max_p id F64.zero;
  match name with
  | Some n => Ok (mk_generator name control_str p,
                  mk_control_row (is_slack control_str) n control_str max_p)
  | None => Raise TypeError
  end.

(** [max(generators, key=lambda x: x['max_p'])], for [generators] not empty. *)
Definition largest (generators : list generator) : option generator :=
  match generators with
  | [] => None
  | g :: rest => Some (py_max g_max_p g rest)
  end.

Record question_5 : Type := mk_question_5 {
  control_rows : list control_row;
  slack_found : bool;
  no_slack_warning : bool;
  recommendation : option generator
}.

(** What question 5 prints: the listing, and when no line was marked the
    warning that no explicit slack generator was found, with the
    recommended unit if there is any unit at all. *)
Definition analyze_question_5 (root : Element) : result question_5 :=
  units ← mapM control_source (findall_cim "GeneratingUnit" root);
  let generators := List.map fst units in
  let rows := List.map snd units in
  let slack_found := existsb slack_mark rows in
  Ok (mk_question_5 rows slack_found (negb slack_found)
        (if slack_found then None else largest generators)).

(** *** Question 6: model errors and issues *)

(** The entries appended to [errors] and [warnings]: one constructor per
    f-string, carrying the values the string interpolates. *)
Inductive message : Type :=
  | DUPLICATE_mRID (mrid : string)
  | Used_in_elements (n : nat) (types : gset string)
  | DUPLICATE_PowerTransformerEnd_mRID (mrid : string)
  | Found_in_windings (n : nat) (names : list (option string))
  | ILLOGICAL_LIMIT (tatl_value patl_value : float)
  | Temporary_limit_should_be_HIGHER
  | VOLTAGE_MISMATCH (vl_name : string) (bv_num : float)
  | ZERO_IMPEDANCE (name : option string)
  | Missing_closing_tag_FullModel
  | INCOMPLETE_mRID
  | XML_TYPO_lname
  | XML_structure_could_not_be_checked (e : exn).

(** A [defaultdict(list)] in insertion order, and [d[k].append(v)]. *)
Fixpoint dict_append {V} (k : string) (v : V) (d : list (string * list V))
  : list (string * list V) :=
  match d with
  | [] => [(k, [v])]
  | (k', vs) :: rest =>
      if String.eqb k' k then (k', (vs ++ [v])%list) :: rest
      else (k', vs) :: dict_append k v rest
  end.

(** [1] The mRIDs of the document: for every element and every child of it
    whose tag contains [mRID] and whose text is not empty, the local name of
    the element is filed under that text. *)
Definition mrids (root : Element) : list (string * list string) :=
  foldl (fun d element =>
           foldl (fun d child =>
                    if str_in "mRID" (tag child) then
                      match text child with
                      | Some t =>
                          if truthy (text child)
                          then dict_append t (split_last "}" (tag element)) d
                          else d
                      | None => d
                      end
                    else d)
                 d (children element))
        [] (iter root).

Definition check_duplicate_mrids (root : Element) : list message :=
  List.flat_map
    (fun '(mrid, elements) =>
       if (1 <? length elements)%nat
       then [DUPLICATE_mRID mrid;
             Used_in_elements (length elements) (list_to_set elements)]
       else [])
    (mrids root).

(** [2] Transformer ends that share an mRID. *)
Definition tf_end_ids (root : Element) : list (string * list (option string)) :=
  foldl (fun d tf_end =>
           let mrid := get_element_text tf_end "IdentifiedObject.mRID" in
           let name := get_element_text tf_end "IdentifiedObject.name" in
           match mrid with
           | Some m => if truthy mrid then dict_append m name d else d
           | None => d
           end)
        [] (findall_cim "PowerTransformerEnd" root).

Definition check_transformer_ends (root : Element) : list message :=
  List.flat_map
    (fun '(mrid, names) =>
       if (1 <? length names)%nat
       then [DUPLICATE_PowerTransformerEnd_mRID mrid;
             Found_in_windings (length names) names]
       else [])
    (tf_end_ids root).

(** [3] The values a limit set resolves to.  The state is
    [(patl_value, tatl_value)]; a current limit that mentions the set and
    names a limit type updates it from the first limit type with that mRID:
    the name is tested for [PATL] first, then for [TATL]. *)
Definition resolve_limit (root : Element) (ls_mrid : option string)
    (st : option float * option float) (current_limit : Element)
  : result (option float * option float) :=
  let ls_ref := get_element_resource current_limit "OperationalLimit.OperationalLimitSet" in
  b ← ref_mentions ls_ref ls_mrid;
  if b : bool then
    let limit_value := get_element_text current_limit "CurrentLimit.normalValue" in
    let limit_type_ref :=
      get_element_resource current_limit "OperationalLimit.OperationalLimitType" in
    match limit_type_ref with
    | Some ref =>
        if truthy limit_type_ref then
          let lt_id := split_last "#_" ref in
          match List.find
                  (fun lt => is_str (get_element_text lt "IdentifiedObject.mRID") lt_id)
                  (findall_cim "OperationalLimitType" root) with
          | Some limit_type =>
              match get_element_text limit_type "IdentifiedObject.name" with
              | Some lt_name =>
                  if str_in "PATL" lt_name then
                    v ← float_or limit_value Some None; Ok (v, st.2)
                  else if str_in "TATL" lt_name then
                    v ← float_or limit_value Some None; Ok (st.1, v)
                  else Ok st
              | None => Raise TypeError
              end
          | None => Ok st
          end
        else Ok st
    | None => Ok st
    end
  else Ok st.

Definition resolve_limits (root limit_set : Element)
  : result (option float * option float) :=
  let ls_mrid := get_element_text limit_set "IdentifiedObject.mRID" in
  for_each (findall_cim "CurrentLimit" root) (resolve_limit root ls_mrid) (None, None).

(** [if patl_value and tatl_value and tatl_value < patl_value]: two entries. *)
Definition limit_errors (values : option float * option float) : list message :=
  match values with
  | (Some patl_value, Some tatl_value) =>
      if nonzero patl_value && nonzero tatl_value && F64.ltb tatl_value patl_value
      then [ILLOGICAL_LIMIT tatl_value patl_value; Temporary_limit_should_be_HIGHER]
      else []
  | _ => []
  end.

Definition check_limit_logic (root : Element) : result (list message) :=
  for_each (findall_cim "OperationalLimitSet" root)
    (fun errors limit_set =>
       values ← resolve_limits root limit_set;
       Ok (errors ++ limit_errors values)%list)
    [].

(** [4] Voltage levels against their base voltage: a name or a nominal
    voltage that is not a number is passed over. *)
Definition voltage_mismatch (root vl : Element) : result (list message) :=
  let vl_name := get_element_text vl "IdentifiedObject.name" in
  let base_v_ref := get_element_resource vl "VoltageLevel.BaseVoltage" in
  match base_v_ref, vl_name with
  | Some ref, Some vl_name' =>
      if truthy base_v_ref && truthy vl_name then
        let bv_id := split_last "#_" ref in
        match List.find
                (fun bv => is_str (get_element_text bv "IdentifiedObject.mRID") bv_id)
                (findall_cim "BaseVoltage" root) with
        | Some base_v =>
            let nominal_v := get_element_text base_v "BaseVoltage.nominalVoltage" in
            if truthy nominal_v then
              try_except_ValueError
                (vl_num ← py_float vl_name;
                 bv_num ← py_float nominal_v;
                 if F64.ltb (F64.of_Z 1) (F64.abs (F64.sub vl_num bv_num))
                 then Ok [VOLTAGE_MISMATCH vl_name' bv_num]
                 else Ok [])
                (Ok [])
            else Ok []
        | None => Ok []
        end
      else Ok []
  | _, _ => Ok []
  end.

Definition check_voltage_levels (root : Element) : result (list message) :=
  for_each (findall_cim "VoltageLevel" root)
    (fun warnings vl => new ← voltage_mismatch root vl; Ok (warnings ++ new)%list)
    [].

(** [5] Equivalent injections with [r] and [x] both zero:
    [if r and x and float(r) == 0 and float(x) == 0]. *)
Definition zero_impedance (eq_inj : Element) : result (list message) :=
  let name := get_element_text eq_inj "IdentifiedObject.name" in
  let r := get_element_text eq_inj "EquivalentInjection.r" in
  let x := get_element_text eq_inj "EquivalentInjection.x" in
  if truthy r && truthy x then
    r' ← py_float r;
    if nonzero r' then Ok []
    else
      x' ← py_float x;
      if nonzero x' then Ok [] else Ok [ZERO_IMPEDANCE name]
  else Ok [].

Definition check_impedances (root : Element) : result (list message) :=
  for_each (findall_cim "EquivalentInjection" root)
    (fun warnings eq_inj => new ← zero_impedance eq_inj; Ok (warnings ++ new)%list)
    [].

(** The mRID that lacks its last character, with the quote that closes it. *)
Definition incomplete_mrid : string :=
  "bf2a4896-2e92-465b-b5f9-b033993a318" ++ String (ascii_of_nat 34) EmptyString.

(** [6] The raw text of the file, read again; [xml_content] is what reading
    it gives.  A failure to read becomes a warning. *)
Definition check_xml_structure (xml_content : result string)
  : result (list message * list message) :=
  try_except
    (content ← xml_content;
     Ok ((if str_in "<md:FullModel" content && negb (str_in "</md:FullModel>" content)
          then [Missing_closing_tag_FullModel] else []) ++
         (if str_in incomplete_mrid content
          then [INCOMPLETE_mRID] else []) ++
         (if str_in "<cim:IdentifiedObject.lname>" content
          then [XML_TYPO_lname] else []),
         [])%list)
    (fun e => Ok ([], [XML_structure_could_not_be_checked e])).

(** What question 6 prints in its summary: [errors] and [warnings].  The
    summary comes after the six checks, which run in this order. *)
Definition analyze_question_6 (root : Element) (xml_content : result string)
  : result (list message * list message) :=
  let errors1 := check_duplicate_mrids root in
  let errors2 := check_transformer_ends root in
  errors3 ← check_limit_logic root;
  warnings4 ← check_voltage_levels root;
  warnings5 ← check_impedances root;
  '(errors6, warnings6) ← check_xml_structure xml_content;
  Ok (errors1 ++ errors2 ++ errors3 ++ errors6, warnings4 ++ warnings5 ++ warnings6)%list.

(** *** Loading and [main] *)

(** The two ways the script reads its file: [ET.parse(path).getroot()], and
    [open(path).read()] in the sixth check. *)
Record files : Type := mk_files {
  ET_parse : string -> result Element;
  read_text : string -> result string
}.

Inductive load_message : Type :=
  | File_loaded (file_path : string)
  | Error_loading (e : exn).

(** [parse_cgmes_file(file_path)]: the message it prints and the root it
    returns, [None] after any exception (the tree it also returns is not
    used by the caller). *)
Definition parse_cgmes_file (fs : files) (file_path : string)
  : result (load_message * option Element) :=
  try_except
    (root ← ET_parse fs file_path;
     Ok (File_loaded file_path, Some root))
    (fun e => Ok (Error_loading e, None)).

(** What the script prints, block by block. *)
Inductive output : Type :=
  | Loading (m : load_message)
  | Question_1 (o : float * list GenUnit)
  | Question_2 (o : option (option string * regulation))
  | Question_3 (o : option question_3)
  | Question_4 (o : option (option string * list limit_row))
  | Question_5 (o : question_5)
  | Question_6 (o : list message * list message)
  | ANALYSIS_COMPLETED
  | Error_during_analysis (e : exn).

(** The [try] block of [main]: the analyses print one after the other; the
    first exception ends the block and is printed by the handler. *)
Fixpoint try_analyses (steps : list (result output)) : list output :=
  match steps with
  | [] => [ANALYSIS_COMPLETED]
  | Ok o :: rest => o :: try_analyses rest
  | Raise e :: _ => [Error_during_analysis e]
  end.

Definition file_path : string := "20210325T1530Z_1D_NL_EQ_001.xml".

Definition main (fs : files) : result (list output) :=
  '(m, root) ← parse_cgmes_file fs file_path;
  match root with
  | None => Ok [Loading m]
  | Some root =>
      Ok (Loading m ::
          try_analyses
            [Question_1 <$> analyze_question_1 root;
             Question_2 <$> Ok (analyze_question_2 root);
             Question_3 <$> analyze_question_3 root;
             Question_4 <$> analyze_question_4 root;
             Question_5 <$> analyze_question_5 root;
             Question_6 <$> analyze_question_6 root (read_text fs file_path)])
  end.

End Task2.

(** ** task1.py *)
Module Task1.

Definition API_URL : string := "https://api-baltic.transparency-dashboard.eu/".
Definition TARGET_DATE : string := "2025-09-22".
Definition REPORT_ID_AFRR : string := "activations_afrr".
Definition REPORT_ID_IMBALANCE : string := "imbalance_volumes_v2".

(** *** The HTTP layer ([requests]) *)

Record Request : Type := mk_Request {
  url : string;
  params : list (string * string);
  headers : list (string * string);
  timeout : Z
}.

(** A decoded JSON document: [None], a [bool], an [int], a [float], a
    [str], a [list] or a [dict] (its keys are distinct). *)
#[warnings="-register-all"]
Inductive JSON : Type :=
  | JNull
  | JBool (b : bool)
  | JInt (z : Z)
  | JFloat (x : float)
  | JStr (s : string)
  | JList (l : list JSON)
  | JDict (d : list (string * JSON)).

Definition payload : Type := JSON.

(** A response: its status, [resp.headers.get("Content-Type")] and what
    [resp.json()] gives. *)
Record Response : Type := mk_Response {
  status_code : Z;
  content_type_header : option string;
  json : result payload
}.

(** [resp.raise_for_status()]: [HTTPError] for the status codes 400 to 599. *)
Definition raise_for_status (resp : Response) : result unit :=
  if (400 <=? status_code resp)%Z && (status_code resp <? 600)%Z
  then Raise (HTTPError (status_code resp))
  else Ok tt.

(** A point in time as [strftime("%Y-%m-%dT%H:%M")] prints it. *)
Record minute_stamp : Type := mk_stamp {
  year : Z; month : Z; day : Z; hour : Z; minute : Z
}.

(** [get_day_range(date_str)]; [fromisoformat] is
    [datetime.fromisoformat], which gives the date or raises. *)
Definition get_day_range (fromisoformat : string -> result (Z * Z * Z)) (date_str : string)
  : result (minute_stamp * minute_stamp) :=
  '(y, m, d) ← fromisoformat date_str;
  Ok (mk_stamp y m d 0 0, mk_stamp y m d 23 59).

(** The request of [fetch_data]: the dates in it are literals, the two
    date arguments are only printed. *)
Definition request (report_id timezone : string) (timeout : Z) : Request :=
  let base := API_URL in
  let endpoint := "api/v1/export" in
  let url := base ++ endpoint in
  let params :=
    [("id", report_id);
     ("start_date", "2025-09-22T00:00");
     ("end_date", "2025-09-22T23:59");
     ("output_time_zone", timezone);
     ("output_format", "json");
     ("json_header_groups", "0")] in
  let headers :=
    [("User-Agent", "Mozilla/5.0 (Windows NT 10.0; Win64; x64) AppleWebKit/537.36");
     ("Accept", "application/json")] in
  mk_Request url params headers timeout.

(** [fetch_data(report_id, start_date, end_date, timezone, timeout)];
    [requests_get] is [requests.get].  The request and the check of the
    status are outside the only [try] of the function, which is around
    [resp.json()]. *)
Definition fetch_data (requests_get : Request -> result Response)
    (report_id : string) (start_date end_date : minute_stamp)
    (timezone : string) (timeout : Z) : result payload :=
  resp ← requests_get (request report_id timezone timeout);
  _ ← raise_for_status resp;
  let content_type := lower (default EmptyString (content_type_header resp)) in
  if str_in "text/html" content_type || negb (String.prefix "application/json" content_type)
  then Raise ValueError
  else try_except_ValueError (json resp) (Raise ValueError).

(** *** Python on a decoded document *)

Definition lookup (key : string) (d : list (string * JSON)) : option JSON :=
  snd <$> List.find (fun kv => String.eqb kv.1 key) d.

(** [key in x] for a string [key]: a key of a [dict], an element of a
    [list], a part of a [str]; nothing else can be searched. *)
Definition py_in (key : string) (x : JSON) : result bool :=
  match x with
  | JDict d => Ok (bool_decide (is_Some (lookup key d)))
  | JList l =>
      Ok (existsb (fun y => match y with JStr s => String.eqb s key | _ => false end) l)
  | JStr s => Ok (str_in key s)
  | _ => Raise TypeError
  end.

(** [x[key]] for a string [key]: only a [dict] takes one. *)
Definition py_getitem (x : JSON) (key : string) : result JSON :=
  match x with
  | JDict d =>
      match lookup key d with
      | Some v => Ok v
      | None => Raise KeyError
      end
  | _ => Raise TypeError
  end.

(** [x.get(key, default)]: only a [dict] has the method. *)
Definition py_get (x : JSON) (key : string) (default : JSON) : result JSON :=
  match x with
  | JDict d => Ok (from_option id default (lookup key d))
  | _ => Raise AttributeError
  end.

(** Truth value. *)
Definition py_bool (x : JSON) : bool :=
  match x with
  | JNull => false
  | JBool b => b
  | JInt z => negb (z =? 0)%Z
  | JFloat x => nonzero x
  | JStr s => negb (String.eqb s EmptyString)
  | JList l => match l with [] => false | _ => true end
  | JDict d => match d with [] => false | _ => true end
  end.

(** [for y in x]: the elements of a [list], the keys of a [dict], the
    characters of a [str]. *)
Definition py_iter (x : JSON) : result (list JSON) :=
  match x with
  | JList l => Ok l
  | JDict d => Ok (List.map (fun kv => JStr kv.1) d)
  | JStr s => Ok (List.map (fun c => JStr (String c EmptyString)) (list_ascii_of_string s))
  | _ => Raise TypeError
  end.

(** [float(z)] inside an addition: too large an [int] raises. *)
Definition float_of_int (z : Z) : result float :=
  if F64.is_infinite (F64.of_Z z) then Raise OverflowError else Ok (F64.of_Z z).

(** [acc + x] where [acc] is a number: a [bool] counts as 0 or 1, an [int]
    next to a [float] is converted. *)
Definition py_add (acc x : JSON) : result JSON :=
  match acc, x with
  | JInt a, JInt b => Ok (JInt (a + b))
  | JInt a, JBool b => Ok (JInt (a + Z.b2z b))
  | JInt a, JFloat y => a' ← float_of_int a; Ok (JFloat (F64.add a' y))
  | JFloat a, JInt b => b' ← float_of_int b; Ok (JFloat (F64.add a b'))
  | JFloat a, JBool b => Ok (JFloat (F64.add a (F64.of_Z (Z.b2z b))))
  | JFloat a, JFloat y => Ok (JFloat (F64.add a y))
  | _, _ => Raise TypeError
  end.

(** [sum(x)]: the elements are added one by one to the integer 0. *)
Fixpoint add_all (acc : JSON) (elements : list JSON) : result JSON :=
  match elements with
  | [] => Ok acc
  | y :: rest => acc' ← py_add acc y; add_all acc' rest
  end.

Definition py_sum (x : JSON) : result JSON :=
  elements ← py_iter x;
  add_all (JInt 0) elements.

(** *** Frames *)

(** A value of a column: a float ([NaN] is how a float column marks a
    missing value), or [pd.NA]. *)
Inductive cell : Type :=
  | Num (x : float)
  | NA.

(** A frame with the single column ["value"], as [(label, value)] rows.  The
    labels are times. *)
Definition DataFrame : Type := list (Z * cell).

Definition index (df : DataFrame) : list Z := List.map fst df.

(** The float of a total: an [int] is converted. *)
Definition cell_of (total : JSON) : cell :=
  match total with
  | JInt z => Num (F64.of_Z z)
  | JFloat x => Num x
  | _ => Num F64.nan
  end.

(** The body of the loop over the time series: the record of an item,
    its ["timestamp"] and its ["value"]. *)
Definition record_of (item : JSON) : result (JSON * JSON) :=
  timestamp ← py_get item "from" JNull;
  values ← py_get item "values" (JList []);
  total_value ← (if py_bool values then py_sum values else Ok (JFloat F64.zero));
  Ok (timestamp, total_value).

(** [parse_to_dataframe(data)]; [to_datetime] is [pd.to_datetime] with
    [utc=True] and [errors='coerce'] on the whole column of the times, one
    result per row, [None] standing for [NaT]. *)
Definition parse_to_dataframe (to_datetime : list JSON -> result (list (option Z)))
    (data : JSON) : result DataFrame :=
  has_data ← py_in "data" data;
  if negb has_data then Raise ValueError else
  data_data ← py_getitem data "data";
  has_timeseries ← py_in "timeseries" data_data;
  if negb has_timeseries then Raise ValueError else
  timeseries ← py_getitem data_data "timeseries";
  if negb (py_bool timeseries) then Raise ValueError else
  items ← py_iter timeseries;
  records ← mapM record_of items;
  times ← to_datetime (List.map fst records);
  let df :=
    omap (fun r : option Z * JSON =>
            match r.1 with Some t => Some (t, cell_of r.2) | None => None end)
         (List.combine times (List.map snd records)) in
  Ok (py_sort fst df).

(** [a.union(b).sort_values()] on indexes: every label as often as the
    index that has it most often, in increasing order. *)
Fixpoint remove_one (t : Z) (l : list Z) : list Z :=
  match l with
  | [] => []
  | x :: rest => if (x =? t)%Z then rest else x :: remove_one t rest
  end.

Definition union (a b : list Z) : list Z :=
  py_sort id (a ++ foldl (fun rest t => remove_one t rest) b a)%list.

Fixpoint has_duplicates (l : list Z) : bool :=
  match l with
  | [] => false
  | x :: rest => existsb (Z.eqb x) rest || has_duplicates rest
  end.

Fixpoint same_labels (a b : list Z) : bool :=
  match a, b with
  | [], [] => true
  | x :: a, y :: b => (x =? y)%Z && same_labels a b
  | _, _ => false
  end.

(** [df.loc[t, "value"]] if [t] is a label of [df] *)
Fixpoint at_label (df : DataFrame) (t : Z) : option cell :=
  match df with
  | [] => None
  | (t', v) :: rest => if (t' =? t)%Z then Some v else at_label rest t
  end.

(** [df.reindex(labels)["value"]].  With distinct labels: the value at
    each of [labels], [NaN] where the frame has no such label.  A frame
    with a repeated label is returned as it is when [labels] is its own
    index, and cannot be reindexed otherwise. *)
Definition reindex (df : DataFrame) (labels : list Z) : result (list cell) :=
  if negb (has_duplicates (index df))
  then Ok (List.map (fun t => from_option id (Num F64.nan) (at_label df t)) labels)
  else if same_labels (index df) labels then Ok (List.map snd df)
  else Raise ValueError.

(** [s.abs()] *)
Definition cell_abs (c : cell) : cell :=
  match c with
  | Num x => Num (F64.abs x)
  | NA => NA
  end.

(** [s.replace(0, pd.NA)] *)
Definition replace_0_NA (c : cell) : cell :=
  match c with
  | Num x => if nonzero x then c else NA
  | NA => NA
  end.

(** Element-wise [/] of two series: [pd.NA] if either side is, the
    quotient of the floats otherwise. *)
Definition cell_div (a b : cell) : cell :=
  match a, b with
  | Num x, Num y => Num (F64.div x y)
  | _, _ => NA
  end.

Record metrics_row : Type := mk_metrics_row {
  timestamp : Z;
  afrr_activation : cell;
  imbalance : cell;
  ratio_abs : cell
}.

Fixpoint frame (labels : list Z) (c1 c2 c3 : list cell) : list metrics_row :=
  match labels, c1, c2, c3 with
  | t :: labels, a :: c1, b :: c2, r :: c3 => mk_metrics_row t a b r :: frame labels c1 c2 c3
  | _, _, _, _ => []
  end.

(** [calculate_metrics(afrr_df, imbalance_df)] *)
Definition calculate_metrics (afrr_df imbalance_df : DataFrame) : result (list metrics_row) :=
  let all_times := union (index afrr_df) (index imbalance_df) in
  afrr_aligned ← reindex afrr_df all_times;
  imbalance_aligned ← reindex imbalance_df all_times;
  let afrr_abs := List.map cell_abs afrr_aligned in
  let imbalance_abs := List.map cell_abs imbalance_aligned in
  let ratio :=
    List.map (fun p : cell * cell => cell_div p.1 p.2)
             (List.combine afrr_abs (List.map replace_0_NA imbalance_abs)) in
  Ok (frame all_times afrr_aligned imbalance_aligned ratio).

(** *** [main] *)

(** What [main] meets outside the script: the date parser, the file system,
    the HTTP layer, the time parser of pandas, and the three output stages
    (CSV, plots, report), each by its outcome. *)
Record world : Type := mk_world {
  fromisoformat : string -> result (Z * Z * Z);
  mkdir : string -> result unit;
  requests_get : Request -> result Response;
  to_datetime : list JSON -> result (list (option Z));
  to_csv : list metrics_row -> string -> result unit;
  create_plots : list metrics_row -> string -> string -> result unit;
  generate_report : list metrics_row -> string -> string -> result unit
}.

(** [main()] for the command-line arguments [--date], [--out] and
    [--timeout]; it has no [try]. *)
Definition main (w : world) (date out : string) (timeout : Z) : result (list metrics_row) :=
  _ ← mkdir w out;
  '(start, end_) ← get_day_range (fromisoformat w) date;
  afrr_data ← fetch_data (requests_get w) REPORT_ID_AFRR start end_ "EET" timeout;
  afrr_df ← parse_to_dataframe (to_datetime w) afrr_data;
  imbalance_data ← fetch_data (requests_get w) REPORT_ID_IMBALANCE start end_ "EET" timeout;
  imbalance_df ← parse_to_dataframe (to_datetime w) imbalance_data;
  metrics_df ← calculate_metrics afrr_df imbalance_df;
  _ ← to_csv w metrics_df out;
  _ ← create_plots w metrics_df out date;
  _ ← generate_report w metrics_df out date;
  Ok metrics_df.

End Task1.

(** ** Sample documents and worlds *)
Module Samples.
Import ET Task2.

(** [<cim:tag_name>t</cim:tag_name>] *)
Definition leaf (tag_name t : string) : Element :=
  mkElement (full_tag cim tag_name) [] (Some t) [].

(** [<cim:tag_name rdf:resource="target"/>] *)
Definition ref (tag_name target : string) : Element :=
  mkElement (full_tag cim tag_name) [(full_tag rdf "resource", target)] None [].

(** [<cim:type_name rdf:ID="_id"> ... </cim:type_name>] with an mRID child *)
Definition entity (type_name id : string) (fields : list Element) : Element :=
  mkElement (full_tag cim type_name) [(full_tag rdf "ID", "_" ++ id)] None
            (leaf "IdentifiedObject.mRID" id :: fields).

Definition document (entities : list Element) : Element :=
  mkElement (full_tag rdf "RDF") [] None entities.

Definition files_of (root : Element) (xml_content : string) : files :=
  mk_files (fun _ => Ok root) (fun _ => Ok xml_content).

(** One limit set with a PATL and a TATL current limit. *)
Definition limit_set_1 : Element := entity "OperationalLimitSet" "ls1" [].

Definition limit_document (patl tatl : string) : Element :=
  document
    [limit_set_1;
     entity "OperationalLimitType" "ltP" [leaf "IdentifiedObject.name" "PATL"];
     entity "OperationalLimitType" "ltT" [leaf "IdentifiedObject.name" "TATL"];
     entity "CurrentLimit" "cl1"
       [ref "OperationalLimit.OperationalLimitSet" "#_ls1";
        ref "OperationalLimit.OperationalLimitType" "#_ltP";
        leaf "CurrentLimit.normalValue" patl];
     entity "CurrentLimit" "cl2"
       [ref "OperationalLimit.OperationalLimitSet" "#_ls1";
        ref "OperationalLimit.OperationalLimitType" "#_ltT";
        leaf "CurrentLimit.normalValue" tatl]].

(** The same mRID on a terminal and on a line segment. *)
Definition duplicate_document : Element :=
  document
    [entity "Terminal" "X" [];
     entity "ACLineSegment" "X" [leaf "IdentifiedObject.name" "L"];
     entity "Terminal" "Y" []].

(** A machine that references a generating unit, and a current limit that
    references a limit type, neither of which is in the document. *)
Definition dangling_machine : Element :=
  entity "SynchronousMachine" "sm1"
    [leaf "IdentifiedObject.name" "SM1";
     ref "RotatingMachine.GeneratingUnit" "#_gone";
     leaf "RotatingMachine.ratedPowerFactor" "0.9"].

Definition dangling_limit : Element :=
  entity "CurrentLimit" "cl1"
    [ref "OperationalLimit.OperationalLimitSet" "#_ls1";
     ref "OperationalLimit.OperationalLimitType" "#_nowhere";
     leaf "CurrentLimit.normalValue" "1000"].

Definition dangling_document : Element :=
  document
    [entity "GeneratingUnit" "gu1"
       [leaf "IdentifiedObject.name" "G1";
        leaf "GeneratingUnit.maxOperatingP" "100";
        ref "GeneratingUnit.genControlSource" "http://iec.ch/TC57/CIM100#GeneratorControlSource.onAGC"];
     dangling_machine;
     entity "ACLineSegment" line_id [leaf "IdentifiedObject.name" "NL-Line_5"];
     entity "Terminal" "t1"
       [ref "Terminal.ConductingEquipment" ("#_" ++ line_id);
        leaf "ACDCTerminal.sequenceNumber" "1"];
     entity "OperationalLimitSet" "ls1" [ref "OperationalLimitSet.Terminal" "#_t1"];
     dangling_limit].

(** A limit whose value is not a number, next to a duplicated mRID and an
    injection without impedance. *)
Definition faulty_document : Element :=
  document
    [entity "Terminal" "X" [];
     entity "Terminal" "X" [];
     entity "OperationalLimitSet" "ls1" [];
     entity "OperationalLimitType" "ltP" [leaf "IdentifiedObject.name" "PATL"];
     entity "CurrentLimit" "cl1"
       [ref "OperationalLimit.OperationalLimitSet" "#_ls1";
        ref "OperationalLimit.OperationalLimitType" "#_ltP";
        leaf "CurrentLimit.normalValue" "n/a"];
     entity "EquivalentInjection" "inj"
       [leaf "IdentifiedObject.name" "INJ";
        leaf "EquivalentInjection.r" "0";
        leaf "EquivalentInjection.x" "0"]].

(** The transformer of question 3 with two ends. *)
Definition transformer_end (id end_number rated_u : string) : Element :=
  entity "PowerTransformerEnd" id
    [ref "PowerTransformerEnd.PowerTransformer" ("#_" ++ transformer_id);
     leaf "TransformerEnd.endNumber" end_number;
     leaf "PowerTransformerEnd.ratedU" rated_u;
     leaf "PowerTransformerEnd.ratedS" "1000"].

Definition transformer_document (u1 u2 : string) : Element :=
  document
    [entity "PowerTransformer" transformer_id [leaf "IdentifiedObject.name" "NL_TR2_2"];
     transformer_end "e2" "2" u2;
     transformer_end "e1" "1" u1].

(** Generating units, none on AGC; the third has no maxOperatingP and the
    second and fourth tie for the largest. *)
Definition off_AGC : string :=
  "http://iec.ch/TC57/CIM100#GeneratorControlSource.offAGC".

Definition generating_unit (id : string) (max_p : list Element) : Element :=
  entity "GeneratingUnit" id
    (leaf "IdentifiedObject.name" id :: ref "GeneratingUnit.genControlSource" off_AGC :: max_p).

Definition units_document : Element :=
  document
    [generating_unit "G1" [leaf "GeneratingUnit.maxOperatingP" "100"];
     generating_unit "G2" [leaf "GeneratingUnit.maxOperatingP" "300"];
     generating_unit "G3" [];
     generating_unit "G4" [leaf "GeneratingUnit.maxOperatingP" "300.0"]].

End Samples.

(** ** Notions the statements are written with *)
Module Notions.
Import ET Task2.

(** *** Duplicate identifiers *)

Definition local_name (e : Element) : string := split_last "}" (tag e).

(** [child] attaches the identifier [id] to its parent: its tag contains
    [mRID] and its text is [id], not empty. *)
Definition mrid_child (id : string) (child : Element) : bool :=
  str_in "mRID" (tag child) && truthy (text child) && is_str (text child) id.

(** The elements of the document that carry [id], in document order. *)
Definition carriers (root : Element) (id : string) : list Element :=
  List.filter (fun e => existsb (mrid_child id) (children e)) (iter root).

(** The local names filed under [id]: one per carrying child. *)
Definition filed (root : Element) (id : string) : list string :=
  List.flat_map
    (fun e => List.map (fun _ => local_name e) (List.filter (mrid_child id) (children e)))
    (iter root).

(** What one element files: for each child whose tag contains [mRID] and
    whose text is not empty, that text with the local name of the element. *)
Definition filings (element : Element) : list (string * string) :=
  List.flat_map
    (fun child =>
       if str_in "mRID" (tag child) && truthy (text child)
       then [(default EmptyString (text child), local_name element)]
       else [])
    (children element).

(** [d.get(k)] on a dictionary of lists, filing a whole list of pairs, and
    the values a list of pairs holds under a key. *)
Definition dict_get {V} (k : string) (d : list (string * list V)) : option (list V) :=
  snd <$> List.find (fun kv => String.eqb kv.1 k) d.

Definition file_all {V} (d : list (string * list V)) (l : list (string * V))
  : list (string * list V) :=
  foldl (fun d kv => dict_append kv.1 kv.2 d) d l.

Definition under {V} (k : string) (l : list (string * V)) : list V :=
  List.map snd (List.filter (fun kv => String.eqb kv.1 k) l).

(** *** Sorting *)

Definition key_le {A} (key : A -> Z) (a b : A) : Prop := (key a <= key b)%Z.

(** *** Generating units *)

Definition unit_name_text (gen_unit : Element) : option string :=
  get_element_text gen_unit "IdentifiedObject.name".

Definition unit_max_p_text (gen_unit : Element) : option string :=
  get_element_text gen_unit "GeneratingUnit.maxOperatingP".









(** *** Limits *)

Inductive limit_kind : Type := PATL | TATL.

(** The limit type a current limit names: the first one whose mRID is the
    text after the last [#_] of the reference, for a reference that is not
    empty. *)
Definition limit_type_of (root current_limit : Element) : option Element :=
  match get_element_resource current_limit "OperationalLimit.OperationalLimitType" with
  | Some ref =>
      if truthy (Some ref)
      then List.find (fun lt => is_str (get_element_text lt "IdentifiedObject.mRID")
                                       (split_last "#_" ref))
                     (findall_cim "OperationalLimitType" root)
      else None
  | None => None
  end.

Definition named (part : string) (limit_type : Element) : bool :=
  match get_element_text limit_type "IdentifiedObject.name" with
  | Some n => str_in part n
  | None => false
  end.

(** A current limit is permanent when the name of its limit type contains
    [PATL], and temporary when it contains [TATL] and not [PATL]. *)
Definition has_kind (kind : limit_kind) (root current_limit : Element) : bool :=
  match limit_type_of root current_limit with
  | Some limit_type =>
      match kind with
      | PATL => named "PATL" limit_type
      | TATL => named "TATL" limit_type && negb (named "PATL" limit_type)
      end
  | None => false
  end.

(** A current limit is of a limit set when its reference to the set is not
    empty and contains the mRID of the set. *)
Definition of_set (limit_set current_limit : Element) : bool :=
  match get_element_resource current_limit "OperationalLimit.OperationalLimitSet",
        get_element_text limit_set "IdentifiedObject.mRID" with
  | Some ref, Some mrid => truthy (Some ref) && str_in mrid ref
  | _, _ => false
  end.

(** The current limits of a set of one kind, in document order. *)
Definition limits_of (root limit_set : Element) (kind : limit_kind) : list Element :=
  List.filter (fun cl => of_set limit_set cl && has_kind kind root cl)
              (findall_cim "CurrentLimit" root).

(** The value of a current limit: none when the text is missing, empty or
    not a number. *)
Definition limit_value (current_limit : Element) : option float :=
  let text := get_element_text current_limit "CurrentLimit.normalValue" in
  if truthy text
  then match py_float text with Ok x => Some x | Raise _ => None end
  else None.

(** The value a limit set resolves to for a kind: that of its last current
    limit of the kind. *)
Definition resolved (root limit_set : Element) (kind : limit_kind) : option float :=
  last (limits_of root limit_set kind) ≫= limit_value.

(** *** Voltage levels *)

(** The base voltage of a voltage level: the first one whose mRID is the
    text after the last [#_] of the reference. *)
Definition base_voltage_of (root vl : Element) : option Element :=
  match get_element_resource vl "VoltageLevel.BaseVoltage" with
  | Some ref =>
      List.find (fun bv => is_str (get_element_text bv "IdentifiedObject.mRID")
                                  (split_last "#_" ref))
                (findall_cim "BaseVoltage" root)
  | None => None
  end.

(** *** Floats *)

(** A float that is a number and has no minus sign: [+0.0], a positive
    number or [+inf]. *)
Definition nonneg (x : float) : Prop :=
  match x with
  | S754_zero s | S754_infinity s | S754_finite s _ _ => s = false
  | S754_nan => False
  end.

(** *** Metrics *)



(** Missing: [pd.NA] or [NaN]. *)
Definition missing (c : Task1.cell) : Prop :=
  c = Task1.NA \/ c = Task1.Num F64.nan.

Definition zero_or_missing (c : Task1.cell) : Prop :=
  missing c \/ exists x, c = Task1.Num x /\ nonzero x = false.


(** *** HTTP failures *)

(** The HTTP layer fails with [e] on a request: [requests.get] raises it,
    or answers with a status for which [raise_for_status] raises it. *)
Definition http_failure (w : Task1.world) (req : Task1.Request) (e : exn) : Prop :=
  Task1.requests_get w req = Raise e \/
  exists resp, Task1.requests_get w req = Ok resp /\ Task1.raise_for_status resp = Raise e.

End Notions.

(** Worlds for the first script. *)
Module Worlds.
Import Task1.

Definition no_output : world :=
  mk_world (fun _ => Ok (2025, 9, 22)%Z) (fun _ => Ok tt)
           (fun _ => Raise ConnectionError)
           (fun times => Ok (List.map (fun _ => None) times))
           (fun _ _ => Ok tt) (fun _ _ _ => Ok tt) (fun _ _ _ => Ok tt).

(** One item of a time series, and the document around a time series. *)
Definition item (from : string) (values : list JSON) : JSON :=
  JDict [("from", JStr from); ("values", JList values)].

Definition document (timeseries : list JSON) : JSON :=
  JDict [("data", JDict [("timeseries", JList timeseries)])].

(** The activation report is served; the imbalance report answers 503. *)
Definition one_item : payload :=
  document [item "2025-09-22T00:00" [JInt 1; JInt 2]].

Definition second_fetch_fails : world :=
  mk_world (fun _ => Ok (2025, 9, 22)%Z) (fun _ => Ok tt)
           (fun req =>
              if String.eqb (default EmptyString (ET.assoc "id" (params req))) REPORT_ID_AFRR
              then Ok (mk_Response 200 (Some "application/json; charset=utf-8") (Ok one_item))
              else Ok (mk_Response 503 (Some "text/html") (Raise JSONDecodeError)))
           (fun times => Ok (List.map (fun _ => Some 0%Z) times))
           (fun _ _ => Ok tt) (fun _ _ _ => Ok tt) (fun _ _ _ => Ok tt).

(** Frames of quarters of an hour. *)
Definition num (z : Z) : cell := Num (F64.of_Z z).

Definition afrr_frame : DataFrame := [(0, num 5); (15, num (-3)); (30, num 2)]%Z.
Definition imbalance_frame : DataFrame := [(15, num 0); (30, num (-4)); (45, num 7)]%Z.


End Worlds.

(** ** task1.py: the report *)
Module Report.
Import Task1.

(** A value that [sum] and [max] take into account: not [pd.NA], not
    [NaN]. *)
Definition present (c : cell) : option float :=
  match c with
  | Num x => if F64.is_nan x then None else Some x
  | NA => None
  end.

(** [s.sum()]: the missing values are skipped, the others added up from 0. *)
Definition series_sum (s : list cell) : float :=
  fold_left F64.add (omap present s) F64.zero.

(** [s.max()]: the largest of the values that are not missing, [NaN] when
    there is none. *)
Definition series_max (s : list cell) : float :=
  match omap present s with
  | [] => F64.nan
  | x :: rest => fold_left (fun m y => if F64.ltb m y then y else m) rest x
  end.

Inductive assessment : Type :=
  | High_activation_ratio
  | Moderate_activation_ratio
  | Low_activation_ratio
  | Unable_to_calculate_ratio.

(** The lines of the report that carry a value, in the order they are
    written; the fixed lines between them are left out. *)
Inductive report_line : Type :=
  | Date (date : string)
  | Total_aFRR_Activation (total_afrr : float)
  | Total_Imbalance_Volume (total_imbalance : float)
  | Average_Ratio (avg_ratio : float)
  | Max_aFRR_Activation (x : float)
  | Max_Imbalance_Volume (x : float)
  | ASSESSMENT (a : assessment).

(** [(afrr_abs.sum() / imbalance_abs.replace(0, pd.NA).sum())
     if imbalance_abs.sum() > 0 else None] *)
Definition avg_ratio (metrics_df : list metrics_row) : option float :=
  let afrr_abs := List.map (fun r => cell_abs (afrr_activation r)) metrics_df in
  let imbalance_abs := List.map (fun r => cell_abs (imbalance r)) metrics_df in
  if F64.ltb F64.zero (series_sum imbalance_abs)
  then Some (F64.div (series_sum afrr_abs)
                     (series_sum (List.map replace_0_NA imbalance_abs)))
  else None.

(** The [if avg_ratio: ... else: ...] at the end of the report: a ratio of
    zero is false. *)
Definition assess (avg_ratio : float) : assessment :=
  if nonzero avg_ratio then
    if F64.ltb (F64.of_Z 1) avg_ratio then High_activation_ratio
    else if F64.ltb (F64.of_decimal false 5 (-1)) avg_ratio then Moderate_activation_ratio
    else Low_activation_ratio
  else Unable_to_calculate_ratio.

(** [generate_report(metrics_df, output_dir, date)]: the lines written to
    the file and how the call ends.  [opened] is what opening the file
    gives.  The average is formatted with [:.4f], which [None] does not
    support: the lines before it are already written then. *)
Definition generate_report (opened : result unit) (metrics_df : list metrics_row)
    (date : string) : list report_line * result unit :=
  let total_afrr := series_sum (List.map afrr_activation metrics_df) in
  let total_imbalance := series_sum (List.map imbalance metrics_df) in
  let avg_ratio := avg_ratio metrics_df in
  match opened with
  | Raise e => ([], Raise e)
  | Ok _ =>
      let summary :=
        [Date date; Total_aFRR_Activation total_afrr;
         Total_Imbalance_Volume total_imbalance] in
      match avg_ratio with
      | None => (summary, Raise TypeError)
      | Some r =>
          ((summary ++
            [Average_Ratio r;
             Max_aFRR_Activation (series_max (List.map afrr_activation metrics_df));
             Max_Imbalance_Volume (series_max (List.map imbalance metrics_df));
             ASSESSMENT (assess r)])%list,
           Ok tt)
      end
  end.

(** The report stage of [main]: the file can be opened, and [main] sees how
    the call ends. *)
Definition report_stage (metrics_df : list metrics_row) (output_dir date : string)
  : result unit :=
  (generate_report (Ok tt) metrics_df date).2.

End Report.

(** ** Further notions *)
Module Further.
Import ET Task2 Notions.

(** An outcome that raises nothing outside [allowed]. *)
Definition raises_only {A} (allowed : list exn) (r : result A) : Prop :=
  match r with
  | Ok _ => True
  | Raise e => In e allowed
  end.

(** *** Question 1 *)

Definition unit_mrid (gen_unit : Element) : option string :=
  get_element_text gen_unit "IdentifiedObject.mRID".

(** The generating units that enter the table: those with a maxOperatingP
    that is not empty. *)
Definition capacity_units (root : Element) : list Element :=
  List.filter (fun u => truthy (unit_max_p_text u)) (findall_cim "GeneratingUnit" root).

(** What the first loop records of a unit. *)
Definition capacities (u : GenUnit) : option string * float * float * float :=
  (name u, max_p u, min_p u, nominal_p u).

(** *** Transformer ends *)

(** What one transformer end files: its name under its mRID, if not empty. *)
Definition end_filings (tf_end : Element) : list (string * option string) :=
  match get_element_text tf_end "IdentifiedObject.mRID" with
  | Some m =>
      if truthy (Some m) then [(m, get_element_text tf_end "IdentifiedObject.name")] else []
  | None => []
  end.

(** The names of the transformer ends whose mRID is [id], in document order. *)
Definition end_names (root : Element) (id : string) : list (option string) :=
  under id (List.flat_map end_filings (findall_cim "PowerTransformerEnd" root)).

(** *** Frames *)


End Further.

(** ** Further sample documents *)
Module Samples2.
Import ET Task2 Samples.

(** Two generating units under one mRID, and a third without a capacity. *)
Definition shared_mrid_document : Element :=
  document
    [entity "GeneratingUnit" "gu"
       [leaf "IdentifiedObject.name" "A"; leaf "GeneratingUnit.maxOperatingP" "100"];
     entity "GeneratingUnit" "gu"
       [leaf "IdentifiedObject.name" "B"; leaf "GeneratingUnit.maxOperatingP" "50"];
     entity "GeneratingUnit" "gx" [leaf "IdentifiedObject.name" "C"]].

(** A generating unit without a name. *)
Definition unnamed_unit_document : Element :=
  document
    [generating_unit "G1" [leaf "GeneratingUnit.maxOperatingP" "100"];
     entity "GeneratingUnit" "G2" [leaf "GeneratingUnit.maxOperatingP" "300"]].

(** Two transformer ends under one mRID. *)
Definition shared_end_document : Element :=
  document
    [entity "PowerTransformerEnd" "E" [leaf "IdentifiedObject.name" "HV"];
     entity "PowerTransformerEnd" "F" [leaf "IdentifiedObject.name" "MV"];
     entity "PowerTransformerEnd" "E" [leaf "IdentifiedObject.name" "LV"]].

(** A limit set without an mRID, and a current limit of another set. *)
Definition anonymous_set : Element :=
  mkElement (full_tag cim "OperationalLimitSet") [] None
            [leaf "IdentifiedObject.name" "unnamed set"].

Definition anonymous_set_document : Element :=
  document
    [anonymous_set;
     entity "CurrentLimit" "cl1"
       [ref "OperationalLimit.OperationalLimitSet" "#_ls1";
        leaf "CurrentLimit.normalValue" "1000"]].

(** The machine NL-G1 under voltage control, after another machine. *)
Definition regulated_document : Element :=
  document
    [entity "SynchronousMachine" "sm0" [leaf "IdentifiedObject.name" "NL-G2"];
     entity "SynchronousMachine" "sm1"
       [leaf "IdentifiedObject.name" "NL-G1";
        ref "RegulatingCondEq.RegulatingControl" "#_rc1"];
     entity "RegulatingControl" "rc1"
       [ref "RegulatingControl.mode"
            "http://iec.ch/TC57/2013/CIM-schema-cim16#RegulatingControlModeKind.voltage"]].

(** A limit set with two permanent limits, the second through a limit type
    whose name holds both words, and one temporary limit. *)
Definition relimited_document : Element :=
  document
    [limit_set_1;
     entity "OperationalLimitType" "ltP" [leaf "IdentifiedObject.name" "PATL"];
     entity "OperationalLimitType" "ltB" [leaf "IdentifiedObject.name" "TATL above PATL"];
     entity "OperationalLimitType" "ltT" [leaf "IdentifiedObject.name" "TATL"];
     entity "CurrentLimit" "cl1"
       [ref "OperationalLimit.OperationalLimitSet" "#_ls1";
        ref "OperationalLimit.OperationalLimitType" "#_ltP";
        leaf "CurrentLimit.normalValue" "800"];
     entity "CurrentLimit" "cl2"
       [ref "OperationalLimit.OperationalLimitSet" "#_ls1";
        ref "OperationalLimit.OperationalLimitType" "#_ltT";
        leaf "CurrentLimit.normalValue" "900"];
     entity "CurrentLimit" "cl3"
       [ref "OperationalLimit.OperationalLimitSet" "#_ls1";
        ref "OperationalLimit.OperationalLimitType" "#_ltB";
        leaf "CurrentLimit.normalValue" "1000"]].

(** A limit set whose permanent limit is not a number, before the set of
    [limit_document]. *)
Definition unreadable_set_document : Element :=
  document
    [entity "OperationalLimitSet" "ls0" [];
     limit_set_1;
     entity "OperationalLimitType" "ltP" [leaf "IdentifiedObject.name" "PATL"];
     entity "OperationalLimitType" "ltT" [leaf "IdentifiedObject.name" "TATL"];
     entity "CurrentLimit" "cl0"
       [ref "OperationalLimit.OperationalLimitSet" "#_ls0";
        ref "OperationalLimit.OperationalLimitType" "#_ltP";
        leaf "CurrentLimit.normalValue" "n/a"];
     entity "CurrentLimit" "cl1"
       [ref "OperationalLimit.OperationalLimitSet" "#_ls1";
        ref "OperationalLimit.OperationalLimitType" "#_ltP";
        leaf "CurrentLimit.normalValue" "1000"];
     entity "CurrentLimit" "cl2"
       [ref "OperationalLimit.OperationalLimitSet" "#_ls1";
        ref "OperationalLimit.OperationalLimitType" "#_ltT";
        leaf "CurrentLimit.normalValue" "900"]].

(** Voltage levels named 16.1 and [n/a] on a base voltage of 15.1 kV. *)
Definition levels_document : Element :=
  document
    [entity "BaseVoltage" "bv1" [leaf "BaseVoltage.nominalVoltage" "15.1"];
     entity "VoltageLevel" "vl1"
       [leaf "IdentifiedObject.name" "16.1"; ref "VoltageLevel.BaseVoltage" "#_bv1"];
     entity "VoltageLevel" "vl2"
       [leaf "IdentifiedObject.name" "n/a"; ref "VoltageLevel.BaseVoltage" "#_bv1"]].

(** Generating units, the second one on AGC and the third one a slack in
    capital letters. *)
Definition unit_with_control (id control max_p : string) : Element :=
  entity "GeneratingUnit" id
    [leaf "IdentifiedObject.name" id;
     ref "GeneratingUnit.genControlSource"
         ("http://iec.ch/TC57/CIM100#GeneratorControlSource." ++ control);
     leaf "GeneratingUnit.maxOperatingP" max_p].

Definition controlled_document : Element :=
  document
    [unit_with_control "G1" "offAGC" "100";
     unit_with_control "G2" "onAGC" "300";
     unit_with_control "G3" "SLACK" "200"].



End Samples2.

(** ** A day without imbalance *)
Module Worlds2.
Import Task1.

Definition zero_item : payload :=
  Worlds.document [Worlds.item "2025-09-22T00:00" [JInt 0]].

(** Both reports are served, every imbalance volume is zero, and the files
    can be written. *)
Definition zero_imbalance_day : world :=
  mk_world (fun _ => Ok (2025, 9, 22)%Z) (fun _ => Ok tt)
           (fun req =>
              Ok (mk_Response 200 (Some "application/json")
                    (Ok (if String.eqb (default EmptyString (ET.assoc "id" (params req)))
                                       REPORT_ID_AFRR
                         then Worlds.one_item else zero_item))))
           (fun times => Ok (List.map (fun _ => Some 0%Z) times))
           (fun _ _ => Ok tt) (fun _ _ _ => Ok tt) Report.report_stage.

End Worlds2.

(** * Properties *)

Import ET Task2 Samples Notions.

(** ** Loops in the [result] monad *)

(** A loop that appends what its body gives is the [mapM] of the body. *)
Lemma for_each_collect {A B} (f : A -> result (list B)) (l : list A) (acc : list B) :
  for_each l (fun rows x => new ← f x; Ok (rows ++ new)%list) acc =
  (fun news => (acc ++ concat news)%list) <$> mapM f l.
Proof.
  revert acc. induction l as [|x l IH]; intros acc; simpl.
  - rewrite app_nil_r. reflexivity.
  - destruct (f x) as [new|e]; simpl; [|reflexivity].
    rewrite IH. destruct (mapM f l) as [news|e]; simpl; [|reflexivity].
    rewrite app_assoc. reflexivity.
Qed.

Lemma mapM_Forall2 {A B} (f : A -> result B) (l : list A) (k : list B) :
  mapM f l = Ok k <-> Forall2 (fun x y => f x = Ok y) l k.
Proof.
  revert k. induction l as [|x l IH]; intros k; simpl.
  - split; [intros [= <-]; constructor | intros H; inversion H; reflexivity].
  - destruct (f x) as [y|e] eqn:Hx; simpl.
    + destruct (mapM f l) as [k'|e] eqn:Hl; simpl.
      * split.
        -- intros [= <-]. constructor; [exact Hx | apply IH; reflexivity].
        -- intros H. inversion H as [|? y' ? k'' Hy Hrest]; subst.
           apply IH in Hrest. injection Hrest as ->.
           rewrite Hx in Hy. injection Hy as ->. reflexivity.
      * split; [discriminate|]. intros H. inversion H as [|? y' ? k'' Hy Hrest]; subst.
        apply IH in Hrest. discriminate.
    + split; [discriminate|]. intros H. inversion H; subst. congruence.
Qed.

Lemma mapM_app {A B} (f : A -> result B) (l1 l2 : list A) (k : list B) :
  mapM f (l1 ++ l2) = Ok k ->
  exists k1 k2, k = (k1 ++ k2)%list /\ mapM f l1 = Ok k1 /\ mapM f l2 = Ok k2.
Proof.
  intros H. apply mapM_Forall2 in H. apply Forall2_app_inv_l in H as (k1 & k2 & H1 & H2 & ->).
  exists k1, k2. split; [reflexivity|]. split; apply mapM_Forall2; assumption.
Qed.

(** ** Floats *)

(** [float] of a string raises nothing but [ValueError]. *)
Lemma float_of_str_raises (s : string) (e : exn) :
  float_of_str s = Raise e -> e = ValueError.
Proof.
  unfold float_of_str.
  destruct (underscores false _) as [l0|]; [|congruence].
  destruct (sign _) as [neg l].
  destruct (spelled "inf" l || spelled "infinity" l); [discriminate|].
  destruct (spelled "nan" l); [discriminate|].
  destruct (digits l 0 0) as [[i ni] l1].
  destruct (match l1 with "."%char :: rest => digits rest i 0 | _ => (i, 0%nat, l1) end)
    as [[f nf] l2].
  destruct (ni + nf)%nat; [congruence|].
  destruct (exponent l2); congruence.
Qed.














(** The floats that are false: the two zeros. *)
Lemma nonzero_false (x : float) : nonzero x = false <-> exists s, x = S754_zero s.
Proof.
  unfold nonzero, F64.eqb, SFeqb.
  destruct x as [s|[]| |[] m e]; simpl; split;
    try discriminate; try (intros [s' H]; discriminate); eauto.
Qed.
(** ** Strings: membership is containment, and [lower] letter by letter *)

Lemma prefix_app (n post : string) : String.prefix n (n ++ post) = true.
Proof.
  induction n as [|c n IH]; simpl; [destruct post; reflexivity|].
  destruct (Ascii.ascii_dec c c); [exact IH | congruence].
Qed.

Lemma prefix_split (n h : string) :
  String.prefix n h = true -> exists post, h = n ++ post.
Proof.
  revert h. induction n as [|c n IH]; intros h H.
  - exists h. reflexivity.
  - destruct h as [|c' h]; simpl in H; [discriminate|].
    destruct (Ascii.ascii_dec c c') as [->|]; [|discriminate].
    destruct (IH h H) as (post & ->). exists post. reflexivity.
Qed.

Lemma str_in_prefix (needle hay : string) :
  String.prefix needle hay = true -> str_in needle hay = true.
Proof. destruct hay; cbn [str_in]; intros ->; reflexivity. Qed.

Lemma str_in_substring (needle hay : string) :
  str_in needle hay = true <-> exists pre post, hay = pre ++ needle ++ post.
Proof.
  split.
  - induction hay as [|c hay IH]; cbn [str_in]; intros H.
    + rewrite orb_false_r in H. apply prefix_split in H as (post & H).
      exists EmptyString, post. exact H.
    + apply orb_true_iff in H as [H|H].
      * apply prefix_split in H as (post & H). exists EmptyString, post. exact H.
      * destruct (IH H) as (pre & post & ->). exists (String c pre), post. reflexivity.
  - intros (pre & post & ->). induction pre as [|c pre IH].
    + apply str_in_prefix. apply (prefix_app needle post).
    + change (String c pre ++ needle ++ post) with (String c (pre ++ needle ++ post)).
      cbn [str_in]. rewrite IH. apply orb_true_r.
Qed.

Lemma append_empty (a b : string) : a ++ b = EmptyString -> a = EmptyString /\ b = EmptyString.
Proof. destruct a; simpl; [auto | discriminate]. Qed.







(** ** Floats that are not negative *)


Lemma nonneg_number (x : float) : nonneg x -> F64.is_nan x = false.
Proof. destruct x; simpl; tauto. Qed.

Lemma abs_nonneg (x : float) : F64.is_nan x = false -> nonneg (F64.abs x).
Proof. destruct x; simpl; congruence. Qed.

Lemma abs_nan (x : float) : F64.is_nan (F64.abs x) = F64.is_nan x.
Proof. destruct x; reflexivity. Qed.

Lemma add_zero_r (x : float) : nonneg x -> F64.add x F64.zero = x.
Proof. destruct x as [[]|[]| |[] m e]; simpl; intros H; try discriminate H; tauto. Qed.

Lemma nonneg_zero (x : float) : nonneg x -> nonzero x = false -> x = F64.zero.
Proof.
  destruct x as [[]|[]| |[] m e]; simpl; intros H; try discriminate H; try tauto;
    intros H0; discriminate H0.
Qed.

(** Rounding keeps the sign: shifting a mantissa that is not negative to
    the right leaves it so. *)
Lemma shr_1_nonneg (mrs : shr_record) : (0 <= shr_m mrs)%Z -> (0 <= shr_m (shr_1 mrs))%Z.
Proof. destruct mrs as [[|[p|p|]|p] r s]; simpl; lia. Qed.

Lemma iter_pos_invariant {A} (P : A -> Prop) (f : A -> A) :
  (forall x, P x -> P (f x)) -> forall n x, P x -> P (SpecFloat.iter_pos f n x).
Proof.
  intros Hf. induction n as [n IH|n IH|]; intros x Hx; simpl; auto.
Qed.

Lemma shr_fexp_nonneg (m e : Z) (l : location) :
  (0 <= m)%Z -> (0 <= shr_m (shr_fexp prec emax m e l).1)%Z.
Proof.
  intros Hm. unfold shr_fexp, shr.
  assert (H0 : (0 <= shr_m (shr_record_of_loc m l))%Z) by (destruct l as [|[]]; exact Hm).
  destruct (fexp prec emax (Zdigits2 m + e) - e)%Z; simpl; try exact H0.
  apply (iter_pos_invariant (fun mrs => (0 <= shr_m mrs)%Z)); [apply shr_1_nonneg | exact H0].
Qed.

Lemma round_nearest_even_nonneg (m : Z) (l : location) :
  (0 <= m)%Z -> (0 <= round_nearest_even m l)%Z.
Proof. destruct l as [|[]]; simpl; try destruct (Z.even m); lia. Qed.

(** The rounded value of a mantissa that is not negative is a number with
    the sign given. *)
Lemma binary_round_aux_sign (sx : bool) (m e : Z) (l : location) :
  (0 <= m)%Z ->
  match binary_round_aux prec emax sx m e l with
  | S754_zero s | S754_infinity s | S754_finite s _ _ => s = sx
  | S754_nan => False
  end.
Proof.
  intros Hm. unfold binary_round_aux.
  pose proof (shr_fexp_nonneg m e l Hm) as H1.
  destruct (shr_fexp prec emax m e l) as [mrs' e']. simpl in H1.
  pose proof (shr_fexp_nonneg _ e' loc_Exact
                (round_nearest_even_nonneg _ (loc_of_shr_record mrs') H1)) as H2.
  destruct (shr_fexp prec emax _ e' loc_Exact) as [mrs'' e'']. simpl in H2.
  destruct (shr_m mrs'') as [|p|p]; [reflexivity | | lia].
  destruct (e'' <=? emax - prec)%Z; reflexivity.
Qed.

Lemma binary_round_sign (sx : bool) (m : positive) (e : Z) :
  match binary_round prec emax sx m e with
  | S754_zero s | S754_infinity s | S754_finite s _ _ => s = sx
  | S754_nan => False
  end.
Proof.
  unfold binary_round. destruct (shl_align m e _) as [mz ez].
  apply binary_round_aux_sign. lia.
Qed.

(** The sum of two floats that are not negative is not negative. *)
Lemma add_nonneg (x y : float) : nonneg x -> nonneg y -> nonneg (F64.add x y).
Proof.
  destruct x as [[]|[]| |[] mx ex], y as [[]|[]| |[] my ey]; simpl;
    intros Hx Hy; try discriminate Hx; try discriminate Hy; try tauto.
  apply (binary_round_sign false).
Qed.



(** Zero by a float above zero is zero. *)
Lemma div_zero_positive (y : float) :
  F64.ltb F64.zero y = true -> F64.div F64.zero y = F64.zero.
Proof. destruct y as [[]|[]| |[] m e]; simpl; try discriminate; reflexivity. Qed.

(** Sums from a float that is not negative. *)
Lemma fold_add_nonneg (xs : list float) (acc : float) :
  Forall nonneg xs -> nonneg acc -> nonneg (fold_left F64.add xs acc).
Proof.
  intros Hxs. revert acc. induction Hxs as [|x xs Hx _ IH]; intros acc Hacc; simpl.
  - exact Hacc.
  - apply IH, add_nonneg; assumption.
Qed.

(** Leaving the zeros out does not change such a sum. *)
Lemma fold_add_skip_zeros (xs : list float) (acc : float) :
  Forall nonneg xs -> nonneg acc ->
  fold_left F64.add (List.filter nonzero xs) acc = fold_left F64.add xs acc.
Proof.
  intros Hxs. revert acc. induction Hxs as [|x xs Hx _ IH]; intros acc Hacc; simpl.
  - reflexivity.
  - destruct (nonzero x) eqn:E; simpl.
    + apply IH, add_nonneg; assumption.
    + rewrite (nonneg_zero x Hx E), (add_zero_r acc Hacc). apply IH, Hacc.
Qed.

(** ** Sorting: [py_sort] permutes its list and orders it by the key *)
Section Sort.
Context {A : Type} (key : A -> Z).

Lemma insert_by_perm (x : A) (l : list A) : insert_by key x l ≡ₚ x :: l.
Proof.
  induction l as [|y l IH]; simpl; [reflexivity|].
  destruct (key x <=? key y)%Z; [reflexivity|].
  rewrite IH. apply Permutation_swap.
Qed.

Lemma py_sort_perm (l : list A) : py_sort key l ≡ₚ l.
Proof.
  induction l as [|x l IH]; simpl; [reflexivity|].
  rewrite insert_by_perm, IH. reflexivity.
Qed.

Lemma insert_by_sorted (x : A) (l : list A) :
  StronglySorted (key_le key) l -> StronglySorted (key_le key) (insert_by key x l).
Proof.
  induction 1 as [|y l Hsorted IH Hall]; simpl.
  - repeat constructor.
  - destruct (Z.leb_spec (key x) (key y)) as [Hle|Hlt].
    + constructor; [constructor; assumption|].
      constructor; [exact Hle|].
      eapply Forall_impl; [exact Hall|].
      unfold key_le. intros z Hz. lia.
    + constructor; [exact IH|].
      rewrite insert_by_perm. constructor; [unfold key_le; lia | exact Hall].
Qed.

Lemma py_sort_sorted (l : list A) : StronglySorted (key_le key) (py_sort key l).
Proof.
  induction l as [|x l IH]; simpl; [constructor | apply insert_by_sorted, IH].
Qed.

Lemma py_sort_length (l : list A) : length (py_sort key l) = length l.
Proof. apply Permutation_length, py_sort_perm. Qed.
End Sort.


(** ** C1: the order of the permanent and the temporary limit *)

(** The loop over the limit sets appends, set after set, the entries that
    [limit_errors] gives for the values the set resolves to. *)
Lemma check_limit_logic_loop (root : Element) (sets : list Element) (errors : list message) :
  for_each sets
    (fun errors limit_set =>
       values ← resolve_limits root limit_set;
       Ok (errors ++ limit_errors values)%list)
    errors
  = (fun values => (errors ++ concat (List.map limit_errors values))%list)
      <$> mapM (resolve_limits root) sets.
Proof.
  revert errors. induction sets as [|ls sets IH]; intros errors; simpl.
  - rewrite app_nil_r. reflexivity.
  - destruct (resolve_limits root ls) as [v|e]; simpl; [|reflexivity].
    rewrite IH. destruct (mapM (resolve_limits root) sets); simpl; [|reflexivity].
    rewrite app_assoc. reflexivity.
Qed.

(** What [float(x) if x else None] gives when it returns. *)
Lemma float_or_limit_value (current_limit : Element) (v : option float) :
  float_or (get_element_text current_limit "CurrentLimit.normalValue") Some None = Ok v ->
  v = limit_value current_limit.
Proof.
  unfold float_or, limit_value.
  destruct (truthy _); [|congruence].
  destruct (py_float _) as [x|e]; simpl; congruence.
Qed.

(** One current limit: when the step returns, a limit of the set replaces
    the value of its kind, and nothing else changes. *)
Lemma resolve_limit_step (root limit_set current_limit : Element)
    (st st' : option float * option float) :
  resolve_limit root (get_element_text limit_set "IdentifiedObject.mRID") st current_limit
  = Ok st' ->
  st' = (if of_set limit_set current_limit && has_kind PATL root current_limit
         then limit_value current_limit else st.1,
         if of_set limit_set current_limit && has_kind TATL root current_limit
         then limit_value current_limit else st.2).
Proof.
  unfold resolve_limit, of_set, has_kind, limit_type_of, named, ref_mentions, in_str.
  cbv zeta.
  destruct (get_element_resource current_limit "OperationalLimit.OperationalLimitSet")
    as [ls_ref|]; [|destruct st; cbn; congruence].
  destruct (get_element_text limit_set "IdentifiedObject.mRID") as [ls_mrid|].
  2:{ destruct (truthy (Some ls_ref)); [discriminate | destruct st; cbn; congruence]. }
  destruct (truthy (Some ls_ref)); [|destruct st; cbn; congruence].
  cbn [mbind result_bind andb].
  destruct (str_in ls_mrid ls_ref); [|destruct st; cbn; congruence].
  cbn [andb].
  destruct (get_element_resource current_limit "OperationalLimit.OperationalLimitType")
    as [ref|]; [|destruct st; cbn; congruence].
  destruct (truthy (Some ref)); [|destruct st; cbn; congruence].
  destruct (List.find _ _) as [limit_type|]; [|destruct st; cbn; congruence].
  destruct (get_element_text limit_type "IdentifiedObject.name") as [lt_name|]; [|discriminate].
  destruct (str_in "PATL" lt_name).
  - rewrite andb_false_r.
    destruct (float_or _ Some None) as [v|e] eqn:Hv; [|discriminate].
    apply float_or_limit_value in Hv. cbn. intros [= <-]. congruence.
  - rewrite andb_true_r. destruct (str_in "TATL" lt_name).
    + destruct (float_or _ Some None) as [v|e] eqn:Hv; [|discriminate].
      apply float_or_limit_value in Hv. cbn. intros [= <-]. congruence.
    + destruct st; cbn; congruence.
Qed.

Lemma last_filter_cons {A} (P : A -> bool) (x : A) (l : list A) :
  last (List.filter P (x :: l))
  = match last (List.filter P l) with
    | Some y => Some y
    | None => if P x then Some x else None
    end.
Proof.
  cbn [List.filter]. destruct (P x); [|destruct (last _); reflexivity].
  rewrite last_cons. reflexivity.
Qed.

(** The loop over the current limits: each value is that of the last
    current limit of the set and of the kind, or the value the loop starts
    from when there is none. *)
Lemma resolve_limits_loop (root limit_set : Element) (limits : list Element)
    (st st' : option float * option float) :
  for_each limits (resolve_limit root (get_element_text limit_set "IdentifiedObject.mRID")) st
  = Ok st' ->
  let value kind from :=
    match last (List.filter (fun cl => of_set limit_set cl && has_kind kind root cl) limits) with
    | Some cl => limit_value cl
    | None => from
    end in
  st' = (value PATL st.1, value TATL st.2).
Proof.
  revert st. induction limits as [|cl limits IH]; intros st; cbn [for_each].
  - intros [= <-]. destruct st; reflexivity.
  - destruct (resolve_limit root _ st cl) as [st1|e] eqn:Hstep; [|discriminate].
    cbn [mbind result_bind]. intros Hrest. apply IH in Hrest. cbv zeta in Hrest.
    apply resolve_limit_step in Hstep. rewrite Hrest. cbv zeta.
    rewrite !last_filter_cons. subst st1. simpl fst. simpl snd.
    f_equal.
    + destruct (last (List.filter (fun cl => of_set limit_set cl && has_kind PATL root cl)
                        limits)); [reflexivity|].
      destruct (of_set limit_set cl && has_kind PATL root cl); reflexivity.
    + destruct (last (List.filter (fun cl => of_set limit_set cl && has_kind TATL root cl)
                        limits)); [reflexivity|].
      destruct (of_set limit_set cl && has_kind TATL root cl); reflexivity.
Qed.

(** A limit set that resolves without an exception resolves to the values
    of its last permanent and of its last temporary current limit. *)
Lemma resolve_limits_resolved (root limit_set : Element) (values : option float * option float) :
  resolve_limits root limit_set = Ok values ->
  values = (resolved root limit_set PATL, resolved root limit_set TATL).
Proof.
  unfold resolve_limits. cbv zeta. intros H. apply resolve_limits_loop in H.
  cbv zeta in H. rewrite H. unfold resolved, limits_of. cbn [fst snd].
  f_equal; destruct (last _); reflexivity.
Qed.

(** C1, as stated, fails twice.  For PATL = 1000 A and TATL = 900 A the
    check appends two entries to [errors], the one that cites both values
    and a fixed second line, and the summary counts two errors.  For
    PATL = 1000 A and TATL = 0 A both values resolve, the temporary one is
    strictly below the permanent one, and nothing is appended: the test
    [patl_value and tatl_value and ...] takes a zero for a missing value. *)
Lemma C1_two_entries_and_zero_unreported :
  (check_limit_logic (limit_document "1000" "900")
   = Ok [ILLOGICAL_LIMIT (F64.of_Z 900) (F64.of_Z 1000); Temporary_limit_should_be_HIGHER] /\
   length [ILLOGICAL_LIMIT (F64.of_Z 900) (F64.of_Z 1000); Temporary_limit_should_be_HIGHER]
   = 2%nat) /\
  (findall_cim "OperationalLimitSet" (limit_document "1000" "0") = [limit_set_1] /\
   resolve_limits (limit_document "1000" "0") limit_set_1
   = Ok (Some (F64.of_Z 1000), Some F64.zero) /\
   F64.ltb F64.zero (F64.of_Z 1000) = true /\
   check_limit_logic (limit_document "1000" "0") = Ok []).
Proof. repeat split; vm_compute; reflexivity. Qed.

(** C1, amended.  When every limit set of the document resolves without an
    exception, the values of a set are those of its last permanent and of
    its last temporary current limit, a current limit being permanent when
    the name of its limit type contains [PATL] and temporary when it
    contains [TATL] and not [PATL].  For a set whose two values are numbers
    other than zero, [check_limit_logic] returns, between the entries of the
    sets before it and those of the sets after it: if TATL < PATL, exactly
    the entry that cites both values followed by the fixed line that the
    temporary limit should be higher, and otherwise no entry. *)
Theorem C1_limit_ordering (root limit_set : Element) (before after : list Element)
    (values : list (option float * option float)) (patl_value tatl_value : float) :
  findall_cim "OperationalLimitSet" root = (before ++ limit_set :: after)%list ->
  mapM (resolve_limits root) (findall_cim "OperationalLimitSet" root) = Ok values ->
  resolved root limit_set PATL = Some patl_value ->
  resolved root limit_set TATL = Some tatl_value ->
  nonzero patl_value = true ->
  nonzero tatl_value = true ->
  exists values_before values_after,
    values = (values_before ++ (Some patl_value, Some tatl_value) :: values_after)%list /\
    mapM (resolve_limits root) before = Ok values_before /\
    mapM (resolve_limits root) after = Ok values_after /\
    check_limit_logic root
    = Ok (concat (List.map limit_errors values_before) ++
          (if F64.ltb tatl_value patl_value
           then [ILLOGICAL_LIMIT tatl_value patl_value; Temporary_limit_should_be_HIGHER]
           else []) ++
          concat (List.map limit_errors values_after))%list.
Proof.
  intros Hsets Hvalues Hpatl Htatl Hp Ht.
  assert (Hcheck : check_limit_logic root = Ok (concat (List.map limit_errors values))).
  { unfold check_limit_logic. rewrite check_limit_logic_loop, Hvalues. reflexivity. }
  rewrite Hsets in Hvalues.
  apply mapM_app in Hvalues as (values_before & rest & -> & Hbefore & Hrest).
  change (limit_set :: after) with ([limit_set] ++ after)%list in Hrest.
  apply mapM_app in Hrest as (this & values_after & -> & Hthis & Hafter).
  cbn in Hthis. destruct (resolve_limits root limit_set) as [v|e] eqn:Hv; [|discriminate].
  cbn in Hthis. injection Hthis as <-.
  apply resolve_limits_resolved in Hv. rewrite Hpatl, Htatl in Hv. subst v.
  exists values_before, values_after. split; [reflexivity|].
  split; [exact Hbefore|]. split; [exact Hafter|].
  rewrite Hcheck, List.map_app, concat_app. cbn [List.map concat app limit_errors].
  rewrite Hp, Ht. cbn [andb]. destruct (F64.ltb tatl_value patl_value); reflexivity.
Qed.

(** The two cases of the specification, 1000 A / 900 A and 1000 A / 1100 A,
    and a set where a later permanent limit, of a limit type named after
    both kinds, replaces an earlier one. *)
Lemma C1_limit_ordering_1000_900 :
  check_limit_logic (limit_document "1000" "900")
  = Ok [ILLOGICAL_LIMIT (F64.of_Z 900) (F64.of_Z 1000); Temporary_limit_should_be_HIGHER] /\
  check_limit_logic (limit_document "1000" "1100") = Ok [] /\
  check_limit_logic Samples2.relimited_document
  = Ok [ILLOGICAL_LIMIT (F64.of_Z 900) (F64.of_Z 1000); Temporary_limit_should_be_HIGHER].
Proof.
  split; [|split].
  - destruct (C1_limit_ordering (limit_document "1000" "900") limit_set_1 [] []
                [(Some (F64.of_Z 1000), Some (F64.of_Z 900))] (F64.of_Z 1000) (F64.of_Z 900))
      as (vb & va & _ & Hvb & Hva & Hcheck); [vm_compute; reflexivity ..|].
    injection Hvb as <-. injection Hva as <-. exact Hcheck.
  - destruct (C1_limit_ordering (limit_document "1000" "1100") limit_set_1 [] []
                [(Some (F64.of_Z 1000), Some (F64.of_Z 1100))] (F64.of_Z 1000) (F64.of_Z 1100))
      as (vb & va & _ & Hvb & Hva & Hcheck); [vm_compute; reflexivity ..|].
    injection Hvb as <-. injection Hva as <-. exact Hcheck.
  - destruct (C1_limit_ordering Samples2.relimited_document limit_set_1 [] []
                [(Some (F64.of_Z 1000), Some (F64.of_Z 900))] (F64.of_Z 1000) (F64.of_Z 900))
      as (vb & va & _ & Hvb & Hva & Hcheck); [vm_compute; reflexivity ..|].
    injection Hvb as <-. injection Hva as <-. exact Hcheck.
Defined.

(** A limit set whose permanent limit is not a number, before the set of
    1000 A / 900 A: the check raises at the first set and appends nothing
    for the second. *)
Example unreadable_set_hides_the_next :
  findall_cim "OperationalLimitSet" Samples2.unreadable_set_document
  = [entity "OperationalLimitSet" "ls0" []; limit_set_1] /\
  resolved Samples2.unreadable_set_document limit_set_1 PATL = Some (F64.of_Z 1000) /\
  resolved Samples2.unreadable_set_document limit_set_1 TATL = Some (F64.of_Z 900) /\
  check_limit_logic Samples2.unreadable_set_document = Raise ValueError.
Proof. repeat split; vm_compute; reflexivity. Qed.

(** ** C2: duplicate identifiers *)
Section Filing.
Context {V : Type}.
Implicit Types (d : list (string * list V)) (l : list (string * V)).

Lemma dict_get_append d (k k' : string) (v : V) :
  dict_get k' (dict_append k v d)
  = if String.eqb k k' then Some (default [] (dict_get k d) ++ [v])%list
    else dict_get k' d.
Proof.
  unfold dict_get. induction d as [|[k0 vs] d IH]; simpl.
  - destruct (String.eqb k k'); reflexivity.
  - destruct (String.eqb_spec k0 k) as [->|Hne]; simpl.
    + destruct (String.eqb k k'); reflexivity.
    + destruct (String.eqb_spec k0 k') as [->|Hne']; simpl.
      * destruct (String.eqb_spec k k'); [congruence | reflexivity].
      * exact IH.
Qed.

Lemma keys_append d (k : string) (v : V) :
  List.map fst (dict_append k v d)
  = if existsb (String.eqb k) (List.map fst d) then List.map fst d
    else (List.map fst d ++ [k])%list.
Proof.
  induction d as [|[k0 vs] d IH]; simpl; [reflexivity|].
  rewrite (String.eqb_sym k k0).
  destruct (String.eqb k0 k); simpl; [reflexivity|].
  rewrite IH. destruct (existsb _ _); reflexivity.
Qed.

Lemma keys_append_NoDup d (k : string) (v : V) :
  List.NoDup (List.map fst d) -> List.NoDup (List.map fst (dict_append k v d)).
Proof.
  intros H. rewrite keys_append.
  destruct (existsb _ _) eqn:E; [exact H|].
  apply NoDup_ListNoDup, NoDup_app. split; [apply NoDup_ListNoDup, H|].
  split; [|apply NoDup_singleton].
  intros x Hx Hk. apply list_elem_of_singleton in Hk. subst x.
  apply not_true_iff_false in E. apply E, existsb_exists.
  exists k. split; [apply list_elem_of_In, Hx | apply String.eqb_refl].
Qed.

Lemma file_all_NoDup l d :
  List.NoDup (List.map fst d) -> List.NoDup (List.map fst (file_all d l)).
Proof.
  revert d. induction l as [|[k v] l IH]; intros d H; [exact H|].
  change (file_all d ((k, v) :: l)) with (file_all (dict_append k v d) l).
  apply IH, keys_append_NoDup, H.
Qed.

Lemma dict_get_file_all l d (k : string) :
  dict_get k (file_all d l)
  = match dict_get k d, under k l with
    | None, [] => None
    | o, vs => Some (default [] o ++ vs)%list
    end.
Proof.
  revert d. induction l as [|[k0 v] l IH]; intros d.
  - simpl. destruct (dict_get k d); simpl; [rewrite app_nil_r|]; reflexivity.
  - change (file_all d ((k0, v) :: l)) with (file_all (dict_append k0 v d) l).
    rewrite IH, dict_get_append. unfold under. simpl.
    destruct (String.eqb_spec k0 k) as [->|Hne]; simpl.
    + destruct (dict_get k d) as [vs|]; simpl; rewrite <- ?app_assoc; reflexivity.
    + reflexivity.
Qed.

Lemma dict_get_split d (k : string) (vs : list V) :
  List.NoDup (List.map fst d) ->
  dict_get k d = Some vs ->
  exists before after,
    d = (before ++ (k, vs) :: after)%list /\
    ~ In k (List.map fst before) /\ ~ In k (List.map fst after).
Proof.
  unfold dict_get. induction d as [|[k0 vs0] d IH]; simpl; [discriminate|].
  intros Hnodup Hget. inversion Hnodup as [|? ? Hk0 Hd]; subst.
  destruct (String.eqb_spec k0 k) as [->|Hne]; simpl in Hget.
  - injection Hget as ->. exists [], d. repeat split; auto.
  - destruct (IH Hd Hget) as (before & after & -> & Hb & Ha).
    exists ((k0, vs0) :: before), after. repeat split; auto.
    simpl. intros [H|H]; [congruence | auto].
Qed.
End Filing.

Lemma file_all_app {V} (d : list (string * list V)) (l1 l2 : list (string * V)) :
  file_all d (l1 ++ l2) = file_all (file_all d l1) l2.
Proof. apply foldl_app. Qed.

(** The nested loops of the check file the pairs of [filings], element
    after element. *)
Lemma mrids_filings (root : Element) :
  mrids root = file_all [] (List.flat_map filings (iter root)).
Proof.
  unfold mrids. generalize (@nil (string * list string)) as d.
  induction (iter root) as [|element elements IH]; intros d; [reflexivity|].
  cbn [foldl List.flat_map]. rewrite file_all_app, IH. f_equal.
  unfold filings, local_name. generalize d as d0.
  induction (children element) as [|child cs IHc]; intros d0; [reflexivity|].
  cbn [foldl List.flat_map]. rewrite file_all_app, IHc. f_equal.
  destruct (str_in "mRID" (tag child)); [|reflexivity].
  destruct (text child) as [t|]; [|reflexivity].
  simpl. destruct (negb (String.eqb t EmptyString)); reflexivity.
Qed.

Lemma under_app {V} (k : string) (l1 l2 : list (string * V)) :
  under k (l1 ++ l2) = (under k l1 ++ under k l2)%list.
Proof. unfold under. rewrite List.filter_app, List.map_app. reflexivity. Qed.

Lemma under_filings (root : Element) (id : string) :
  under id (List.flat_map filings (iter root)) = filed root id.
Proof.
  unfold filed. induction (iter root) as [|element elements IH]; [reflexivity|].
  cbn [List.flat_map]. rewrite under_app, IH. f_equal.
  unfold filings. induction (children element) as [|child cs IHc]; [reflexivity|].
  cbn [List.flat_map List.filter]. rewrite under_app, IHc.
  unfold mrid_child at 2.
  destruct (str_in "mRID" (tag child)); [|reflexivity].
  destruct (text child) as [t|]; [|reflexivity].
  simpl. destruct (negb (String.eqb t EmptyString)); [|reflexivity].
  unfold under. simpl. destruct (String.eqb t id); reflexivity.
Qed.

(** Every carrier files its local name at least once, and only carriers do. *)
Lemma carriers_filed_length (root : Element) (id : string) :
  (length (carriers root id) <= length (filed root id))%nat.
Proof.
  unfold carriers, filed. induction (iter root) as [|e es IH]; simpl; [lia|].
  rewrite length_app, length_map.
  destruct (existsb (mrid_child id) (children e)) eqn:E; [|lia].
  apply existsb_exists in E as (c & Hc & Hid).
  assert (In c (List.filter (mrid_child id) (children e))) as Hin
    by (apply filter_In; auto).
  destruct (List.filter (mrid_child id) (children e)); [destruct Hin|]. simpl. lia.
Qed.

Lemma carriers_filed_types (root : Element) (id : string) :
  (list_to_set (filed root id) : gset string)
  = list_to_set (List.map local_name (carriers root id)).
Proof.
  unfold carriers, filed. induction (iter root) as [|e es IH]; simpl; [reflexivity|].
  rewrite list_to_set_app_L, IH.
  destruct (existsb (mrid_child id) (children e)) eqn:E.
  - apply existsb_exists in E as (c & Hc & Hid).
    assert (In c (List.filter (mrid_child id) (children e))) as Hin
      by (apply filter_In; auto).
    simpl. f_equal.
    destruct (List.filter (mrid_child id) (children e)) as [|c0 cs]; [destruct Hin|].
    clear. simpl. induction cs as [|c1 cs IH]; simpl.
    + apply (right_id_L ∅ (∪)).
    + rewrite IH. apply (idemp_L (∪)).
  - assert (List.filter (mrid_child id) (children e) = []) as ->.
    { apply not_true_iff_false in E.
      destruct (List.filter (mrid_child id) (children e)) as [|c cs] eqn:F; [reflexivity|].
      exfalso. apply E, existsb_exists. exists c.
      apply filter_In. rewrite F. left. reflexivity. }
    simpl. rewrite (left_id_L ∅ (∪)). reflexivity.
Qed.

(** C2, as stated, fails: for the mRID [X] carried by a terminal and by a
    line segment the check appends two entries to [errors], not one; the
    first names the identifier, the second the types, and the summary counts
    two errors. *)
Lemma C2_duplicate_is_reported_in_two_entries :
  check_duplicate_mrids duplicate_document
  = [DUPLICATE_mRID "X";
     Used_in_elements 2 (list_to_set ["Terminal"; "ACLineSegment"])] /\
  length (check_duplicate_mrids duplicate_document) = 2%nat.
Proof. split; vm_compute; reflexivity. Qed.

(** C2, amended.  For every identifier carried by more than one element,
    the check appends exactly one entry that names the identifier, and
    directly after it one entry with the number of times the identifier was
    filed and the set of the distinct local names of the elements that carry
    it. *)
Theorem C2_duplicate_identifier (root : Element) (id : string) :
  (1 < length (carriers root id))%nat ->
  exists before after n,
    check_duplicate_mrids root
    = (before ++
       [DUPLICATE_mRID id;
        Used_in_elements n (list_to_set (List.map local_name (carriers root id)))] ++
       after)%list /\
    n = length (filed root id) /\
    (length (carriers root id) <= n)%nat /\
    ~ In (DUPLICATE_mRID id) before /\
    ~ In (DUPLICATE_mRID id) after.
Proof.
  intros Hmany.
  pose proof (carriers_filed_length root id) as Hlen.
  assert (Hget : dict_get id (mrids root) = Some (filed root id)).
  { rewrite mrids_filings, dict_get_file_all, under_filings. simpl.
    destruct (filed root id); [simpl in Hlen; lia | reflexivity]. }
  assert (Hnodup : List.NoDup (List.map fst (mrids root))).
  { rewrite mrids_filings. apply file_all_NoDup. constructor. }
  destruct (dict_get_split _ _ _ Hnodup Hget) as (before & after & Heq & Hb & Ha).
  set (block := fun '(mrid, elements) =>
                  if (1 <? length elements)%nat
                  then [DUPLICATE_mRID mrid;
                        Used_in_elements (length elements) (list_to_set elements)]
                  else [] : list message).
  assert (Hother : forall d, ~ In id (List.map fst d) ->
                             ~ In (DUPLICATE_mRID id) (List.flat_map block d)).
  { intros d Hd Hin. apply in_flat_map in Hin as ([k vs] & Hkv & Hin).
    apply Hd, in_map_iff. exists (k, vs). split; [|exact Hkv].
    simpl in Hin. destruct (1 <? length vs)%nat; [|destruct Hin].
    destruct Hin as [Hin|[Hin|[]]]; [|discriminate]. simpl. congruence. }
  exists (List.flat_map block before), (List.flat_map block after), (length (filed root id)).
  split; [|split; [reflexivity|split; [exact Hlen|split; apply Hother; assumption]]].
  unfold check_duplicate_mrids. fold block. rewrite Heq, flat_map_app. f_equal.
  cbn [List.flat_map]. f_equal. cbn [block].
  rewrite carriers_filed_types.
  destruct (Nat.ltb_spec 1 (length (filed root id))); [reflexivity | lia].
Qed.

(** The identifier [X] of [duplicate_document]. *)
Lemma C2_duplicate_identifier_X :
  exists before after n,
    check_duplicate_mrids duplicate_document
    = (before ++
       [DUPLICATE_mRID "X";
        Used_in_elements n
          (list_to_set (List.map local_name (carriers duplicate_document "X")))] ++
       after)%list /\
    n = length (filed duplicate_document "X") /\
    (length (carriers duplicate_document "X") <= n)%nat /\
    ~ In (DUPLICATE_mRID "X") before /\
    ~ In (DUPLICATE_mRID "X") after.
Proof.
  apply (C2_duplicate_identifier duplicate_document "X").
  vm_compute. lia.
Defined.

(** ** C3: references to elements that are not in the document *)

(** C3, as stated, fails: the machine references the unit [gone] and the
    current limit the limit type [nowhere], neither is in the document, and
    the whole output of the script has no warning and no trace of either:
    the table of question 1 has no power factor, question 4 prints no row,
    question 6 reports nothing. *)
Lemma C3_dangling_references_leave_no_trace :
  get_element_resource dangling_machine "RotatingMachine.GeneratingUnit" = Some "#_gone" /\
  carriers dangling_document "gone" = [] /\
  get_element_resource dangling_limit "OperationalLimit.OperationalLimitType"
  = Some "#_nowhere" /\
  carriers dangling_document "nowhere" = [] /\
  main (files_of dangling_document EmptyString)
  = Ok [Loading (File_loaded file_path);
        Question_1 (F64.of_Z 100, [mk_gen_unit (Some "G1") (F64.of_Z 100) F64.zero F64.zero None None]);
        Question_2 None;
        Question_3 None;
        Question_4 (Some (Some "NL-Line_5", []));
        Question_5
          (mk_question_5
             [mk_control_row true "G1" "GeneratorControlSource.onAGC" (Some "100")]
             true false None);
        Question_6 ([], []);
        ANALYSIS_COMPLETED].
Proof. repeat split; vm_compute; reflexivity. Qed.

(** C3, amended.  The script records no classification of references.  A
    reference whose identifier (the text after the last [#_]) is the mRID of
    no generating unit of the table, or of no limit type of the document, is
    passed over without an exception and without any entry: the join of
    question 1 leaves the table as it is, question 4 prints no row for the
    limit, and the limit check of question 6 keeps the values resolved so
    far. *)
Theorem C3_unresolved_reference_is_skipped (root : Element) (gen_units : dict GenUnit)
    (sync_machine current_limit : Element) (ref ref' : string)
    (seq : option string) (ls_mrid : string) (st : option float * option float) :
  get_element_resource sync_machine "RotatingMachine.GeneratingUnit" = Some ref ->
  dict_mem (Some (split_last "#_" ref)) gen_units = false ->
  get_element_resource current_limit "OperationalLimit.OperationalLimitType" = Some ref' ->
  List.find (fun lt => is_str (get_element_text lt "IdentifiedObject.mRID")
                              (split_last "#_" ref'))
            (findall_cim "OperationalLimitType" root) = None ->
  join_sync_machine gen_units sync_machine = Ok gen_units /\
  limit_rows root seq current_limit = Ok [] /\
  resolve_limit root (Some ls_mrid) st current_limit = Ok st.
Proof.
  intros Href Hmem Href' Hfind. split; [|split].
  - unfold join_sync_machine. rewrite Href, Hmem.
    destruct (truthy (Some ref)); reflexivity.
  - unfold limit_rows. rewrite Href', Hfind.
    destruct (truthy (Some ref')); reflexivity.
  - unfold resolve_limit.
    destruct (ref_mentions _ (Some ls_mrid)) as [[|]|e] eqn:Hb; simpl.
    + rewrite Href', Hfind. destruct (truthy (Some ref')); reflexivity.
    + reflexivity.
    + unfold ref_mentions in Hb.
      destruct (get_element_resource current_limit "OperationalLimit.OperationalLimitSet");
        [|discriminate].
      destruct (truthy _); discriminate.
Qed.

(** The two references of [dangling_document]. *)
Lemma C3_unresolved_reference_is_skipped_dangling :
  join_sync_machine [(Some "gu1", mk_gen_unit (Some "G1") (F64.of_Z 100) F64.zero F64.zero None None)] dangling_machine
  = Ok [(Some "gu1", mk_gen_unit (Some "G1") (F64.of_Z 100) F64.zero F64.zero None None)] /\
  limit_rows dangling_document (Some "1") dangling_limit = Ok [] /\
  resolve_limit dangling_document (Some "ls1") (None, None) dangling_limit = Ok (None, None).
Proof.
  apply (C3_unresolved_reference_is_skipped dangling_document _ dangling_machine
           dangling_limit "#_gone" "#_nowhere"); reflexivity.
Defined.

(** ** C4: a fault inside a check *)

(** The voltage check passes over what [float] refuses, so it always
    returns. *)
Lemma voltage_mismatch_returns (root vl : Element) :
  is_Ok (voltage_mismatch root vl) = true.
Proof.
  unfold voltage_mismatch.
  destruct (get_element_resource vl _) as [ref|]; [|reflexivity].
  destruct (get_element_text vl _) as [vl_name|]; [|reflexivity].
  destruct (_ && _); [|reflexivity].
  destruct (List.find _ _) as [base_v|]; [|reflexivity].
  destruct (get_element_text base_v _) as [nominal_v|]; [|reflexivity].
  destruct (truthy _); [|reflexivity].
  simpl.
  destruct (float_of_str vl_name) as [vl_num|e1] eqn:E1; simpl.
  - destruct (float_of_str nominal_v) as [bv_num|e2] eqn:E2; simpl.
    + destruct (F64.ltb _ _); reflexivity.
    + apply float_of_str_raises in E2. subst e2. reflexivity.
  - apply float_of_str_raises in E1. subst e1. reflexivity.
Qed.

(** The warnings of the voltage check are those of its voltage levels, one
    level after the other. *)
Lemma check_voltage_levels_collects (root : Element) :
  exists found,
    mapM (voltage_mismatch root) (findall_cim "VoltageLevel" root) = Ok found /\
    check_voltage_levels root = Ok (concat found).
Proof.
  unfold check_voltage_levels. rewrite for_each_collect.
  assert (H : is_Ok (mapM (voltage_mismatch root) (findall_cim "VoltageLevel" root)) = true).
  { induction (findall_cim "VoltageLevel" root) as [|vl l IH]; simpl; [reflexivity|].
    pose proof (voltage_mismatch_returns root vl) as Hvl.
    destruct (voltage_mismatch root vl); [|discriminate]. simpl.
    destruct (mapM _ l); [reflexivity | discriminate]. }
  destruct (mapM _ _) as [found|]; [|discriminate].
  exists found. split; reflexivity.
Qed.

Lemma check_voltage_levels_returns (root : Element) :
  is_Ok (check_voltage_levels root) = true.
Proof.
  destruct (check_voltage_levels_collects root) as (found & _ & ->). reflexivity.
Qed.

(** A voltage level whose name, or the nominal voltage of whose base
    voltage, is not a number gives no warning. *)
Lemma voltage_mismatch_passes_over (root vl : Element) :
  is_Ok (py_float (get_element_text vl "IdentifiedObject.name")) = false \/
  (forall base_v, base_voltage_of root vl = Some base_v ->
                  is_Ok (py_float (get_element_text base_v "BaseVoltage.nominalVoltage"))
                  = false) ->
  voltage_mismatch root vl = Ok [].
Proof.
  unfold voltage_mismatch, base_voltage_of.
  destruct (get_element_resource vl _) as [ref|]; [|reflexivity].
  destruct (get_element_text vl _) as [vl_name|]; [|reflexivity].
  destruct (_ && _); [|reflexivity].
  destruct (List.find _ _) as [base_v|]; [|reflexivity].
  intros H.
  destruct (get_element_text base_v _) as [nominal_v|] eqn:Hn; [|reflexivity].
  destruct (truthy _); [|reflexivity].
  destruct (py_float (Some vl_name)) as [vl_num|e1] eqn:E1.
  - destruct H as [H | H]; [discriminate|].
    specialize (H base_v eq_refl). rewrite Hn in H.
    cbn [mbind result_bind].
    destruct (py_float (Some nominal_v)) as [bv_num|e2] eqn:E2; [discriminate|].
    cbn in E2. apply float_of_str_raises in E2. subst e2. reflexivity.
  - cbn in E1. apply float_of_str_raises in E1. subst e1. reflexivity.
Qed.

(** C4, as stated, fails: the limit value [n/a] makes the third check raise
    [ValueError]; question 6 raises it, the duplicate found by the first
    check and the zero impedance the fifth check would have found are never
    reported, and [main] prints the error where the findings would be. *)
Lemma C4_fault_suppresses_every_finding :
  let fs := files_of faulty_document "<md:FullModel>" in
  check_duplicate_mrids faulty_document
  = [DUPLICATE_mRID "X"; Used_in_elements 2 (list_to_set ["Terminal"])] /\
  check_impedances faulty_document = Ok [ZERO_IMPEDANCE (Some "INJ")] /\
  check_limit_logic faulty_document = Raise ValueError /\
  analyze_question_6 faulty_document (read_text fs file_path) = Raise ValueError /\
  exists q1 q2 q3 q4 q5,
    main fs = Ok [Loading (File_loaded file_path);
                  Question_1 q1; Question_2 q2; Question_3 q3; Question_4 q4; Question_5 q5;
                  Error_during_analysis ValueError].
Proof.
  repeat split; try (vm_compute; reflexivity).
  do 5 eexists. vm_compute. reflexivity.
Qed.

(** C4, amended.  An exception raised by the limit check, or by the
    impedance check after the limit check returned, leaves question 6 as that
    exception: no finding is reported, those already collected included, and
    [main] prints the error in place of the summary.  Two faults only stay
    inside their check.  The voltage check never raises: its warnings are
    those of its voltage levels, and a level whose name, or the nominal
    voltage of whose base voltage, is not a number gives none.  A failure to
    read the file again becomes a warning of the structure check. *)
Theorem C4_fault_aborts_the_report (fs : files) (root : Element) (e : exn) :
  ET_parse fs file_path = Ok root ->
  check_limit_logic root = Raise e \/
  (is_Ok (check_limit_logic root) = true /\ check_impedances root = Raise e) ->
  analyze_question_6 root (read_text fs file_path) = Raise e /\
  (exists printed e',
     main fs = Ok (printed ++ [Error_during_analysis e'])%list /\
     forall o, ~ In (Question_6 o) printed) /\
  (forall root',
     exists found,
       mapM (voltage_mismatch root') (findall_cim "VoltageLevel" root') = Ok found /\
       check_voltage_levels root' = Ok (concat found)) /\
  (forall root' vl,
     is_Ok (py_float (get_element_text vl "IdentifiedObject.name")) = false \/
     (forall base_v, base_voltage_of root' vl = Some base_v ->
                     is_Ok (py_float (get_element_text base_v "BaseVoltage.nominalVoltage"))
                     = false) ->
     voltage_mismatch root' vl = Ok []) /\
  (forall e', check_xml_structure (Raise e')
              = Ok ([], [XML_structure_could_not_be_checked e'])).
Proof.
  intros Hparse Hfault.
  assert (H6 : analyze_question_6 root (read_text fs file_path) = Raise e).
  { unfold analyze_question_6. destruct Hfault as [H3 | [H3 H5]].
    - rewrite H3. reflexivity.
    - destruct (check_limit_logic root) as [errors3|]; [|discriminate]. simpl.
      pose proof (check_voltage_levels_returns root) as H4.
      destruct (check_voltage_levels root) as [warnings4|]; [|discriminate]. simpl.
      rewrite H5. reflexivity. }
  split; [exact H6|]. split; [|split; [|split]].
  - unfold main, parse_cgmes_file. rewrite Hparse. simpl. rewrite H6.
    destruct (analyze_question_1 root) as [o1|e1]; simpl;
      [|exists [Loading (File_loaded file_path)], e1; split;
         [reflexivity | simpl; intros o [H|[]]; discriminate]].
    destruct (analyze_question_3 root) as [o3|e3]; simpl;
      [|eexists [_; _; _], e3; split;
         [reflexivity | simpl; intros o H; repeat (destruct H as [H|H]; try discriminate); exact H]].
    destruct (analyze_question_4 root) as [o4|e4]; simpl;
      [|eexists [_; _; _; _], e4; split;
         [reflexivity | simpl; intros o H; repeat (destruct H as [H|H]; try discriminate); exact H]].
    destruct (analyze_question_5 root) as [o5|e5]; simpl;
      [|eexists [_; _; _; _; _], e5; split;
         [reflexivity | simpl; intros o H; repeat (destruct H as [H|H]; try discriminate); exact H]].
    eexists [_; _; _; _; _; _], e; split;
      [reflexivity | simpl; intros o H; repeat (destruct H as [H|H]; try discriminate); exact H].
  - apply check_voltage_levels_collects.
  - apply voltage_mismatch_passes_over.
  - reflexivity.
Qed.

(** The unreadable limit value of [faulty_document]. *)
Lemma C4_fault_aborts_the_report_faulty_document :
  analyze_question_6 faulty_document (Ok "<md:FullModel>") = Raise ValueError /\
  (exists printed e',
     main (files_of faulty_document "<md:FullModel>")
     = Ok (printed ++ [Error_during_analysis e'])%list /\
     forall o, ~ In (Question_6 o) printed) /\
  (forall root',
     exists found,
       mapM (voltage_mismatch root') (findall_cim "VoltageLevel" root') = Ok found /\
       check_voltage_levels root' = Ok (concat found)) /\
  (forall root' vl,
     is_Ok (py_float (get_element_text vl "IdentifiedObject.name")) = false \/
     (forall base_v, base_voltage_of root' vl = Some base_v ->
                     is_Ok (py_float (get_element_text base_v "BaseVoltage.nominalVoltage"))
                     = false) ->
     voltage_mismatch root' vl = Ok []) /\
  (forall e', check_xml_structure (Raise e')
              = Ok ([], [XML_structure_could_not_be_checked e'])).
Proof.
  apply (C4_fault_aborts_the_report (files_of faulty_document "<md:FullModel>")
           faulty_document ValueError).
  - reflexivity.
  - left. vm_compute. reflexivity.
Defined.

(** The voltage levels of [levels_document]: 16.1 against 15.1 kV differ by
    more than 1.0 in binary64, and the level named [n/a] is passed over. *)
Example voltage_levels_16_1 :
  check_voltage_levels Samples2.levels_document
  = Ok [VOLTAGE_MISMATCH "16.1" (F64.div (F64.of_Z 151) (F64.of_Z 10))].
Proof. vm_compute. reflexivity. Qed.

(** ** C5: the windings of the transformer *)
Lemma collect_winding_loop (ends : list Element) (acc : list winding) :
  for_each ends collect_winding acc
  = (fun ws => (acc ++ ws)%list) <$> mapM winding_of (List.filter mentions_transformer ends).
Proof.
  revert acc. induction ends as [|tf_end ends IH]; intros acc; simpl.
  - rewrite app_nil_r. reflexivity.
  - replace (collect_winding acc tf_end)
      with (if mentions_transformer tf_end
            then w ← winding_of tf_end; Ok (acc ++ [w])%list
            else Ok acc) by reflexivity.
    destruct (mentions_transformer tf_end); simpl.
    + destruct (winding_of tf_end) as [w|e]; simpl; [|reflexivity].
      rewrite IH. destruct (mapM winding_of _); simpl; [|reflexivity].
      rewrite <- app_assoc. reflexivity.
    + apply IH.
Qed.

Lemma side_of_YG (w : winding) :
  side_of w = YG <-> F64.ltb (F64.of_Z 100) (w_u w) = true.
Proof.
  unfold side_of. destruct (F64.ltb (F64.of_Z 100) (w_u w)); split; congruence.
Qed.

(** C5, as stated, fails: with end 1 rated 150 kV and end 2 rated 400 kV the
    printed ratio is 150/400, the first end over the second in the order of
    the end numbers, not 400/150. *)
Lemma C5_ratio_follows_the_end_numbers :
  analyze_question_3 (transformer_document "150" "400")
  = Ok (Some (mk_question_3 (Some "NL_TR2_2")
                [(YG, mk_winding 1 (F64.of_Z 150) (F64.of_Z 1000) "N/A");
                 (YG, mk_winding 2 (F64.of_Z 400) (F64.of_Z 1000) "N/A")]
                (Some (F64.div (F64.of_Z 150) (F64.of_Z 400), F64.of_Z 1000)))) /\
  F64.ltb (F64.div (F64.of_Z 150) (F64.of_Z 400)) (F64.div (F64.of_Z 400) (F64.of_Z 150))
  = true.
Proof. split; vm_compute; reflexivity. Qed.

(** C5, amended.  For the transformer with the fixed mRID, when the end
    number, rated voltage and rated power of every end whose reference
    contains that mRID can be read, there are two ends or more and no rated
    voltage reads as zero (as [1e-400] does): the rows are those ends ordered
    by end number, each marked high side exactly when its rated voltage, as
    a binary64 number, exceeds 100, and the ratio is the binary64 quotient of
    the rated voltage of the first row by that of the second. *)
Theorem C5_winding_query (root transformer : Element) (windings : list winding) :
  List.find (fun t => is_str (get_element_text t "IdentifiedObject.mRID") transformer_id)
            (findall_cim "PowerTransformer" root) = Some transformer ->
  mapM winding_of
       (List.filter mentions_transformer (findall_cim "PowerTransformerEnd" root))
  = Ok windings ->
  (2 <= length windings)%nat ->
  Forall (fun w => nonzero (w_u w) = true) windings ->
  exists w0 w1 rest,
    py_sort w_end windings = w0 :: w1 :: rest /\
    w0 :: w1 :: rest ≡ₚ windings /\
    StronglySorted (fun a b => (w_end a <= w_end b)%Z) (w0 :: w1 :: rest) /\
    analyze_question_3 root
    = Ok (Some (mk_question_3
                  (get_element_text transformer "IdentifiedObject.name")
                  (List.map (fun w => (side_of w, w)) (w0 :: w1 :: rest))
                  (Some (F64.div (w_u w0) (w_u w1), w_s w0)))) /\
    forall w, side_of w = YG <-> F64.ltb (F64.of_Z 100) (w_u w) = true.
Proof.
  intros Hfind Hends Hlen Hnonzero.
  pose proof (py_sort_perm w_end windings) as Hperm.
  pose proof (py_sort_sorted w_end windings) as Hsorted.
  pose proof (py_sort_length w_end windings) as Hlen'.
  destruct (py_sort w_end windings) as [|w0 [|w1 rest]] eqn:Hsort;
    simpl in Hlen'; try lia.
  exists w0, w1, rest. split; [reflexivity|]. split; [exact Hperm|].
  split; [exact Hsorted|]. split; [|apply side_of_YG].
  unfold analyze_question_3. rewrite Hfind, collect_winding_loop, Hends. simpl.
  rewrite Hsort. simpl.
  assert (Hw1 : nonzero (w_u w1) = true).
  { rewrite Forall_forall in Hnonzero. apply Hnonzero.
    rewrite <- Hperm. set_solver. }
  rewrite Hw1. reflexivity.
Qed.

(** 400/150 is 2.67 to two decimals. *)
Example ratio_400_150 :
  F64.ltb (F64.div (F64.of_Z 2665) (F64.of_Z 1000)) (F64.div (F64.of_Z 400) (F64.of_Z 150))
  = true /\
  F64.ltb (F64.div (F64.of_Z 400) (F64.of_Z 150)) (F64.div (F64.of_Z 2675) (F64.of_Z 1000))
  = true.
Proof. split; vm_compute; reflexivity. Qed.

(** A rated voltage of [1e-400] reads as zero, and the ratio raises; just
    above 100, [100.00000000000000001] reads as 100 and is the low side. *)
Example rated_voltage_rounds :
  analyze_question_3 (transformer_document "400" "1e-400") = Raise ZeroDivisionError /\
  option_map winding_rows
    <$> analyze_question_3 (transformer_document "100.00000000000000001" "150")
  = Ok (Some [(AG, mk_winding 1 (F64.of_Z 100) (F64.of_Z 1000) "N/A");
              (YG, mk_winding 2 (F64.of_Z 150) (F64.of_Z 1000) "N/A")]).
Proof. split; vm_compute; reflexivity. Qed.

(** Ends of 400 kV (end 1) and 150 kV (end 2), given in the other order. *)
Lemma C5_winding_query_400_150 :
  exists w0 w1 rest,
    py_sort w_end [mk_winding 2 (F64.of_Z 150) (F64.of_Z 1000) "N/A";
       mk_winding 1 (F64.of_Z 400) (F64.of_Z 1000) "N/A"]
    = w0 :: w1 :: rest /\
    w0 :: w1 :: rest ≡ₚ [mk_winding 2 (F64.of_Z 150) (F64.of_Z 1000) "N/A";
       mk_winding 1 (F64.of_Z 400) (F64.of_Z 1000) "N/A"] /\
    StronglySorted (fun a b => (w_end a <= w_end b)%Z) (w0 :: w1 :: rest) /\
    analyze_question_3 (transformer_document "400" "150")
    = Ok (Some (mk_question_3
                  (Some "NL_TR2_2")
                  (List.map (fun w => (side_of w, w)) (w0 :: w1 :: rest))
                  (Some (F64.div (w_u w0) (w_u w1), w_s w0)))) /\
    forall w, side_of w = YG <-> F64.ltb (F64.of_Z 100) (w_u w) = true.
Proof.
  apply (C5_winding_query (transformer_document "400" "150")
           (entity "PowerTransformer" transformer_id [leaf "IdentifiedObject.name" "NL_TR2_2"])).
  - reflexivity.
  - vm_compute. reflexivity.
  - simpl. lia.
  - repeat constructor.
Defined.

(** ** C6 and C10: slack detection *)











(** The lines of [controlled_document]: G1 is plain, G2 is marked for
    [onAGC], G3 for [SLACK]. *)
Example controlled_document_marks :
  (List.map slack_mark <$> (control_rows <$> analyze_question_5 Samples2.controlled_document))
  = Ok [false; true; true].
Proof. vm_compute. reflexivity. Qed.




(** The unit recommended for [units_document] is G2, the first of the two
    units of 300 MW; G3, without a maxOperatingP, is entered with 0. *)
Example units_document_recommendation :
  (recommendation <$> analyze_question_5 units_document)
  = Ok (Some (mk_generator (Some "G2") "GeneratorControlSource.offAGC" (F64.of_Z 300))) /\
  (List.map g_max_p <$> (List.map fst <$> mapM control_source
                           (findall_cim "GeneratingUnit" units_document)))
  = Ok [F64.of_Z 100; F64.of_Z 300; F64.zero; F64.of_Z 300].
Proof. split; vm_compute; reflexivity. Qed.

(** ** C7: loading *)

(** C7, as stated, fails: when the parser raises [ParseError] the loader
    does not; it returns no root, and [main] returns after the message. *)
Lemma C7_parse_error_is_swallowed :
  let fs := mk_files (fun _ => Raise ParseError) (fun _ => Raise OSError) in
  parse_cgmes_file fs file_path = Ok (Error_loading ParseError, None) /\
  parse_cgmes_file fs file_path <> Raise ParseError /\
  main fs = Ok [Loading (Error_loading ParseError)].
Proof. repeat split; discriminate. Qed.

(** C7, amended.  The loader never raises: when parsing succeeds it returns
    the root after the message that the file was loaded; when parsing raises
    any exception it prints that exception and returns no root, and [main]
    then stops without running an analysis. *)
Theorem C7_loader_reports_and_returns (fs : files) (path : string) :
  match ET_parse fs path with
  | Ok root => parse_cgmes_file fs path = Ok (File_loaded path, Some root)
  | Raise e => parse_cgmes_file fs path = Ok (Error_loading e, None)
  end /\
  match ET_parse fs file_path with
  | Ok root => exists printed, main fs = Ok (Loading (File_loaded file_path) :: printed)
  | Raise e => main fs = Ok [Loading (Error_loading e)]
  end.
Proof.
  unfold main, parse_cgmes_file. split.
  - destruct (ET_parse fs path); reflexivity.
  - destruct (ET_parse fs file_path); simpl; eauto.
Qed.

(** ** C8: network errors *)
Lemma fetch_data_http_failure (w : Task1.world) (report_id timezone : string)
    (start_date end_date : Task1.minute_stamp) (timeout : Z) (e : exn) :
  http_failure w (Task1.request report_id timezone timeout) e ->
  Task1.fetch_data (Task1.requests_get w) report_id start_date end_date timezone timeout
  = Raise e.
Proof.
  unfold Task1.fetch_data. intros [H | (resp & Hresp & Hstatus)].
  - rewrite H. reflexivity.
  - rewrite Hresp. simpl. rewrite Hstatus. reflexivity.
Qed.

(** C8.  An exception raised by the HTTP layer, by the request itself or by
    the check of the status, for either report, is the exception
    [fetch_data] raises and the exception [main] raises. *)
Theorem C8_network_errors_propagate (w : Task1.world) (date out : string) (timeout : Z)
    (start end_ : Task1.minute_stamp) (report_id : string) (e : exn) :
  Task1.mkdir w out = Ok tt ->
  Task1.get_day_range (Task1.fromisoformat w) date = Ok (start, end_) ->
  http_failure w (Task1.request report_id "EET" timeout) e ->
  report_id = Task1.REPORT_ID_AFRR \/
  (report_id = Task1.REPORT_ID_IMBALANCE /\
   exists afrr_data afrr_df,
     Task1.fetch_data (Task1.requests_get w) Task1.REPORT_ID_AFRR start end_ "EET" timeout
     = Ok afrr_data /\
     Task1.parse_to_dataframe (Task1.to_datetime w) afrr_data = Ok afrr_df) ->
  Task1.fetch_data (Task1.requests_get w) report_id start end_ "EET" timeout = Raise e /\
  Task1.main w date out timeout = Raise e.
Proof.
  intros Hmkdir Hrange Hfail Hwhich.
  pose proof (fetch_data_http_failure w report_id "EET" start end_ timeout e Hfail) as Hfetch.
  split; [exact Hfetch|].
  unfold Task1.main. rewrite Hmkdir. simpl. rewrite Hrange. simpl.
  destruct Hwhich as [-> | (-> & afrr_data & afrr_df & Hafrr & Hparse)].
  - rewrite Hfetch. reflexivity.
  - rewrite Hafrr. simpl. rewrite Hparse. simpl. rewrite Hfetch. reflexivity.
Qed.

(** The imbalance report answers 503. *)
Lemma C8_second_fetch_503 :
  Task1.fetch_data (Task1.requests_get Worlds.second_fetch_fails) Task1.REPORT_ID_IMBALANCE
    (Task1.mk_stamp 2025 9 22 0 0) (Task1.mk_stamp 2025 9 22 23 59) "EET" 30
  = Raise (HTTPError 503) /\
  Task1.main Worlds.second_fetch_fails "2025-09-22" "outputs/task1" 30 = Raise (HTTPError 503).
Proof.
  apply (C8_network_errors_propagate Worlds.second_fetch_fails "2025-09-22" "outputs/task1" 30
           (Task1.mk_stamp 2025 9 22 0 0) (Task1.mk_stamp 2025 9 22 23 59)
           Task1.REPORT_ID_IMBALANCE (HTTPError 503)).
  - reflexivity.
  - reflexivity.
  - right. eexists. split; reflexivity.
  - right. split; [reflexivity|].
    exists Worlds.one_item, [(0%Z, Task1.Num (F64.of_Z 3))].
    split; vm_compute; reflexivity.
Defined.

(** ** C9: the ratio of the metrics *)
Section Metrics.
Import Task1.





















End Metrics.




(** At 0:15 the imbalance is zero: no ratio; at 0:00 the imbalance is not
    given and at 0:45 the activation is not: the ratio is [NaN]; at 0:30 the
    ratio is |2| / |-4|. *)
Example metrics_three_quarters :
  List.map Task1.ratio_abs
    <$> Task1.calculate_metrics Worlds.afrr_frame Worlds.imbalance_frame
  = Ok [Task1.Num F64.nan; Task1.NA; Task1.Num (F64.div (F64.of_Z 2) (F64.of_Z 4));
        Task1.Num F64.nan].
Proof. vm_compute. reflexivity. Qed.

Import Further.

(** * Further properties *)

(** ** Exceptions of the loops *)

Lemma raises_only_weaken {A} (allowed allowed' : list exn) (r : result A) :
  (forall e, In e allowed -> In e allowed') ->
  raises_only allowed r -> raises_only allowed' r.
Proof. destruct r; simpl; auto. Qed.

Lemma raises_only_bind {A B} (allowed : list exn) (m : result A) (f : A -> result B) :
  raises_only allowed m ->
  (forall a, raises_only allowed (f a)) ->
  raises_only allowed (m ≫= f).
Proof. destruct m; simpl; auto. Qed.

Lemma raises_only_for_each {A S} (allowed : list exn) (l : list A)
    (body : S -> A -> result S) (s : S) :
  (forall s x, raises_only allowed (body s x)) ->
  raises_only allowed (for_each l body s).
Proof.
  intros Hbody. revert s. induction l as [|x l IH]; intros s; simpl; [exact I|].
  apply raises_only_bind; auto.
Qed.

Lemma raises_only_mapM {A B} (allowed : list exn) (f : A -> result B) (l : list A) :
  (forall x, raises_only allowed (f x)) ->
  raises_only allowed (mapM f l).
Proof.
  intros Hf. induction l as [|x l IH]; simpl; [exact I|].
  apply raises_only_bind; [apply Hf|]. intros b.
  apply raises_only_bind; [exact IH|]. intros bs. exact I.
Qed.

Lemma raises_only_fmap {A B} (allowed : list exn) (f : A -> B) (m : result A) :
  raises_only allowed m -> raises_only allowed (f <$> m).
Proof. destruct m; simpl; auto. Qed.

Lemma py_float_text_raises (x : option string) :
  truthy x = true -> raises_only [ValueError] (py_float x).
Proof.
  destruct x as [s|]; [|discriminate]. intros _. simpl.
  destruct (float_of_str s) eqn:E; simpl; [exact I|].
  left. symmetry. eapply float_of_str_raises, E.
Qed.

Lemma float_or_raises {A} (x : option string) (some : float -> A) (d : A) :
  raises_only [ValueError] (float_or x some d).
Proof.
  unfold float_or. destruct (truthy x) eqn:E; [|exact I].
  apply raises_only_fmap, py_float_text_raises, E.
Qed.

Lemma py_float_raises (x : option string) :
  raises_only [TypeError; ValueError] (py_float x).
Proof.
  destruct x as [s|]; simpl; [|auto].
  destruct (float_of_str s) eqn:E; simpl; [exact I|].
  right. left. symmetry. eapply float_of_str_raises, E.
Qed.

Lemma py_int_raises (x : option string) :
  raises_only [TypeError; ValueError] (py_int x).
Proof.
  destruct x as [s|]; simpl; [|auto]. unfold int_of_str.
  destruct (underscores false _) as [l0|]; simpl; [|auto].
  destruct (sign _) as [neg l]. destruct (digits l 0 0) as [[v n] l'].
  destruct n; simpl; auto. destruct l'; simpl; auto.
  destruct (_ <? _)%nat; simpl; auto.
Qed.

Lemma ref_mentions_raises (ref needle : option string) :
  raises_only [TypeError] (ref_mentions ref needle).
Proof.
  unfold ref_mentions. destruct ref as [r|]; [|exact I].
  destruct (truthy (Some r)); [|exact I].
  destruct needle; simpl; auto.
Qed.

(** ** What the analyses can raise *)

Ltac among := simpl; tauto.

Lemma analyze_question_1_raises (root : Element) :
  raises_only [TypeError; ValueError] (analyze_question_1 root).
Proof.
  unfold analyze_question_1.
  apply raises_only_bind.
  { apply raises_only_for_each. intros st u. unfold collect_gen_unit.
    destruct (truthy _) eqn:E; [|exact I].
    apply raises_only_bind.
    { eapply raises_only_weaken; [|apply py_float_text_raises, E]. among. }
    intros mx. apply raises_only_bind.
    { eapply raises_only_weaken; [|apply float_or_raises]. among. }
    intros mn. apply raises_only_bind.
    { eapply raises_only_weaken; [|apply float_or_raises]. among. }
    intros nm. exact I. }
  intros [gen_units total]. apply raises_only_bind.
  { apply raises_only_for_each. intros table sm. unfold join_sync_machine.
    destruct (get_element_resource sm _) as [ref|]; [|exact I].
    destruct (truthy _); [|exact I].
    destruct (dict_mem _ _); [|exact I].
    apply raises_only_bind.
    { eapply raises_only_weaken; [|apply float_or_raises]. among. }
    intros pf. apply raises_only_bind.
    { eapply raises_only_weaken; [|apply float_or_raises]. among. }
    intros rs. exact I. }
  intros table. apply raises_only_bind.
  { apply raises_only_mapM. intros [k u]. unfold print_gen_unit. simpl.
    destruct (name u), (power_factor u) as [[|]|], (rated_s u) as [[|]|]; among. }
  intros rows. exact I.
Qed.

Lemma winding_of_raises (tf_end : Element) :
  raises_only [TypeError; ValueError] (winding_of tf_end).
Proof.
  unfold winding_of.
  apply raises_only_bind; [apply py_int_raises|]. intros e.
  apply raises_only_bind; [apply py_float_raises|]. intros u.
  apply raises_only_bind; [apply py_float_raises|]. intros s. exact I.
Qed.

Lemma analyze_question_3_raises (root : Element) :
  raises_only [TypeError; ValueError; ZeroDivisionError] (analyze_question_3 root).
Proof.
  unfold analyze_question_3. destruct (List.find _ _); [|exact I].
  apply raises_only_bind.
  { apply raises_only_for_each. intros ws tf_end. unfold collect_winding.
    destruct (mentions_transformer tf_end); [|exact I].
    apply raises_only_bind; [|intros w; exact I].
    eapply raises_only_weaken; [|apply winding_of_raises]. among. }
  intros windings. apply raises_only_bind; [|intros r; exact I].
  unfold transformer_analysis.
  destruct (py_sort w_end windings) as [|w0 [|w1 rest]]; try exact I.
  destruct (nonzero _); among.
Qed.

Lemma limit_rows_raises (root : Element) (seq : option string) (current_limit : Element) :
  raises_only [TypeError] (limit_rows root seq current_limit).
Proof.
  unfold limit_rows. destruct (get_element_resource _ _) as [ref|]; [|exact I].
  destruct (truthy _); [|exact I]. destruct (List.find _ _) as [lt|]; [|exact I].
  destruct seq, (get_element_text lt "IdentifiedObject.name"),
    (get_element_text current_limit "CurrentLimit.normalValue"); among.
Qed.

Lemma terminal_rows_raises (root : Element) (term : option string * option string) :
  raises_only [TypeError] (terminal_rows root term).
Proof.
  unfold terminal_rows. apply raises_only_for_each. intros rows limit_set.
  apply raises_only_bind; [apply ref_mentions_raises|]. intros [|]; [|exact I].
  apply raises_only_for_each. intros rows' current_limit.
  apply raises_only_bind; [apply ref_mentions_raises|]. intros [|]; [|exact I].
  apply raises_only_bind; [apply limit_rows_raises|]. intros new. exact I.
Qed.

Lemma analyze_question_5_raises (root : Element) :
  raises_only [TypeError; ValueError] (analyze_question_5 root).
Proof.
  unfold analyze_question_5. apply raises_only_bind; [|intros units; exact I].
  apply raises_only_mapM. intros u. unfold control_source.
  apply raises_only_bind.
  { eapply raises_only_weaken; [|apply float_or_raises]. among. }
  intros p. destruct (get_element_text u "IdentifiedObject.name"); among.
Qed.

Lemma resolve_limit_raises (root : Element) (ls_mrid : option string)
    (st : option float * option float) (current_limit : Element) :
  raises_only [TypeError; ValueError] (resolve_limit root ls_mrid st current_limit).
Proof.
  unfold resolve_limit. apply raises_only_bind.
  { eapply raises_only_weaken; [|apply ref_mentions_raises]. among. }
  intros [|]; [|exact I].
  destruct (get_element_resource _ _) as [ref|]; [|exact I].
  destruct (truthy _); [|exact I]. destruct (List.find _ _) as [lt|]; [|exact I].
  destruct (get_element_text lt _) as [lt_name|]; [|among].
  destruct (str_in "PATL" lt_name).
  { apply raises_only_bind; [|intros v; exact I].
    eapply raises_only_weaken; [|apply float_or_raises]. among. }
  destruct (str_in "TATL" lt_name); [|exact I].
  apply raises_only_bind; [|intros v; exact I].
  eapply raises_only_weaken; [|apply float_or_raises]. among.
Qed.

Lemma check_limit_logic_raises (root : Element) :
  raises_only [TypeError; ValueError] (check_limit_logic root).
Proof.
  unfold check_limit_logic. apply raises_only_for_each. intros errors limit_set.
  apply raises_only_bind; [|intros v; exact I].
  unfold resolve_limits. apply raises_only_for_each. intros st cl.
  apply resolve_limit_raises.
Qed.

Lemma check_impedances_raises (root : Element) :
  raises_only [ValueError] (check_impedances root).
Proof.
  unfold check_impedances. apply raises_only_for_each. intros warnings eq_inj.
  apply raises_only_bind; [|intros new; exact I].
  unfold zero_impedance. destruct (truthy _ && truthy _) eqn:E; [|exact I].
  apply andb_true_iff in E as [Er Ex].
  apply raises_only_bind; [apply py_float_text_raises, Er|]. intros r'.
  destruct (nonzero r'); [exact I|].
  apply raises_only_bind; [apply py_float_text_raises, Ex|]. intros x'.
  destruct (nonzero x'); exact I.
Qed.

Lemma check_xml_structure_returns (xml_content : result string) :
  exists errors6 warnings6,
    check_xml_structure xml_content = Ok (errors6, warnings6) /\
    (warnings6 = [] \/ errors6 = []).
Proof.
  unfold check_xml_structure. destruct xml_content as [content|e]; simpl; eauto.
Qed.

Lemma analyze_question_4_raises (root : Element) :
  raises_only [TypeError] (analyze_question_4 root).
Proof.
  unfold analyze_question_4. destruct (List.find _ _); [|exact I].
  apply raises_only_bind; [|intros rows; exact I].
  apply raises_only_for_each. intros rows term.
  apply raises_only_bind; [apply terminal_rows_raises|]. intros new. exact I.
Qed.

Lemma analyze_question_6_raises (root : Element) (xml_content : result string) :
  raises_only [TypeError; ValueError] (analyze_question_6 root xml_content).
Proof.
  unfold analyze_question_6.
  pose proof (check_limit_logic_raises root) as H3.
  pose proof (check_impedances_raises root) as H5.
  pose proof (check_voltage_levels_returns root) as H4.
  destruct (check_xml_structure_returns xml_content) as (errors6 & warnings6 & H6 & _).
  destruct (check_limit_logic root) as [errors3|e3]; simpl in *; [|exact H3].
  destruct (check_voltage_levels root) as [warnings4|]; [|discriminate]. simpl.
  destruct (check_impedances root) as [warnings5|e5]; simpl in *.
  - rewrite H6. exact I.
  - destruct H5 as [H5|[]]. right. left. exact H5.
Qed.

(** What each question can raise.  Questions 1 and 5 parse numbers and
    format names: [TypeError] or [ValueError].  Question 3 also divides:
    [ZeroDivisionError] as well.  Question 4 prints the limit values and
    durations as the text they are, nothing is parsed: only the [TypeError]
    of a missing mRID, port, name or value. *)
Theorem question_exceptions (root : Element) :
  raises_only [TypeError; ValueError] (analyze_question_1 root) /\
  raises_only [TypeError; ValueError; ZeroDivisionError] (analyze_question_3 root) /\
  raises_only [TypeError] (analyze_question_4 root) /\
  raises_only [TypeError; ValueError] (analyze_question_5 root).
Proof.
  split; [apply analyze_question_1_raises|].
  split; [apply analyze_question_3_raises|].
  split; [apply analyze_question_4_raises | apply analyze_question_5_raises].
Qed.

(** Question 6 in full.  The limit check and the impedance check are its
    only sources of exceptions, the first with [TypeError] or [ValueError],
    the second with [ValueError]; when both return, question 6 returns the
    errors of the checks 1, 2, 3 and 6 and the warnings of the checks 4, 5
    and 6, in this order. *)
Theorem analyze_question_6_outcome (root : Element) (xml_content : result string) :
  match check_limit_logic root, check_impedances root with
  | Raise e, _ =>
      analyze_question_6 root xml_content = Raise e /\ (e = TypeError \/ e = ValueError)
  | Ok _, Raise e =>
      analyze_question_6 root xml_content = Raise e /\ e = ValueError
  | Ok errors3, Ok warnings5 =>
      exists warnings4 errors6 warnings6,
        check_voltage_levels root = Ok warnings4 /\
        check_xml_structure xml_content = Ok (errors6, warnings6) /\
        analyze_question_6 root xml_content
        = Ok ((check_duplicate_mrids root ++ check_transformer_ends root ++
               errors3 ++ errors6)%list,
              (warnings4 ++ warnings5 ++ warnings6)%list)
  end.
Proof.
  unfold analyze_question_6.
  pose proof (check_limit_logic_raises root) as H3.
  pose proof (check_impedances_raises root) as H5.
  pose proof (check_voltage_levels_returns root) as H4.
  destruct (check_xml_structure_returns xml_content) as (errors6 & warnings6 & H6 & _).
  destruct (check_limit_logic root) as [errors3|e3]; simpl in *.
  - destruct (check_voltage_levels root) as [warnings4|]; [|discriminate]. simpl.
    destruct (check_impedances root) as [warnings5|e5]; simpl in *.
    + exists warnings4, errors6, warnings6. rewrite H6. auto.
    + split; [reflexivity|]. destruct H5 as [H5|[]]. auto.
  - split; [reflexivity|]. destruct H3 as [H3|[H3|[]]]; auto.
Qed.

(** On a standard output that takes every line, [main] returns.  It prints
    the loading message and then either stops (the file could not be
    loaded), or prints the six analyses and the closing line, or prints the
    analyses that returned, at most five, followed by the error of the first
    that did not: a [TypeError], a [ValueError] or a [ZeroDivisionError].
    (A line holds marks outside ASCII; an output that cannot encode them
    makes [print] itself raise, which is outside this description.) *)
Theorem main_outcome (fs : files) :
  (exists e, ET_parse fs file_path = Raise e /\
             main fs = Ok [Loading (Error_loading e)]) \/
  (exists q1 q2 q3 q4 q5 q6,
     main fs = Ok [Loading (File_loaded file_path);
                   Question_1 q1; Question_2 q2; Question_3 q3;
                   Question_4 q4; Question_5 q5; Question_6 q6;
                   ANALYSIS_COMPLETED]) \/
  (exists printed e,
     main fs = Ok (Loading (File_loaded file_path) :: printed ++ [Error_during_analysis e])%list /\
     (length printed <= 5)%nat /\
     (e = TypeError \/ e = ValueError \/ e = ZeroDivisionError)).
Proof.
  unfold main, parse_cgmes_file.
  destruct (ET_parse fs file_path) as [root|e0]; simpl; [|left; eauto].
  right.
  pose proof (analyze_question_1_raises root) as H1.
  pose proof (analyze_question_3_raises root) as H3.
  pose proof (analyze_question_4_raises root) as H4.
  pose proof (analyze_question_5_raises root) as H5.
  pose proof (analyze_question_6_raises root (read_text fs file_path)) as H6.
  destruct (analyze_question_1 root) as [q1|e]; simpl in *;
    [|right; exists [], e; simpl; split; [reflexivity|split; [lia|intuition (subst; auto)]]].
  destruct (analyze_question_3 root) as [q3|e]; simpl in *;
    [|right; eexists [_; _], e; simpl; split; [reflexivity|split; [lia|intuition (subst; auto)]]].
  destruct (analyze_question_4 root) as [q4|e]; simpl in *;
    [|right; eexists [_; _; _], e; simpl; split; [reflexivity|split; [lia|intuition (subst; auto)]]].
  destruct (analyze_question_5 root) as [q5|e]; simpl in *;
    [|right; eexists [_; _; _; _], e; simpl; split; [reflexivity|split; [lia|intuition (subst; auto)]]].
  destruct (analyze_question_6 root (read_text fs file_path)) as [q6|e]; simpl in *.
  - left. do 6 eexists. reflexivity.
  - right. eexists [_; _; _; _; _], e. simpl. split; [reflexivity|]. split; [lia|].
    intuition (subst; auto).
Qed.

(** ** Question 1: the table and the total *)

Lemma key_eqb_eq (a b : option string) : key_eqb a b = true <-> a = b.
Proof.
  destruct a as [x|], b as [y|]; simpl; try (split; [discriminate|congruence]).
  - rewrite String.eqb_eq. split; congruence.
  - tauto.
Qed.

Lemma dict_mem_In {V} (k : option string) (d : dict V) :
  dict_mem k d = true <-> In k (List.map fst d).
Proof.
  unfold dict_mem. rewrite existsb_exists, in_map_iff. split.
  - intros ([k' v] & Hin & Heq). apply key_eqb_eq in Heq. exists (k', v). auto.
  - intros ([k' v] & Heq & Hin). exists (k', v). split; [exact Hin|].
    apply key_eqb_eq. exact Heq.
Qed.

Lemma dict_set_fresh {V} (k : option string) (v : V) (d : dict V) :
  dict_mem k d = false -> dict_set k v d = (d ++ [(k, v)])%list.
Proof.
  induction d as [|[k' v'] d IH]; simpl; [reflexivity|].
  unfold dict_mem. simpl. destruct (key_eqb k' k); simpl; [discriminate|].
  intros H. rewrite (IH H). reflexivity.
Qed.

Lemma dict_set_length {V} (k : option string) (v : V) (d : dict V) :
  (length (dict_set k v d) <= S (length d))%nat.
Proof.
  induction d as [|[k' v'] d IH]; simpl; [lia|].
  destruct (key_eqb k' k); simpl; lia.
Qed.

Lemma dict_update_keys {V} (k : option string) (f : V -> V) (d : dict V) :
  List.map fst (dict_update k f d) = List.map fst d.
Proof.
  induction d as [|[k' v'] d IH]; simpl; [reflexivity|].
  destruct (key_eqb k' k); simpl; congruence.
Qed.

Lemma dict_update_capacities (k : option string) (f : GenUnit -> GenUnit) (d : dict GenUnit) :
  (forall u, capacities (f u) = capacities u) ->
  List.map (fun kv => capacities kv.2) (dict_update k f d)
  = List.map (fun kv => capacities kv.2) d.
Proof.
  intros Hf. induction d as [|[k' v'] d IH]; simpl; [reflexivity|].
  destruct (key_eqb k' k); simpl; rewrite ?Hf; congruence.
Qed.

Lemma join_sync_machine_keeps (table table' : dict GenUnit) (sync_machine : Element) :
  join_sync_machine table sync_machine = Ok table' ->
  List.map fst table' = List.map fst table /\
  List.map (fun kv => capacities kv.2) table' = List.map (fun kv => capacities kv.2) table.
Proof.
  unfold join_sync_machine.
  destruct (get_element_resource sync_machine _) as [ref|]; [|intros [= <-]; auto].
  destruct (truthy (Some ref)); [|intros [= <-]; auto].
  destruct (dict_mem _ _); [|intros [= <-]; auto].
  destruct (float_or (get_element_text sync_machine "RotatingMachine.ratedPowerFactor")
                     Some None) as [pf|]; simpl; [|discriminate].
  destruct (float_or _ Some None) as [rs|]; simpl; [|discriminate].
  intros [= <-]. split; [apply dict_update_keys|].
  apply dict_update_capacities. reflexivity.
Qed.

(** The join with the synchronous machines neither adds, removes nor
    reorders a unit of the table, and changes no name and no capacity: it
    sets power factors and rated powers only. *)
Lemma join_keeps_units (machines : list Element) (table table' : dict GenUnit) :
  for_each machines join_sync_machine table = Ok table' ->
  List.map fst table' = List.map fst table /\
  List.map (fun kv => capacities kv.2) table' = List.map (fun kv => capacities kv.2) table.
Proof.
  revert table. induction machines as [|sm machines IH]; intros table; simpl.
  - intros [= <-]. auto.
  - destruct (join_sync_machine table sm) as [table1|] eqn:E; simpl; [|discriminate].
    intros H. apply IH in H as [H1 H2].
    apply join_sync_machine_keeps in E as [E1 E2]. split; congruence.
Qed.

Lemma collect_gen_unit_step (table : dict GenUnit) (t : float) (u : Element) :
  collect_gen_unit (table, t) u
  = if truthy (unit_max_p_text u) then
      mx ← py_float (unit_max_p_text u);
      mn ← float_or (get_element_text u "GeneratingUnit.minOperatingP") id F64.zero;
      nm ← float_or (get_element_text u "GeneratingUnit.nominalP") id F64.zero;
      Ok (dict_set (unit_mrid u)
            (mk_gen_unit (get_element_text u "IdentifiedObject.name") mx mn nm None None)
            table, F64.add t mx)
    else Ok (table, t).
Proof. reflexivity. Qed.

Lemma collect_gen_unit_loop (units : list Element) (table table' : dict GenUnit) (t t' : float) :
  for_each units collect_gen_unit (table, t) = Ok (table', t') ->
  exists ps,
    mapM (fun u => py_float (unit_max_p_text u))
         (List.filter (fun u => truthy (unit_max_p_text u)) units) = Ok ps /\
    t' = fold_left F64.add ps t /\
    (length table' <= length table + length ps)%nat /\
    (List.NoDup (List.map unit_mrid (List.filter (fun u => truthy (unit_max_p_text u)) units)) ->
     (forall u, In u (List.filter (fun u => truthy (unit_max_p_text u)) units) ->
                dict_mem (unit_mrid u) table = false) ->
     List.map (fun kv => max_p kv.2) table'
     = (List.map (fun kv => max_p kv.2) table ++ ps)%list).
Proof.
  revert table t. induction units as [|u units IH]; intros table t; cbn [for_each List.filter].
  - intros [= <- <-]. exists []. simpl. rewrite app_nil_r. repeat split; auto; lia.
  - rewrite collect_gen_unit_step.
    destruct (truthy (unit_max_p_text u)) eqn:Etruthy; simpl.
    + destruct (py_float (unit_max_p_text u)) as [mx|] eqn:Emx; simpl; [|discriminate].
      destruct (float_or (get_element_text u "GeneratingUnit.minOperatingP") id F64.zero)
        as [mn|]; simpl; [|discriminate].
      destruct (float_or _ id F64.zero) as [nm|]; simpl; [|discriminate].
      intros H. apply IH in H as (ps & Hps & Ht & Hlen & Hdistinct).
      exists (mx :: ps). rewrite Hps. simpl. split; [reflexivity|].
      split; [exact Ht|]. split.
      { pose proof (dict_set_length (unit_mrid u)
                      (mk_gen_unit (get_element_text u "IdentifiedObject.name") mx mn nm
                                   None None) table). lia. }
      intros Hnodup Hfresh. inversion Hnodup as [|? ? Hu Hrest]; subst.
      rewrite dict_set_fresh in Hdistinct by (apply Hfresh; left; reflexivity).
      rewrite Hdistinct; [rewrite List.map_app, <- app_assoc; reflexivity | exact Hrest |].
      intros u' Hu'. apply not_true_iff_false. rewrite dict_mem_In, List.map_app, in_app_iff.
      intros [Hin|[Heq|[]]].
      * apply dict_mem_In in Hin. rewrite Hfresh in Hin by (right; exact Hu'). discriminate.
      * apply Hu. simpl in Heq. rewrite Heq. apply in_map, Hu'.
    + apply IH.
Qed.

Lemma print_gen_unit_Ok (u u' : GenUnit) : print_gen_unit u = Ok u' -> u' = u.
Proof.
  unfold print_gen_unit.
  destruct (name u), (power_factor u) as [[|]|], (rated_s u) as [[|]|];
    intros H; try discriminate H; injection H as <-; reflexivity.
Qed.

Lemma print_rows (table : dict GenUnit) (rows : list GenUnit) :
  mapM (fun kv : option string * GenUnit => print_gen_unit kv.2) table = Ok rows ->
  rows = List.map snd table.
Proof.
  revert rows. induction table as [|[k u] table IH]; intros rows; simpl.
  - intros [= <-]. reflexivity.
  - destruct (print_gen_unit u) as [u'|] eqn:E; simpl; [|discriminate].
    destruct (mapM _ table) as [rows'|]; simpl; [|discriminate].
    intros [= <-]. apply print_gen_unit_Ok in E. subst u'. f_equal. apply IH. reflexivity.
Qed.

(** When question 1 returns, the total it prints is the binary64 sum of the
    maxOperatingP of every generating unit that has one, added one after the
    other in document order from 0, units that share an mRID included; the table has at most one row
    per such unit, and when their mRIDs are distinct it lists their
    capacities, in document order. *)
Theorem question_1_total (root : Element) (total : float) (rows : list GenUnit) :
  analyze_question_1 root = Ok (total, rows) ->
  exists ps,
    mapM (fun u => py_float (unit_max_p_text u)) (capacity_units root) = Ok ps /\
    total = fold_left F64.add ps F64.zero /\
    (length rows <= length ps)%nat /\
    (List.NoDup (List.map unit_mrid (capacity_units root)) -> List.map max_p rows = ps).
Proof.
  unfold analyze_question_1.
  destruct (for_each (findall_cim "GeneratingUnit" root) collect_gen_unit ([], F64.zero))
    as [[table t]|] eqn:Ecollect; simpl; [|discriminate].
  destruct (for_each _ join_sync_machine table) as [table'|] eqn:Ejoin; simpl; [|discriminate].
  destruct (mapM _ table') as [rows'|] eqn:Eprint; simpl; [|discriminate].
  intros [= <- <-].
  apply collect_gen_unit_loop in Ecollect as (ps & Hps & Ht & Hlen & Hdistinct).
  apply join_keeps_units in Ejoin as [Hkeys Hcaps].
  apply print_rows in Eprint. subst rows'.
  exists ps. split; [exact Hps|]. split; [exact Ht|].
  assert (Hsame : length table' = length table).
  { rewrite <- (length_map fst table'), Hkeys, length_map. reflexivity. }
  split; [rewrite length_map, Hsame; simpl in Hlen; lia|].
  intros Hnodup. specialize (Hdistinct Hnodup (fun _ _ => eq_refl)). simpl in Hdistinct.
  rewrite <- Hdistinct, List.map_map.
  apply (f_equal (List.map (fun c : option string * float * float * float => c.1.1.2))) in Hcaps.
  rewrite !List.map_map in Hcaps. exact Hcaps.
Qed.

Lemma question_1_total_shared_mrid :
  exists ps,
    mapM (fun u => py_float (unit_max_p_text u)) (capacity_units Samples2.shared_mrid_document)
    = Ok ps /\
    F64.of_Z 150 = fold_left F64.add ps F64.zero /\
    (length [mk_gen_unit (Some "B") (F64.of_Z 50) F64.zero F64.zero None None] <= length ps)%nat /\
    (List.NoDup (List.map unit_mrid (capacity_units Samples2.shared_mrid_document)) ->
     List.map max_p [mk_gen_unit (Some "B") (F64.of_Z 50) F64.zero F64.zero None None] = ps).
Proof.
  apply (question_1_total Samples2.shared_mrid_document). vm_compute. reflexivity.
Defined.

(** The total of 0.1 and 0.2 is the binary64 sum 0.30000000000000004, not
    0.3; digits may be grouped by underscores. *)
Example total_of_tenths :
  (x ← float_of_str "0.1"; y ← float_of_str "0.2"; Ok (F64.add (F64.add F64.zero x) y))
  = float_of_str "0.30000000000000004" /\
  float_of_str "0.30000000000000004" <> float_of_str "0.3" /\
  float_of_str "1_000" = Ok (F64.of_Z 1000).
Proof. repeat split; vm_compute; congruence. Qed.

(** ** Question 3: equal end numbers, a rated voltage of zero *)

Lemma insert_by_same_key {A} (key : A -> Z) (k : Z) (x : A) (l : list A) :
  List.filter (fun y => (key y =? k)%Z) (insert_by key x l)
  = List.filter (fun y => (key y =? k)%Z) (x :: l).
Proof.
  induction l as [|y l IH]; [reflexivity|].
  cbn [insert_by]. destruct (Z.leb_spec (key x) (key y)) as [Hle|Hlt]; [reflexivity|].
  cbn [List.filter] in *. rewrite IH.
  destruct (Z.eqb_spec (key x) k) as [Hx|Hx]; [|reflexivity].
  destruct (Z.eqb_spec (key y) k) as [Hy|Hy]; [lia | reflexivity].
Qed.

(** Sorting keeps the document order of the windings that share an end
    number: for every end number, the sorted list has the windings of that
    number in the order in which they were collected. *)
Theorem py_sort_stable {A} (key : A -> Z) (k : Z) (l : list A) :
  List.filter (fun y => (key y =? k)%Z) (py_sort key l)
  = List.filter (fun y => (key y =? k)%Z) l.
Proof.
  induction l as [|x l IH]; [reflexivity|].
  cbn [py_sort]. rewrite insert_by_same_key. cbn [List.filter]. rewrite IH. reflexivity.
Qed.

(** When the second winding in the order of the end numbers has a rated
    voltage of zero, question 3 raises [ZeroDivisionError]. *)
Theorem question_3_zero_voltage (root transformer : Element)
    (windings : list winding) (w0 w1 : winding) (rest : list winding) :
  List.find (fun t => is_str (get_element_text t "IdentifiedObject.mRID") transformer_id)
            (findall_cim "PowerTransformer" root) = Some transformer ->
  mapM winding_of
       (List.filter mentions_transformer (findall_cim "PowerTransformerEnd" root))
  = Ok windings ->
  py_sort w_end windings = w0 :: w1 :: rest ->
  nonzero (w_u w1) = false ->
  analyze_question_3 root = Raise ZeroDivisionError.
Proof.
  intros Hfind Hends Hsort Hzero.
  unfold analyze_question_3. rewrite Hfind, collect_winding_loop, Hends. simpl.
  rewrite Hsort. simpl. rewrite Hzero. reflexivity.
Qed.

Lemma question_3_zero_voltage_400_0 :
  analyze_question_3 (transformer_document "400" "0.0") = Raise ZeroDivisionError.
Proof.
  apply (question_3_zero_voltage (transformer_document "400" "0.0")
           (entity "PowerTransformer" transformer_id [leaf "IdentifiedObject.name" "NL_TR2_2"])
           [mk_winding 2 F64.zero (F64.of_Z 1000) "N/A";
            mk_winding 1 (F64.of_Z 400) (F64.of_Z 1000) "N/A"]
           (mk_winding 1 (F64.of_Z 400) (F64.of_Z 1000) "N/A")
           (mk_winding 2 F64.zero (F64.of_Z 1000) "N/A") []);
    vm_compute; reflexivity.
Defined.

(** ** Matching by substring *)

(** References are matched by substring.  A transformer end belongs to the
    transformer of question 3 exactly when its reference contains the mRID
    of the transformer somewhere; a reference mentions an mRID exactly when
    it is not empty and contains it: the reference need not be [#_] followed
    by the mRID, and the mRID of another element that contains this one
    matches as well. *)
Theorem references_match_by_substring (tf_end : Element) (ref mrid : string) :
  (mentions_transformer tf_end = true <->
   exists pre post,
     get_element_resource tf_end "PowerTransformerEnd.PowerTransformer"
     = Some (pre ++ transformer_id ++ post)) /\
  (ref_mentions (Some ref) (Some mrid) = Ok true <->
   ref <> EmptyString /\ exists pre post, ref = pre ++ mrid ++ post).
Proof.
  split.
  - unfold mentions_transformer.
    destruct (get_element_resource tf_end _) as [r|]; [|split; [discriminate|]].
    + rewrite andb_true_iff, str_in_substring, negb_true_iff. split.
      * intros (_ & pre & post & ->). eauto.
      * intros (pre & post & [= ->]). split; [|eauto].
        apply String.eqb_neq. intros H.
        apply append_empty in H as [_ H]. apply append_empty in H as [H _]. discriminate.
    + intros (pre & post & H). discriminate.
  - unfold ref_mentions, truthy, in_str.
    destruct (String.eqb_spec ref EmptyString) as [->|Hne]; simpl.
    + split; [discriminate | intros [H _]; congruence].
    + split.
      * intros [= H]. apply str_in_substring in H. auto.
      * intros [_ H]. apply str_in_substring in H. rewrite H. reflexivity.
Qed.

(** ** Question 5: a unit without a name *)

Lemma listing_named (units : list Element) (listed : list (generator * control_row)) :
  mapM control_source units = Ok listed ->
  Forall (fun u => unit_name_text u <> None) units.
Proof.
  revert listed. induction units as [|u units IH]; intros listed; simpl; [constructor|].
  destruct (control_source u) as [row|] eqn:E; simpl; [|discriminate].
  destruct (mapM control_source units) as [rows|]; simpl; [|discriminate].
  intros _. constructor; [|eapply IH; reflexivity].
  unfold control_source in E. fold (unit_name_text u) in E.
  destruct (float_or _ id F64.zero); simpl in E; [|discriminate].
  destruct (unit_name_text u); [discriminate | discriminate].
Qed.

(** If any generating unit of the document has no name, question 5 does not
    return: it raises [TypeError] when it formats the missing name, unless a
    maxOperatingP that is not a number raises [ValueError] before. *)
Theorem question_5_unnamed_unit (root : Element) :
  Exists (fun u => unit_name_text u = None) (findall_cim "GeneratingUnit" root) ->
  exists e, analyze_question_5 root = Raise e /\ (e = TypeError \/ e = ValueError).
Proof.
  intros Hunnamed.
  pose proof (analyze_question_5_raises root) as Hkinds.
  unfold analyze_question_5 in *.
  destruct (mapM control_source (findall_cim "GeneratingUnit" root)) as [listed|e] eqn:E.
  - apply listing_named in E. rewrite Forall_forall in E.
    apply Exists_exists in Hunnamed as (u & Hin & Hname).
    exfalso. exact (E u Hin Hname).
  - exists e. split; [reflexivity|]. simpl in Hkinds. intuition (subst; auto).
Qed.

Lemma question_5_unnamed_unit_G2 :
  exists e, analyze_question_5 Samples2.unnamed_unit_document = Raise e /\
            (e = TypeError \/ e = ValueError).
Proof.
  apply (question_5_unnamed_unit Samples2.unnamed_unit_document).
  apply Exists_cons_tl, Exists_cons_hd. reflexivity.
Defined.

(** ** The two duplicate checks, both ways *)

Lemma dict_get_In {V} (k : string) (vs : list V) (d : list (string * list V)) :
  List.NoDup (List.map fst d) -> In (k, vs) d -> dict_get k d = Some vs.
Proof.
  unfold dict_get. induction d as [|[k0 vs0] d IH]; simpl; [tauto|].
  intros Hnodup Hin. inversion Hnodup as [|? ? Hk0 Hd]; subst.
  destruct Hin as [[= -> ->]|Hin].
  - rewrite String.eqb_refl. reflexivity.
  - destruct (String.eqb_spec k0 k) as [->|Hne]; simpl.
    + exfalso. apply Hk0. apply in_map_iff. exists (k, vs). auto.
    + apply IH; assumption.
Qed.

Lemma dict_get_Some_In {V} (k : string) (vs : list V) (d : list (string * list V)) :
  dict_get k d = Some vs -> In (k, vs) d.
Proof.
  unfold dict_get. induction d as [|[k0 vs0] d IH]; simpl; [discriminate|].
  destruct (String.eqb_spec k0 k) as [->|Hne]; simpl.
  - intros [= ->]. auto.
  - auto.
Qed.

Lemma filed_entries {V} (l : list (string * V)) (k : string) (vs : list V) :
  In (k, vs) (file_all [] l) <-> vs = under k l /\ vs <> [].
Proof.
  assert (Hnodup : List.NoDup (List.map fst (file_all (@nil (string * list V)) l)))
    by (apply file_all_NoDup; constructor).
  pose proof (dict_get_file_all l [] k) as Hget. simpl in Hget.
  change (dict_get k []) with (@None (list V)) in Hget.
  split.
  - intros Hin. apply (dict_get_In _ _ _ Hnodup) in Hin. rewrite Hin in Hget.
    destruct (under k l); [discriminate|]. injection Hget as ->. split; [reflexivity|discriminate].
  - intros [-> Hne]. apply dict_get_Some_In. rewrite Hget.
    destruct (under k l); [congruence | reflexivity].
Qed.

(** The duplicate check reports an identifier exactly when it was filed
    more than once, and reports nothing exactly when no identifier was: an
    identifier carried by one element is never reported, unless that element
    has two children that carry it. *)
Theorem duplicate_entry_iff (root : Element) (id : string) :
  (In (DUPLICATE_mRID id) (check_duplicate_mrids root) <-> (1 < length (filed root id))%nat) /\
  (check_duplicate_mrids root = [] <-> forall id', (length (filed root id') <= 1)%nat).
Proof.
  assert (Hentries : forall k vs, In (k, vs) (mrids root) <-> vs = filed root k /\ vs <> []).
  { intros k vs. rewrite mrids_filings, filed_entries, under_filings. reflexivity. }
  assert (Hin : forall k, In (DUPLICATE_mRID k) (check_duplicate_mrids root)
                          <-> (1 < length (filed root k))%nat).
  { intros k. unfold check_duplicate_mrids. rewrite in_flat_map. split.
    - intros ([k' vs] & Hkv & Hd). apply Hentries in Hkv as [-> _].
      destruct (Nat.ltb_spec 1 (length (filed root k'))) as [Hlt|]; [|destruct Hd].
      destruct Hd as [[= ->]|[Hd|[]]]; [exact Hlt | discriminate].
    - intros Hlt. exists (k, filed root k). split.
      + apply Hentries. split; [reflexivity|]. destruct (filed root k); [simpl in Hlt; lia|discriminate].
      + destruct (Nat.ltb_spec 1 (length (filed root k))); [left; reflexivity | lia]. }
  split; [apply Hin|]. split.
  - intros Hnil id'. destruct (Nat.le_gt_cases (length (filed root id')) 1) as [|Hlt]; [assumption|].
    apply Hin in Hlt. rewrite Hnil in Hlt. destruct Hlt.
  - intros Hall. unfold check_duplicate_mrids.
    assert (Hsmall : forall k vs, In (k, vs) (mrids root) -> (length vs <= 1)%nat).
    { intros k vs Hkv. apply Hentries in Hkv as [-> _]. apply Hall. }
    revert Hsmall. generalize (mrids root) as d.
    induction d as [|[k vs] d IH]; intros Hsmall; [reflexivity|].
    cbn [List.flat_map]. rewrite IH by (intros k' vs' H; apply (Hsmall k' vs'); right; exact H).
    pose proof (Hsmall k vs (or_introl eq_refl)) as Hle.
    destruct (Nat.ltb_spec 1 (length vs)); [lia | reflexivity].
Qed.

Lemma tf_end_ids_filings (root : Element) :
  tf_end_ids root
  = file_all [] (List.flat_map end_filings (findall_cim "PowerTransformerEnd" root)).
Proof.
  unfold tf_end_ids. generalize (@nil (string * list (option string))) as d.
  induction (findall_cim "PowerTransformerEnd" root) as [|tf_end ends IH]; intros d;
    [reflexivity|].
  cbn [foldl List.flat_map]. rewrite file_all_app, IH. f_equal.
  unfold end_filings. destruct (get_element_text tf_end "IdentifiedObject.mRID") as [m|];
    [|reflexivity].
  destruct (truthy (Some m)); reflexivity.
Qed.

(** The check of the transformer ends reports an mRID exactly when two ends
    or more carry it; it then appends one entry that names the mRID and,
    directly after it, one entry with the number of those ends and their
    names in document order. *)
Theorem transformer_end_duplicates (root : Element) (id : string) :
  (In (DUPLICATE_PowerTransformerEnd_mRID id) (check_transformer_ends root) <->
   (1 < length (end_names root id))%nat) /\
  ((1 < length (end_names root id))%nat ->
   exists before after,
     check_transformer_ends root
     = (before ++
        [DUPLICATE_PowerTransformerEnd_mRID id;
         Found_in_windings (length (end_names root id)) (end_names root id)] ++
        after)%list /\
     ~ In (DUPLICATE_PowerTransformerEnd_mRID id) before /\
     ~ In (DUPLICATE_PowerTransformerEnd_mRID id) after).
Proof.
  set (block := fun '(mrid, names) =>
                  if (1 <? length names)%nat
                  then [DUPLICATE_PowerTransformerEnd_mRID mrid;
                        Found_in_windings (length names) names]
                  else [] : list message).
  assert (Hentries : forall k vs, In (k, vs) (tf_end_ids root)
                                  <-> vs = end_names root k /\ vs <> []).
  { intros k vs. rewrite tf_end_ids_filings, filed_entries. reflexivity. }
  assert (Hblock : forall d k, In (DUPLICATE_PowerTransformerEnd_mRID k) (List.flat_map block d)
                               -> exists vs, In (k, vs) d /\ (1 < length vs)%nat).
  { intros d k Hin. apply in_flat_map in Hin as ([k' vs] & Hkv & Hd). simpl in Hd.
    destruct (Nat.ltb_spec 1 (length vs)) as [Hlt|]; [|destruct Hd].
    destruct Hd as [[= ->]|[Hd|[]]]; [eauto | discriminate]. }
  split.
  - unfold check_transformer_ends. fold block. split.
    + intros Hin. apply Hblock in Hin as (vs & Hkv & Hlt).
      apply Hentries in Hkv as [-> _]. exact Hlt.
    + intros Hlt. apply in_flat_map. exists (id, end_names root id). split.
      * apply Hentries. split; [reflexivity|].
        destruct (end_names root id); [simpl in Hlt; lia | discriminate].
      * simpl. destruct (Nat.ltb_spec 1 (length (end_names root id))); [left; reflexivity|lia].
  - intros Hlt.
    assert (Hget : dict_get id (tf_end_ids root) = Some (end_names root id)).
    { apply dict_get_In.
      - rewrite tf_end_ids_filings. apply file_all_NoDup. constructor.
      - apply Hentries. split; [reflexivity|].
        destruct (end_names root id); [simpl in Hlt; lia | discriminate]. }
    assert (Hnodup : List.NoDup (List.map fst (tf_end_ids root))).
    { rewrite tf_end_ids_filings. apply file_all_NoDup. constructor. }
    destruct (dict_get_split _ _ _ Hnodup Hget) as (before & after & Heq & Hb & Ha).
    exists (List.flat_map block before), (List.flat_map block after).
    split; [|split].
    + unfold check_transformer_ends. fold block. rewrite Heq, flat_map_app. f_equal.
      cbn [List.flat_map]. f_equal. cbn [block].
      destruct (Nat.ltb_spec 1 (length (end_names root id))); [reflexivity | lia].
    + intros Hin. apply Hblock in Hin as (vs & Hkv & _).
      apply Hb, in_map_iff. exists (id, vs). auto.
    + intros Hin. apply Hblock in Hin as (vs & Hkv & _).
      apply Ha, in_map_iff. exists (id, vs). auto.
Qed.

Lemma transformer_end_duplicates_E :
  In (DUPLICATE_PowerTransformerEnd_mRID "E")
     (check_transformer_ends Samples2.shared_end_document) /\
  exists before after,
    check_transformer_ends Samples2.shared_end_document
    = (before ++
       [DUPLICATE_PowerTransformerEnd_mRID "E";
        Found_in_windings 2 [Some "HV"; Some "LV"]] ++ after)%list /\
    ~ In (DUPLICATE_PowerTransformerEnd_mRID "E") before /\
    ~ In (DUPLICATE_PowerTransformerEnd_mRID "E") after.
Proof.
  destruct (transformer_end_duplicates Samples2.shared_end_document "E") as [Hiff Hblock].
  split.
  - apply Hiff. vm_compute. lia.
  - apply Hblock. vm_compute. lia.
Defined.

(** ** A limit set without an mRID *)

Lemma resolve_limit_without_mrid (root : Element) (st : option float * option float) (cl : Element) :
  resolve_limit root None st cl
  = if truthy (get_element_resource cl "OperationalLimit.OperationalLimitSet")
    then Raise TypeError else Ok st.
Proof.
  unfold resolve_limit, ref_mentions. cbv zeta.
  destruct (get_element_resource cl "OperationalLimit.OperationalLimitSet") as [r|];
    [|reflexivity].
  destruct (truthy (Some r)); reflexivity.
Qed.

Lemma resolve_without_mrid (root : Element) (limits : list Element) (st : option float * option float) :
  Exists (fun cl => truthy (get_element_resource cl "OperationalLimit.OperationalLimitSet")
                    = true) limits ->
  for_each limits (resolve_limit root None) st = Raise TypeError.
Proof.
  induction 1 as [cl limits Hcl|cl limits _ IH]; cbn [for_each];
    rewrite resolve_limit_without_mrid.
  - rewrite Hcl. reflexivity.
  - destruct (truthy _); [reflexivity | exact IH].
Qed.

Lemma for_each_raises {A S} (l : list A) (body : S -> A -> result S) (x : A) (s : S) :
  In x l -> (forall s', exists e, body s' x = Raise e) ->
  exists e, for_each l body s = Raise e.
Proof.
  intros Hin Hx. revert s. induction l as [|y l IH]; intros s; [destruct Hin|].
  cbn [for_each]. destruct Hin as [->|Hin].
  - destruct (Hx s) as (e & ->). eauto.
  - destruct (body s y) as [s'|e]; simpl; [apply IH, Hin | eauto].
Qed.

(** A limit set without an mRID stops the validation as soon as the
    document has a current limit with a limit-set reference: resolving the
    set raises [TypeError], so the limit check raises and question 6 ends
    there, whatever the file holds. *)
Theorem limit_set_without_mrid (root limit_set : Element) :
  In limit_set (findall_cim "OperationalLimitSet" root) ->
  get_element_text limit_set "IdentifiedObject.mRID" = None ->
  Exists (fun cl => truthy (get_element_resource cl "OperationalLimit.OperationalLimitSet")
                    = true) (findall_cim "CurrentLimit" root) ->
  resolve_limits root limit_set = Raise TypeError /\
  exists e, check_limit_logic root = Raise e /\
            forall xml_content, analyze_question_6 root xml_content = Raise e.
Proof.
  intros Hin Hmrid Hlimits.
  assert (Hresolve : resolve_limits root limit_set = Raise TypeError).
  { unfold resolve_limits. rewrite Hmrid. apply resolve_without_mrid, Hlimits. }
  split; [exact Hresolve|].
  destruct (for_each_raises (findall_cim "OperationalLimitSet" root)
              (fun errors ls => values ← resolve_limits root ls;
                                Ok (errors ++ limit_errors values)%list)
              limit_set [] Hin) as (e & He).
  { intros s'. rewrite Hresolve. eauto. }
  exists e. split; [exact He|].
  intros xml_content. unfold analyze_question_6.
  unfold check_limit_logic in *. rewrite He. reflexivity.
Qed.

Lemma limit_set_without_mrid_anonymous :
  resolve_limits Samples2.anonymous_set_document Samples2.anonymous_set = Raise TypeError /\
  exists e, check_limit_logic Samples2.anonymous_set_document = Raise e /\
            forall xml_content,
              analyze_question_6 Samples2.anonymous_set_document xml_content = Raise e.
Proof.
  apply (limit_set_without_mrid Samples2.anonymous_set_document Samples2.anonymous_set).
  - left. reflexivity.
  - reflexivity.
  - apply Exists_cons_hd. reflexivity.
Defined.

(** ** task1.py: fetching and parsing *)
Section Fetching.
Import Task1.

(** What [fetch_data] gives.  A payload is the decoded body of a response
    whose status is outside 400..599 and whose content type, in lower case,
    starts with application/json and has no text/html in it; a response
    without a content type never gives one.  An exception is the one of
    [requests.get], the [HTTPError] of the status, the one of decoding the
    body, or [ValueError]; a body that is not JSON gives [ValueError]. *)
Theorem fetch_data_outcome (requests_get : Request -> result Response)
    (report_id timezone : string) (timeout : Z) (start_date end_date : minute_stamp) :
  match fetch_data requests_get report_id start_date end_date timezone timeout with
  | Ok p =>
      exists resp content_type,
        requests_get (request report_id timezone timeout) = Ok resp /\
        raise_for_status resp = Ok tt /\
        content_type_header resp = Some content_type /\
        String.prefix "application/json" (lower content_type) = true /\
        str_in "text/html" (lower content_type) = false /\
        json resp = Ok p
  | Raise e =>
      requests_get (request report_id timezone timeout) = Raise e \/
      exists resp,
        requests_get (request report_id timezone timeout) = Ok resp /\
        (e = HTTPError (status_code resp) /\ (400 <= status_code resp < 600)%Z \/
         raise_for_status resp = Ok tt /\
         (e = ValueError \/ json resp = Raise e /\ e <> JSONDecodeError))
  end.
Proof.
  unfold fetch_data.
  destruct (requests_get (request report_id timezone timeout)) as [resp|e];
    [|left; reflexivity].
  cbn [mbind result_bind].
  destruct (raise_for_status resp) as [[]|e] eqn:Hstatus; cbn [mbind result_bind].
  2:{ right. exists resp. split; [reflexivity|]. left.
      unfold raise_for_status in Hstatus.
      destruct ((400 <=? status_code resp)%Z && (status_code resp <? 600)%Z) eqn:Hcode;
        [|discriminate].
      injection Hstatus as <-. apply andb_true_iff in Hcode as [H1 H2]. split; [reflexivity | lia]. }
  destruct (content_type_header resp) as [content_type|] eqn:Hct; cbn [from_option id].
  - destruct (str_in "text/html" (lower content_type)) eqn:Hhtml; cbn [orb].
    { right. exists resp. split; [reflexivity|]. right. split; [exact Hstatus|].
      left. reflexivity. }
    destruct (String.prefix "application/json" (lower content_type)) eqn:Hjson; cbn [negb].
    + destruct (json resp) as [p|e] eqn:Hbody.
      * exists resp, content_type. repeat split; assumption.
      * destruct e; cbn [try_except_ValueError];
          right; exists resp; (split; [reflexivity|]); right; (split; [exact Hstatus|]);
          first [left; reflexivity | right; split; [exact Hbody | discriminate]].
    + right. exists resp. split; [reflexivity|]. right. split; [exact Hstatus|].
      left. reflexivity.
  - replace (lower EmptyString) with EmptyString by reflexivity.
    replace (str_in "text/html" EmptyString) with false by reflexivity.
    replace (String.prefix "application/json" EmptyString) with false by reflexivity.
    cbn [orb negb]. right. exists resp. split; [reflexivity|]. right.
    split; [exact Hstatus|]. left. reflexivity.
Qed.


(** *** Parsing *)












(** A served document; a document without data; a [null] among the values
    of an item. *)
Example parse_to_dataframe_samples :
  parse_to_dataframe (to_datetime Worlds2.zero_imbalance_day) Worlds.one_item
  = Ok [(0%Z, Num (F64.of_Z 3))] /\
  parse_to_dataframe (to_datetime Worlds2.zero_imbalance_day) (JDict [])
  = Raise ValueError /\
  parse_to_dataframe (to_datetime Worlds2.zero_imbalance_day)
    (Worlds.document [Worlds.item "2025-09-22T00:00" [JInt 1; JNull]])
  = Raise TypeError.
Proof. repeat split; vm_compute; reflexivity. Qed.
End Fetching.

(** ** task1.py: the report *)
Section Reporting.
Import Task1 Report.

(** The values that a sum of absolute values takes into account are not
    negative. *)
Lemma present_abs_nonneg (l : list cell) : Forall nonneg (omap present (List.map cell_abs l)).
Proof.
  induction l as [|c l IH]; [constructor|].
  cbn [List.map omap list_omap].
  destruct c as [x|]; cbn [cell_abs present]; [|exact IH].
  rewrite abs_nan. destruct (F64.is_nan x) eqn:Hx; [exact IH|].
  constructor; [apply abs_nonneg, Hx | exact IH].
Qed.

(** Replacing the zeros by [pd.NA] leaves the zeros out of the sum. *)
Lemma present_replace (l : list cell) :
  omap present (List.map replace_0_NA (List.map cell_abs l))
  = List.filter nonzero (omap present (List.map cell_abs l)).
Proof.
  induction l as [|c l IH]; [reflexivity|].
  cbn [List.map omap list_omap]. rewrite IH.
  destruct c as [x|]; cbn [cell_abs replace_0_NA present]; [|reflexivity].
  destruct (nonzero (F64.abs x)) eqn:Hzero; cbn [present].
  - destruct (F64.is_nan (F64.abs x)); cbn [List.filter]; [reflexivity|].
    rewrite Hzero. reflexivity.
  - replace (F64.is_nan (F64.abs x)) with false by (destruct x; try reflexivity; discriminate).
    cbn [List.filter]. rewrite Hzero. reflexivity.
Qed.

Lemma series_sum_replace (l : list cell) :
  series_sum (List.map replace_0_NA (List.map cell_abs l)) = series_sum (List.map cell_abs l).
Proof.
  unfold series_sum. rewrite present_replace.
  apply fold_add_skip_zeros; [apply present_abs_nonneg | reflexivity].
Qed.

(** Values that are all zero or missing add up to [+0.0]. *)
Lemma present_zero (l : list cell) :
  Forall zero_or_missing l -> Forall (eq F64.zero) (omap present (List.map cell_abs l)).
Proof.
  induction 1 as [|c l Hc _ IH]; [constructor|].
  cbn [List.map omap list_omap].
  destruct Hc as [[-> | ->] | (x & -> & Hx)]; cbn [cell_abs present]; try exact IH.
  apply nonzero_false in Hx as (s & ->). constructor; [reflexivity | exact IH].
Qed.

Lemma fold_zeros (xs : list float) :
  Forall (eq F64.zero) xs -> fold_left F64.add xs F64.zero = F64.zero.
Proof. induction 1 as [|x xs <- _ IH]; [reflexivity | exact IH]. Qed.

Lemma series_sum_zero (l : list cell) :
  Forall zero_or_missing l -> series_sum (List.map cell_abs l) = F64.zero.
Proof. intros H. apply fold_zeros, present_zero, H. Qed.

Lemma avg_ratio_zero_imbalance (metrics_df : list metrics_row) :
  Forall (fun row => zero_or_missing (imbalance row)) metrics_df ->
  avg_ratio metrics_df = None.
Proof.
  intros Hzero. apply List.Forall_map in Hzero.
  unfold avg_ratio. cbv zeta. rewrite <- (List.map_map imbalance cell_abs).
  rewrite (series_sum_zero _ Hzero). reflexivity.
Qed.

(** When every imbalance of the metrics is zero or missing, the report is
    not completed: the date and the two totals are written, the average
    ratio is [None], and formatting it raises [TypeError].  The line that
    says the ratio cannot be calculated is not reached. *)
Theorem report_zero_imbalance (metrics_df : list metrics_row) (date : string) :
  Forall (fun row => zero_or_missing (imbalance row)) metrics_df ->
  avg_ratio metrics_df = None /\
  Report.generate_report (Ok tt) metrics_df date
  = ([Date date;
      Total_aFRR_Activation (series_sum (List.map afrr_activation metrics_df));
      Total_Imbalance_Volume (series_sum (List.map imbalance metrics_df))],
     Raise TypeError).
Proof.
  intros Hzero. pose proof (avg_ratio_zero_imbalance metrics_df Hzero) as Havg.
  split; [exact Havg|].
  unfold Report.generate_report. cbv zeta. rewrite Havg. reflexivity.
Qed.

Lemma report_zero_imbalance_two_rows :
  avg_ratio [mk_metrics_row 0 (Worlds.num 5) (Worlds.num 0) NA;
             mk_metrics_row 15 (Worlds.num 1) NA NA] = None /\
  Report.generate_report (Ok tt)
    [mk_metrics_row 0 (Worlds.num 5) (Worlds.num 0) NA;
     mk_metrics_row 15 (Worlds.num 1) NA NA] "2025-09-22"
  = ([Date "2025-09-22"; Total_aFRR_Activation (F64.of_Z 6);
      Total_Imbalance_Volume F64.zero],
     Raise TypeError).
Proof.
  apply (report_zero_imbalance
           [mk_metrics_row 0 (Worlds.num 5) (Worlds.num 0) NA;
            mk_metrics_row 15 (Worlds.num 1) NA NA]
           "2025-09-22").
  constructor; [right; exists F64.zero; split; reflexivity|].
  constructor; [left; left; reflexivity | constructor].
Defined.

(** When the absolute imbalances add up to more than zero and every
    activation is zero or missing, the report is completed: the average
    ratio is 0.0, which is false, and the assessment is the line that says
    the ratio cannot be calculated because of zero imbalance values. *)
Theorem report_assessment (metrics_df : list metrics_row) (date : string) :
  Forall (fun row => zero_or_missing (afrr_activation row)) metrics_df ->
  F64.ltb F64.zero (series_sum (List.map (fun row => cell_abs (imbalance row)) metrics_df))
  = true ->
  avg_ratio metrics_df = Some F64.zero /\
  exists lines,
    Report.generate_report (Ok tt) metrics_df date
    = ((lines ++ [ASSESSMENT Unable_to_calculate_ratio])%list, Ok tt) /\
    In (Average_Ratio F64.zero) lines.
Proof.
  intros Hidle Hsome.
  assert (Havg : avg_ratio metrics_df = Some F64.zero).
  { unfold avg_ratio. cbv zeta. rewrite Hsome.
    rewrite <- (List.map_map imbalance cell_abs) in Hsome |- *.
    rewrite series_sum_replace, <- (List.map_map afrr_activation cell_abs).
    rewrite series_sum_zero by (apply List.Forall_map, Hidle).
    rewrite (div_zero_positive _ Hsome). reflexivity. }
  split; [exact Havg|].
  exists [Date date;
          Total_aFRR_Activation (series_sum (List.map afrr_activation metrics_df));
          Total_Imbalance_Volume (series_sum (List.map imbalance metrics_df));
          Average_Ratio F64.zero;
          Max_aFRR_Activation (series_max (List.map afrr_activation metrics_df));
          Max_Imbalance_Volume (series_max (List.map imbalance metrics_df))].
  split.
  - unfold Report.generate_report. cbv zeta. rewrite Havg. reflexivity.
  - simpl. tauto.
Qed.

Lemma report_assessment_idle_reserve :
  avg_ratio [mk_metrics_row 0 (Worlds.num 0) (Worlds.num 4) (Worlds.num 0);
             mk_metrics_row 15 NA (Worlds.num (-2)) NA]
  = Some F64.zero /\
  exists lines,
    Report.generate_report (Ok tt)
      [mk_metrics_row 0 (Worlds.num 0) (Worlds.num 4) (Worlds.num 0);
       mk_metrics_row 15 NA (Worlds.num (-2)) NA]
      "2025-09-22"
    = ((lines ++ [ASSESSMENT Unable_to_calculate_ratio])%list, Ok tt) /\
    In (Average_Ratio F64.zero) lines.
Proof.
  apply (report_assessment
           [mk_metrics_row 0 (Worlds.num 0) (Worlds.num 4) (Worlds.num 0);
            mk_metrics_row 15 NA (Worlds.num (-2)) NA]
           "2025-09-22").
  - constructor; [right; exists F64.zero; split; reflexivity|].
    constructor; [left; left; reflexivity | constructor].
  - vm_compute. reflexivity.
Defined.

(** The same line is written when the activations are too small for the
    ratio: 1e-300 over 1e300 is 0.0. *)
Example report_assessment_underflow :
  (x ← float_of_str "1e-300"; y ← float_of_str "1e300";
   Ok (avg_ratio [mk_metrics_row 0 (Num x) (Num y) (Num (F64.div x y))]))
  = Ok (Some F64.zero).
Proof. vm_compute. reflexivity. Qed.
End Reporting.

(** ** task1.py: the sign of the ratio *)
Section Numbers.
Import Task1.

Lemma at_label_In (df : DataFrame) (t : Z) (c : cell) :
  at_label df t = Some c -> exists t', In (t', c) df.
Proof.
  induction df as [|[t' v] df IH]; simpl; [discriminate|].
  destruct (t' =? t)%Z.
  - intros [= <-]. exists t'. left. reflexivity.
  - intros H. destruct (IH H) as (t'' & Hin). exists t''. right. exact Hin.
Qed.

(** The columns of the metrics hold the values they are built from. *)
Lemma frame_columns (P1 P2 P3 : cell -> Prop) (labels : list Z) (c1 c2 c3 : list cell) :
  Forall P1 c1 -> Forall P2 c2 -> Forall P3 c3 ->
  Forall (fun row => P1 (afrr_activation row) /\ P2 (imbalance row) /\ P3 (ratio_abs row))
         (frame labels c1 c2 c3).
Proof.
  revert c1 c2 c3. induction labels as [|t labels IH]; intros c1 c2 c3 H1 H2 H3; simpl.
  - constructor.
  - destruct H1 as [|a c1 Ha H1]; [constructor|].
    destruct H2 as [|b c2 Hb H2]; [constructor|].
    destruct H3 as [|r c3 Hr H3]; [constructor|].
    constructor; [simpl; auto | apply IH; assumption].
Qed.

(** A frame is reindexed to values of its own, or to [NaN]. *)
Lemma reindex_values (P : cell -> Prop) (df : DataFrame) (labels : list Z)
    (column : list cell) :
  P (Num F64.nan) -> Forall (fun r => P r.2) df ->
  reindex df labels = Ok column -> Forall P column.
Proof.
  intros Hnan Hdf. unfold reindex.
  destruct (negb (has_duplicates (index df))).
  - intros [= <-]. apply List.Forall_map, List.Forall_forall. intros t _.
    destruct (at_label df t) as [c|] eqn:Hc; simpl; [|exact Hnan].
    apply at_label_In in Hc as (t' & Hin).
    exact (proj1 (List.Forall_forall _ _) Hdf (t', c) Hin).
  - destruct (same_labels (index df) labels); [|discriminate].
    intros [= <-]. apply List.Forall_map. exact Hdf.
Qed.





(** A finite activation over a finite imbalance can be infinite: 1e308 over
    1e-308. *)
Example ratio_overflow :
  (x ← float_of_str "1e308"; y ← float_of_str "1e-308";
   List.map ratio_abs <$> calculate_metrics [(0%Z, Num x)] [(0%Z, Num y)])
  = Ok [Num (F64.infinity false)].
Proof. vm_compute. reflexivity. Qed.
End Numbers.

(** ** The target of a reference: the text after the last separator *)

Lemma split_go_none (sep s cur : string) :
  str_in sep s = false -> split_go sep 0 cur s = [String.rev_app cur s].
Proof.
  revert cur. induction s as [|c rest IH]; intros cur Hnone; [reflexivity|].
  cbn [str_in] in Hnone. apply orb_false_iff in Hnone as [Hhere Hrest].
  cbn [split_go]. rewrite Hhere. rewrite (IH _ Hrest). reflexivity.
Qed.

Lemma split_go_skip (sep x y cur : string) :
  split_go sep (String.length x) cur (x ++ y) = split_go sep 0 cur y.
Proof.
  induction x as [|c x IH]; [reflexivity|]. exact IH.
Qed.

Lemma split_go_last_cons (sep : string) (skip : nat) (cur s d piece : string) :
  List.last (piece :: split_go sep skip cur s) d = List.last (split_go sep skip cur s) d.
Proof.
  destruct (split_go sep skip cur s) as [|p l] eqn:E; [|reflexivity].
  exfalso. revert skip cur E. induction s as [|c rest IH]; intros skip cur E.
  - discriminate E.
  - cbn [split_go] in E. destruct skip as [|k]; [|exact (IH _ _ E)].
    destruct (String.prefix sep (String c rest)); [discriminate E | exact (IH _ _ E)].
Qed.

Lemma prefix_append (a b : string) : String.prefix a (a ++ b) = true.
Proof.
  induction a as [|c a IH]; simpl; [destruct b; reflexivity|].
  destruct (ascii_dec c c); [exact IH | congruence].
Qed.

Lemma prefix_within (a : ascii) (sep' pre rest : string) :
  str_in (String a EmptyString) sep' = false ->
  String.prefix sep' (pre ++ String a rest) = true ->
  (String.length sep' <= String.length pre)%nat.
Proof.
  revert pre. induction sep' as [|b sep' IH]; intros pre Hfresh Hprefix; [simpl; lia|].
  cbn [str_in] in Hfresh. apply orb_false_iff in Hfresh as [Hb Hfresh].
  destruct pre as [|c pre]; simpl in Hprefix.
  - exfalso. destruct (ascii_dec b a) as [->|]; [|discriminate].
    simpl in Hb. destruct (ascii_dec a a); [|congruence].
    destruct sep'; discriminate.
  - destruct (ascii_dec b c); [|discriminate].
    simpl. apply le_n_S, IH; assumption.
Qed.

Lemma split_go_last (a : ascii) (sep' post : string) :
  str_in (String a EmptyString) sep' = false ->
  str_in (String a sep') post = false ->
  forall pre skip cur d,
    (skip <= String.length pre)%nat ->
    List.last (split_go (String a sep') skip cur (pre ++ String a sep' ++ post)) d = post.
Proof.
  intros Hfresh Hpost. induction pre as [|c pre IH]; intros skip cur d Hskip.
  - assert (skip = 0%nat) as -> by (simpl in Hskip; lia).
    change (EmptyString ++ String a sep' ++ post) with (String a (sep' ++ post)).
    cbn [split_go].
    replace (String.prefix (String a sep') (String a (sep' ++ post))) with true
      by (symmetry; apply (prefix_append (String a sep') post)).
    rewrite split_go_last_cons.
    replace (String.length (String a sep') - 1)%nat with (String.length sep')
      by (simpl; lia).
    rewrite split_go_skip, (split_go_none _ _ _ Hpost). reflexivity.
  - change (String c pre ++ String a sep' ++ post)
      with (String c (pre ++ String a sep' ++ post)).
    cbn [split_go]. destruct skip as [|k].
    + destruct (String.prefix (String a sep') (String c (pre ++ String a sep' ++ post)))
        eqn:Hmatch.
      * rewrite split_go_last_cons. apply IH.
        simpl in Hmatch. destruct (ascii_dec a c); [|discriminate].
        apply (prefix_within a) in Hmatch; [simpl; lia | exact Hfresh].
      * apply IH. lia.
    + apply IH. simpl in Hskip. lia.
Qed.

Lemma split_last_whole (sep s : string) :
  str_in sep s = false -> split_last sep s = s.
Proof.
  intros Hnone. unfold split_last, py_split. rewrite (split_go_none _ _ _ Hnone). reflexivity.
Qed.

Lemma split_last_after (a : ascii) (sep' pre post : string) :
  str_in (String a EmptyString) sep' = false ->
  str_in (String a sep') post = false ->
  split_last (String a sep') (pre ++ String a sep' ++ post) = post.
Proof.
  intros Hfresh Hpost. unfold split_last, py_split.
  apply (split_go_last a sep' post Hfresh Hpost). lia.
Qed.

(** Question 2 on a document that has the data.  The machine looked at is
    the first one named NL-G1.  When its control reference ends in [#_] and
    an identifier, the control is the first one with that mRID, and the mode
    printed is the text after the last [#] of the mode reference of that
    control; what stands before [#_] in the reference plays no part. *)
Theorem question_2_mode (root sync_machine reg_control : Element)
    (pre reg_control_id ns mode : string) :
  List.find (fun sm => is_str (get_element_text sm "IdentifiedObject.name") "NL-G1")
            (findall_cim "SynchronousMachine" root) = Some sync_machine ->
  get_element_resource sync_machine "RegulatingCondEq.RegulatingControl"
  = Some (pre ++ "#_" ++ reg_control_id) ->
  str_in "#_" reg_control_id = false ->
  List.find (fun rc => is_str (get_element_text rc "IdentifiedObject.mRID") reg_control_id)
            (findall_cim "RegulatingControl" root) = Some reg_control ->
  get_element_resource reg_control "RegulatingControl.mode" = Some (ns ++ "#" ++ mode) ->
  str_in "#" mode = false ->
  analyze_question_2 root
  = Some (get_element_text sync_machine "IdentifiedObject.mRID", Regulation_Mode mode).
Proof.
  intros Hmachine Href Hid Hcontrol Hmode Hlast.
  unfold analyze_question_2. rewrite Hmachine. cbv zeta. rewrite Href.
  replace (truthy (Some (pre ++ "#_" ++ reg_control_id))) with true
    by (destruct pre; reflexivity).
  rewrite (split_last_after "#" "_" pre reg_control_id eq_refl Hid).
  rewrite Hcontrol, Hmode. unfold member_or.
  replace (truthy (Some (ns ++ "#" ++ mode))) with true by (destruct ns; reflexivity).
  rewrite (split_last_after "#" EmptyString ns mode eq_refl Hlast). reflexivity.
Qed.

Lemma question_2_mode_voltage :
  analyze_question_2 Samples2.regulated_document
  = Some (Some "sm1", Regulation_Mode "RegulatingControlModeKind.voltage").
Proof.
  apply (question_2_mode Samples2.regulated_document
           (entity "SynchronousMachine" "sm1"
              [leaf "IdentifiedObject.name" "NL-G1";
               ref "RegulatingCondEq.RegulatingControl" "#_rc1"])
           (entity "RegulatingControl" "rc1"
              [ref "RegulatingControl.mode"
                 "http://iec.ch/TC57/2013/CIM-schema-cim16#RegulatingControlModeKind.voltage"])
           EmptyString "rc1" "http://iec.ch/TC57/2013/CIM-schema-cim16"
           "RegulatingControlModeKind.voltage"); reflexivity.
Defined.

(** ** task1.py: a day without imbalance *)
Section ZeroImbalance.
Import Task1 Report.

(** A day on which every imbalance volume is zero.  When both reports are
    fetched and parsed, every value of the imbalance frame is zero or
    missing, the metrics can be calculated (no frame has a repeated time
    that the union of the times does not have as often), and the CSV file
    and the plots can be written, [main] ends with the [TypeError] of the
    report, after the CSV file and the plots: the run fails although it has
    all its data. *)
Theorem main_zero_imbalance (w : world) (date out : string) (timeout : Z)
    (start end_ : minute_stamp) (afrr_data imbalance_data : payload)
    (afrr_df imbalance_df : DataFrame) (metrics_df : list metrics_row) :
  (forall metrics_df, Task1.generate_report w metrics_df out date
                      = report_stage metrics_df out date) ->
  mkdir w out = Ok tt ->
  get_day_range (fromisoformat w) date = Ok (start, end_) ->
  fetch_data (requests_get w) REPORT_ID_AFRR start end_ "EET" timeout = Ok afrr_data ->
  parse_to_dataframe (to_datetime w) afrr_data = Ok afrr_df ->
  fetch_data (requests_get w) REPORT_ID_IMBALANCE start end_ "EET" timeout
  = Ok imbalance_data ->
  parse_to_dataframe (to_datetime w) imbalance_data = Ok imbalance_df ->
  Forall (fun r => zero_or_missing r.2) imbalance_df ->
  calculate_metrics afrr_df imbalance_df = Ok metrics_df ->
  to_csv w metrics_df out = Ok tt ->
  Task1.create_plots w metrics_df out date = Ok tt ->
  main w date out timeout = Raise TypeError.
Proof.
  intros Hreport Hmkdir Hrange Hafrr Hafrr_df Himb Himb_df Hzero Hmetrics Hcsv Hplots.
  unfold main. rewrite Hmkdir. cbn [mbind result_bind]. rewrite Hrange.
  cbn [mbind result_bind]. rewrite Hafrr. cbn [mbind result_bind].
  rewrite Hafrr_df. cbn [mbind result_bind]. rewrite Himb. cbn [mbind result_bind].
  rewrite Himb_df. cbn [mbind result_bind]. rewrite Hmetrics. cbn [mbind result_bind].
  rewrite Hcsv. cbn [mbind result_bind]. rewrite Hplots. cbn [mbind result_bind].
  rewrite Hreport. unfold report_stage, Report.generate_report. cbv zeta.
  rewrite avg_ratio_zero_imbalance; [reflexivity|].
  revert Hmetrics. unfold calculate_metrics. cbv zeta.
  destruct (reindex afrr_df _) as [afrr_aligned|]; [|discriminate].
  destruct (reindex imbalance_df _) as [imbalance_aligned|] eqn:Haligned; [|discriminate].
  cbn [mbind result_bind]. intros [= <-].
  assert (Hany : forall column : list cell, Forall (fun _ => True) column)
    by (intros column; apply List.Forall_forall; auto).
  eapply List.Forall_impl;
    [|exact (frame_columns (fun _ => True) zero_or_missing (fun _ => True) _ _ _ _
               (Hany _)
               (reindex_values zero_or_missing _ _ _ (or_introl (or_intror eq_refl))
                  Hzero Haligned)
               (Hany _))].
  intros row (_ & H & _). exact H.
Qed.

Lemma main_zero_imbalance_day :
  main Worlds2.zero_imbalance_day "2025-09-22" "outputs/task1" 30 = Raise TypeError.
Proof.
  apply (main_zero_imbalance Worlds2.zero_imbalance_day "2025-09-22" "outputs/task1" 30
           (mk_stamp 2025 9 22 0 0) (mk_stamp 2025 9 22 23 59)
           Worlds.one_item Worlds2.zero_item
           [(0%Z, Num (F64.of_Z 3))] [(0%Z, Num F64.zero)]
           [mk_metrics_row 0 (Num (F64.of_Z 3)) (Num F64.zero) NA]);
    try reflexivity; try (vm_compute; reflexivity).
  constructor; [|constructor]. right. exists F64.zero. split; reflexivity.
Defined.

(** With the activation at a time given twice, and the imbalance at
    another time, the metrics cannot be calculated: reindexing raises
    [ValueError]. *)
Example main_repeated_time :
  calculate_metrics [(0%Z, Worlds.num 1); (0%Z, Worlds.num 2)] [(15%Z, Worlds.num 0)]
  = Raise ValueError.
Proof. reflexivity. Qed.
End ZeroImbalance.

